(** * Vector-control dashboard: normalisation, filtering, sector
      unification, cerco effectiveness and the bounded render guard.

    A shallow embedding of [utils/data_processor.py],
    [utils/sector_similarity.py], [utils/table_helpers.py], of
    [CercoTab.calculate_cerco_effectiveness] and of
    [FilterComponent.apply_date_filter], with the properties the
    specification states about them (Part III) and further properties
    read off the code (Part IV).

    The code manipulates pandas frames.  A frame is modelled column-major,
    as pandas stores it: an index of row labels and a list of named, typed
    columns.  pandas operations are modelled at the level of cell values
    (what [replace], [fillna], [astype], boolean-mask selection and [isin]
    do to each cell) and of column dtypes, where the code depends on them:
    [DataFrame.replace] infers anew the dtype of the object columns it
    has changed, and a category-encoded column refuses values of other
    categories.  Column labels are taken to be unique, as [read_csv]
    produces them, and floating point is modelled by exact rationals. *)

From Stdlib Require Import List String Ascii Bool Arith ZArith QArith Lia.
From Stdlib Require Import Qround DecimalString Permutation Sorted.
From Equations Require Import Equations.
Import ListNotations.

Local Open Scope string_scope.
Local Open Scope list_scope.

(* ===================================================================== *)
(** * Part I: the program                                                  *)
(* ===================================================================== *)

(** ** Python results *)

Inductive error : Type :=
| KeyError (key : string)
| IndexError
| AttributeError (what : string)
| TypeError (what : string)
| ValueError (what : string)
| ZeroDivisionError.

Inductive result (A : Type) : Type :=
| Ok (a : A)
| Raise (e : error).
Arguments Ok {A} a.
Arguments Raise {A} e.

Definition bind {A B : Type} (r : result A) (k : A -> result B) : result B :=
  match r with
  | Ok a => k a
  | Raise e => Raise e
  end.

Notation "x <- r ;; k" := (bind r (fun x => k))
  (at level 61, r at next level, right associativity).

(** ** Cells, columns, frames *)

(** A cell of a frame.  [Null] stands for every pandas missing value
    (NaN, None, NaT); numbers are rationals; a timestamp is its number of
    nanoseconds since the epoch. *)
Inductive cell : Type :=
| Null
| Str (s : string)
| Num (q : Q)
| Date (t : Z).

Inductive dtype : Type := DObject | DNumber | DDatetime | DCategory.

Record column : Type := mkColumn {
  col_name : string;
  col_dtype : dtype;
  col_values : list cell
}.

Record DataFrame : Type := mkDataFrame {
  df_index : list nat;
  df_columns : list column
}.

Definition is_null (c : cell) : bool :=
  match c with Null => true | _ => false end.

(** Element-wise [==]: a missing value is equal to nothing, values of
    different kinds are different.  (pandas parses a string it compares
    with a timestamp; the filter sets of this program never do that, dates
    being filtered by the caller through [date_range].) *)
Definition cell_eqb (a b : cell) : bool :=
  match a, b with
  | Str s, Str t => String.eqb s t
  | Num p, Num q => Qeq_bool p q
  | Date s, Date t => Z.eqb s t
  | _, _ => false
  end.

(** The equality of [unique], [nunique] and [isin]: as [==], except that
    missing values are all the same value. *)
Definition cell_same (a b : cell) : bool :=
  match a, b with
  | Null, Null => true
  | _, _ => cell_eqb a b
  end.

Definition isin (values : list cell) (c : cell) : bool :=
  existsb (cell_same c) values.

(** [len(df)]. *)
Definition nrows (df : DataFrame) : nat := List.length (df_index df).

(** [df.empty]: one of the axes has length 0. *)
Definition df_empty (df : DataFrame) : bool :=
  match df_index df, df_columns df with
  | [], _ | _, [] => true
  | _, _ => false
  end.

Definition mem_string (s : string) (l : list string) : bool :=
  existsb (String.eqb s) l.

(** [name in df.columns]. *)
Definition has_column (name : string) (df : DataFrame) : bool :=
  mem_string name (map col_name (df_columns df)).

(** [df[name]]: the column, or a [KeyError]. *)
Definition find_column (name : string) (df : DataFrame) : option column :=
  find (fun c => String.eqb (col_name c) name) (df_columns df).

Definition get_column (name : string) (df : DataFrame) : result column :=
  match find_column name df with
  | Some c => Ok c
  | None => Raise (KeyError name)
  end.

(** [df[name] = f(df[name])]. *)
Definition map_column (name : string) (f : column -> column)
    (df : DataFrame) : DataFrame :=
  mkDataFrame (df_index df)
    (map (fun c => if String.eqb (col_name c) name then f c else c)
         (df_columns df)).

(** [df[name] = series]: overwrite the column, or append a new one. *)
Definition set_column (name : string) (ty : dtype) (vs : list cell)
    (df : DataFrame) : DataFrame :=
  if has_column name df
  then map_column name (fun _ => mkColumn name ty vs) df
  else mkDataFrame (df_index df) (df_columns df ++ [mkColumn name ty vs]).

Definition map_values (f : cell -> cell) (c : column) : column :=
  mkColumn (col_name c) (col_dtype c) (map f (col_values c)).

(** Boolean-mask selection [x[mask]] on a list of row-aligned values. *)
Fixpoint select {A : Type} (mask : list bool) (xs : list A) : list A :=
  match mask, xs with
  | m :: mask', x :: xs' =>
      if m then x :: select mask' xs' else select mask' xs'
  | _, _ => []
  end.

(** [df[mask]]: the rows where the mask holds, labels kept. *)
Definition select_rows (mask : list bool) (df : DataFrame) : DataFrame :=
  mkDataFrame (select mask (df_index df))
    (map (fun c => mkColumn (col_name c) (col_dtype c)
                     (select mask (col_values c)))
         (df_columns df)).

(** [series.fillna(v)]. *)
Definition fillna (v : cell) (c : cell) : cell :=
  match c with Null => v | _ => c end.

(** [series.replace(s, np.nan)] for a string [s]. *)
Definition replace_with_nan (s : string) (c : cell) : cell :=
  match c with
  | Str t => if String.eqb t s then Null else c
  | _ => c
  end.

(** [series.replace(s, '')] for a string [s]. *)
Definition replace_with_empty (s : string) (c : cell) : cell :=
  match c with
  | Str t => if String.eqb t s then Str "" else c
  | _ => c
  end.

(** [series.unique()]: first occurrences, in order of appearance. *)
Fixpoint unique_aux (seen : list cell) (xs : list cell) : list cell :=
  match xs with
  | [] => []
  | x :: xs' =>
      if isin seen x then unique_aux seen xs'
      else x :: unique_aux (x :: seen) xs'
  end.

Definition unique (xs : list cell) : list cell := unique_aux [] xs.

(** [series.dropna()]. *)
Definition dropna (xs : list cell) : list cell :=
  filter (fun c => negb (is_null c)) xs.

(** [series.nunique()]: distinct values, missing ones not counted. *)
Definition nunique (xs : list cell) : nat :=
  List.length (unique (dropna xs)).

(** ** What pandas and Python compute on single values

    Parsing and printing of dates and numbers belong to pandas and to
    Python; the program only calls them. *)
Class Pandas : Type := {
  (** [pd.to_datetime(s, errors='coerce')] on a string *)
  parse_datetime : string -> option Z;
  (** [pd.to_datetime(x, errors='coerce')] on a number *)
  datetime_of_num : Q -> option Z;
  (** [pd.to_numeric(s, errors='coerce')] on a string *)
  parse_numeric : string -> option Q;
  (** [Timestamp.year] *)
  year_of : Z -> Z;
  (** [str(x)] on a number *)
  str_of_num : Q -> string;
  (** [str(x)] on a timestamp *)
  str_of_datetime : Z -> string
}.

Definition cell_of_option {A : Type} (f : A -> cell) (o : option A) : cell :=
  match o with Some a => f a | None => Null end.

Section DataProcessor.
Context {pandas : Pandas}.

(** [pd.to_datetime(series, errors='coerce')]. *)
Definition to_datetime_cell (c : cell) : cell :=
  match c with
  | Null => Null
  | Str s => cell_of_option Date (parse_datetime s)
  | Num q => cell_of_option Date (datetime_of_num q)
  | Date t => Date t
  end.

Definition to_datetime (c : column) : column :=
  match col_dtype c with
  | DDatetime => c
  | _ => mkColumn (col_name c) DDatetime (map to_datetime_cell (col_values c))
  end.

(** [pd.to_numeric(series, errors='coerce')]: a numeric column is
    returned as it is, a datetime column is viewed as its int64
    nanoseconds (NaT being the smallest int64), anything else is parsed
    value by value. *)
Definition iNaT : Z := (-9223372036854775808)%Z.

Definition to_numeric_cell (c : cell) : cell :=
  match c with
  | Null => Null
  | Str s => cell_of_option Num (parse_numeric s)
  | Num q => Num q
  | Date _ => Null
  end.

Definition datetime_view_cell (c : cell) : cell :=
  match c with
  | Date t => Num (inject_Z t)
  | Null => Num (inject_Z iNaT)
  | _ => c
  end.

Definition to_numeric (c : column) : column :=
  match col_dtype c with
  | DNumber => c
  | DDatetime =>
      mkColumn (col_name c) DNumber (map datetime_view_cell (col_values c))
  | _ => mkColumn (col_name c) DNumber (map to_numeric_cell (col_values c))
  end.

(** [series.astype(str)]. *)
Definition astype_str_cell (c : cell) : cell :=
  match c with
  | Null => Str "nan"
  | Str s => Str s
  | Num q => Str (str_of_num q)
  | Date t => Str (str_of_datetime t)
  end.

(** [series.dt.year]. *)
Definition year_cell (c : cell) : cell :=
  match c with
  | Date t => Num (inject_Z (year_of t))
  | _ => Null
  end.

(** *** [DataProcessor._optimize_for_production] *)

(** [data.columns[data.isnull().all()]] *)
Definition all_null (c : column) : bool := forallb is_null (col_values c).

(** [data[col].nunique() / len(data) < 0.3] *)
Definition Qlt_bool (a b : Q) : bool := negb (Qle_bool b a).

Definition low_cardinality (n : nat) (c : column) : bool :=
  Qlt_bool (inject_Z (Z.of_nat (nunique (col_values c)))
              / inject_Z (Z.of_nat n))
           (3 # 10).

Definition categorize (n : nat) (c : column) : column :=
  match col_dtype c with
  | DObject =>
      if low_cardinality n c
      then mkColumn (col_name c) DCategory (col_values c)
      else c
  | _ => c
  end.

Definition optimize_for_production (data : DataFrame) : DataFrame :=
  let kept := filter (fun c => negb (all_null c)) (df_columns data) in
  mkDataFrame (df_index data) (map (categorize (nrows data)) kept).

(** *** [DataProcessor.process_data] *)

Definition date_columns : list string :=
  ["fecha_inspeccion"; "_createdAt_x"; "_createdAt_y"; "hora_ingreso";
   "hora_salida"; "fecha_creacion"; "recuperacion_fecha";
   "recuperacion_fecha_asignacion"].

Definition critical_numeric_columns : list string :=
  ["cod_renipress"; "aedic_index"; "container_index";
   "breteau_index"; "intensity"; "indice_aedico"].

Definition is_str (c : cell) : bool :=
  match c with Str _ => true | _ => false end.

Definition is_num (c : cell) : bool :=
  match c with Num _ => true | _ => false end.

Definition is_date (c : cell) : bool :=
  match c with Date _ => true | _ => false end.

Definition is_object (c : column) : bool :=
  match col_dtype c with DObject => true | _ => false end.

(** The dtype pandas infers for the cells of an object column
    ([Block.convert], through [lib.maybe_convert_objects]): one string
    keeps them objects; numbers and missing values make a float column
    -- missing values alone too --, timestamps and missing values a
    datetime column; numbers mixed with timestamps stay objects, and so
    does a column without cells.  A missing value of an object column is
    NaN here: it is what [pd.read_csv], from which the tables of this
    program come, and [replace(s, np.nan)] put there. *)
Definition infer_dtype (vs : list cell) : dtype :=
  if existsb is_str vs then DObject
  else if existsb is_date vs
  then (if existsb is_num vs then DObject else DDatetime)
  else match vs with [] => DObject | _ => DNumber end.

Definition infer_objects (c : column) : column :=
  match col_dtype c with
  | DObject => mkColumn (col_name c) (infer_dtype (col_values c)) (col_values c)
  | _ => c
  end.

(** Whether [replace(s, np.nan)] finds [s] among the object columns. *)
Definition replace_hits (s : string) (df : DataFrame) : bool :=
  existsb (fun c => is_object c && existsb (cell_eqb (Str s)) (col_values c))
          (df_columns df).

(** One column of [df.replace(s, np.nan)]: the cells equal to [s] become
    missing, and when the replacement has changed the object columns,
    the dtype of each of them is inferred anew. *)
Definition replace_in_column (s : string) (hit : bool) (c : column)
    : column :=
  let c := map_values (replace_with_nan s) c in
  if hit then infer_objects c else c.

(** [self.data = self.data.replace(s, np.nan)].  The object columns of
    the frame form one block ([__init__] has just copied it); when the
    block holds [s], pandas replaces it and then converts the block,
    column by column, so that an object column left without a string
    comes back as float64 or datetime64.  A block that does not hold [s]
    is returned as it is.  In a category-encoded column the category [s]
    is removed and its cells become missing; the dtype stays. *)
Definition df_replace_with_nan (s : string) (df : DataFrame) : DataFrame :=
  mkDataFrame (df_index df)
    (map (replace_in_column s (replace_hits s df)) (df_columns df)).

(** [for col in names: if col in self.data.columns: self.data[col] = f(...)] *)
Definition for_columns (names : list string) (f : column -> column)
    (df : DataFrame) : DataFrame :=
  fold_left
    (fun d name => if has_column name d then map_column name f d else d)
    names df.

(** [self.data['year'] = self.data['fecha_inspeccion'].dt.year] *)
Definition extract_year (df : DataFrame) : DataFrame :=
  match find_column "fecha_inspeccion" df with
  | Some c => set_column "year" DNumber (map year_cell (col_values c)) df
  | None => df
  end.

Definition fill_numeric (c : column) : column :=
  match col_dtype c with
  | DNumber => map_values (fillna (Num 0)) c
  | _ => c
  end.

Definition clean_text_cell (c : cell) : cell :=
  replace_with_empty "None"
    (replace_with_empty "NaN"
      (replace_with_empty "nan"
        (astype_str_cell (fillna (Str "") c)))).

Definition fill_text (c : column) : column :=
  match col_dtype c with
  | DObject =>
      if mem_string (col_name c) date_columns then c
      else map_values clean_text_cell c
  | _ => c
  end.

Definition process_data (data : DataFrame) : DataFrame :=
  let data := df_replace_with_nan "" data in
  let data := df_replace_with_nan " " data in
  let data := df_replace_with_nan "nan" data in
  let data := for_columns date_columns to_datetime data in
  let data := extract_year data in
  let data :=
    for_columns critical_numeric_columns
      (fun c => map_values (fillna (Num 0)) (to_numeric c)) data in
  let data := mkDataFrame (df_index data)
                (map fill_numeric (df_columns data)) in
  mkDataFrame (df_index data) (map fill_text (df_columns data)).

(** [DataProcessor.__init__]: the frame the processor holds. *)
Definition DataProcessor_init (is_production : bool) (data : DataFrame)
    : DataFrame :=
  process_data
    (if is_production then optimize_for_production data else data).

End DataProcessor.

(** ** [DataProcessor.get_filtered_data] *)

(** [str.lower()], on ASCII letters. *)
Definition lower_ascii (a : ascii) : ascii :=
  let n := nat_of_ascii a in
  if (65 <=? n)%nat && (n <=? 90)%nat then ascii_of_nat (n + 32) else a.

Fixpoint lower (s : string) : string :=
  match s with
  | EmptyString => EmptyString
  | String a s' => String (lower_ascii a) (lower s')
  end.

(** [series.str.lower()]: the accessor exists on text columns only;
    a cell that is not a string becomes missing. *)
Definition str_lower (c : column) : result (list cell) :=
  match col_dtype c with
  | DObject | DCategory =>
      Ok (map (fun v => match v with Str s => Str (lower s) | _ => Null end)
              (col_values c))
  | _ => Raise (AttributeError "Can only use .str accessor with string values")
  end.

(** The values a filter set holds: a scalar, a list (membership), the
    [date_range] pair, a flat sector mapping, or a sector mapping per
    province. *)
Inductive filter_value : Type :=
| FNone
| FBool (b : bool)
| FNum (q : Q)
| FStr (s : string)
| FList (l : list cell)
| FDateRange (start stop : Z)
| FMapping (m : list (string * string))
| FByProvince (m : list (string * list (string * string))).

(** A Python dict with string keys: distinct keys, in insertion order. *)
Definition dict (V : Type) : Type := list (string * V).

Definition dict_get {V : Type} (k : string) (d : dict V) : option V :=
  option_map snd (find (fun kv => String.eqb (fst kv) k) d).

Definition dict_has {V : Type} (k : string) (d : dict V) : bool :=
  mem_string k (map fst d).

(** [d[k] = v]. *)
Fixpoint dict_set {V : Type} (k : string) (v : V) (d : dict V) : dict V :=
  match d with
  | [] => [(k, v)]
  | (k', v') :: d' =>
      if String.eqb k' k then (k, v) :: d' else (k', v') :: dict_set k v d'
  end.

(** Python truthiness. *)
Definition truthy (v : filter_value) : bool :=
  match v with
  | FNone => false
  | FBool b => b
  | FNum q => negb (Qeq_bool q 0)
  | FStr s => negb (String.eqb s "")
  | FList l => match l with [] => false | _ => true end
  | FDateRange _ _ => true
  | FMapping m => match m with [] => false | _ => true end
  | FByProvince m => match m with [] => false | _ => true end
  end.

Definition BY_PROVINCE : string := "sector_unification_mapping_by_province".
Definition FLAT_MAPPING : string := "sector_unification_mapping".

(** [series.replace(mapping)] with a dict: every cell equal to a key
    becomes the value of that key. *)
Definition replace_mapping (m : dict string) (c : cell) : cell :=
  match c with
  | Str s => match dict_get s m with Some t => Str t | None => c end
  | _ => c
  end.

(** [SectorSimilarityDetector.apply_unification] *)
Definition apply_unification (data : DataFrame) (column_name : string)
    (unification_mapping : dict string) : DataFrame :=
  match unification_mapping with
  | [] => data
  | _ =>
      if has_column column_name data
      then map_column column_name
             (map_values (replace_mapping unification_mapping)) data
      else data
  end.

(** Writing row-aligned values back under a mask. *)
Fixpoint scatter {A : Type} (mask : list bool) (old new : list A) : list A :=
  match mask, old with
  | m :: mask', x :: old' =>
      if m then
        match new with
        | y :: new' => y :: scatter mask' old' new'
        | [] => x :: scatter mask' old' []
        end
      else x :: scatter mask' old' new
  | _, _ => old
  end.

(** The masked rows of every column take the values of the column of the
    same name in [sub]. *)
Definition loc_write (mask : list bool) (df sub : DataFrame) : DataFrame :=
  mkDataFrame (df_index df)
    (map (fun c =>
            match find_column (col_name c) sub with
            | Some c' =>
                mkColumn (col_name c) (col_dtype c)
                  (scatter mask (col_values c) (col_values c'))
            | None => c
            end)
         (df_columns df)).

Definition is_category (c : column) : bool :=
  match col_dtype c with DCategory => true | _ => false end.

(** [df.loc[mask] = sub], column by column.  A category-encoded column
    takes the values of a column with the same categories only:
    [Categorical.__setitem__] raises on any other.  [retyped] lists the
    columns of [sub] whose categories are no longer those of the column
    of [df]. *)
Definition loc_assign (mask : list bool) (df sub : DataFrame)
    (retyped : list string) : result DataFrame :=
  if existsb (fun c => is_category c && mem_string (col_name c) retyped)
             (df_columns df)
  then Raise (TypeError
    "Cannot set a Categorical with another, without identical categories")
  else Ok (loc_write mask df sub).

(** The categories of a category-encoded column of the table the
    processor holds are its distinct values: [astype('category')] takes
    them from the values, and [replace(x, np.nan)] removes the category
    [x] together with its cells. *)
Definition categories (c : column) : list cell :=
  unique (dropna (col_values c)).

(** [Categorical.replace(mapping)] on the categories: every category
    that is a key is renamed, and categories that became the same are
    merged. *)
Definition replace_categories (m : dict string) (cats : list cell)
    : list cell :=
  unique (map (replace_mapping m) cats).

(** Two categorical dtypes are equal when they have the same set of
    categories. *)
Definition same_categories (a b : list cell) : bool :=
  forallb (isin b) a && forallb (isin a) b.

(** The columns [apply_unification] leaves with other categories: the
    sector column, when the mapping is not empty and renames a category
    to a name that is not one, or merges two. *)
Definition retyped_by_unification (sector_categories : list cell)
    (mapping : dict string) : list string :=
  match mapping with
  | [] => []
  | _ =>
      if same_categories sector_categories
           (replace_categories mapping sector_categories)
      then [] else ["sector"]
  end.

(** One turn of the loop over [unification_mapping_by_province.items()].
    [sector_categories] are the categories of the sector column; they
    matter when the column is category-encoded. *)
Definition unify_province (sector_categories : list cell)
    (filtered_data : DataFrame) (item : string * dict string)
    : result DataFrame :=
  let '(province, mapping) := item in
  prov <- get_column "nombre_prov" filtered_data ;;
  let province_mask :=
    map (fun c => cell_eqb c (Str province)) (col_values prov) in
  if existsb (fun b => b) province_mask then
    let province_data := select_rows province_mask filtered_data in
    let province_data := apply_unification province_data "sector" mapping in
    loc_assign province_mask filtered_data province_data
      (retyped_by_unification sector_categories mapping)
  else Ok filtered_data.

(** The loop.  A write-back that succeeds leaves the categories of the
    column it writes to as they were (the cells are written as codes of
    the same categories), so every turn compares with the categories of
    the table the loop started from. *)
Definition unify_by_province (filtered_data : DataFrame)
    (m : dict (dict string)) : result DataFrame :=
  let sector_categories :=
    match find_column "sector" filtered_data with
    | Some c => categories c
    | None => []
    end in
  fold_left
    (fun r item => d <- r ;; unify_province sector_categories d item)
    m (Ok filtered_data).

(** The first block of [get_filtered_data].  A value under a mapping key
    that is no mapping of the expected shape is not part of the filter-set
    data model; it is modelled as raising. *)
Definition unify_stage (filtered_data : DataFrame)
    (filters : option (dict filter_value)) : result DataFrame :=
  let fs := match filters with Some d => d | None => [] end in
  if dict_has BY_PROVINCE fs
     && has_column "sector" filtered_data
     && has_column "nombre_prov" filtered_data
  then
    match dict_get BY_PROVINCE fs with
    | Some (FByProvince m) => unify_by_province filtered_data m
    | Some v =>
        if truthy v then Raise (AttributeError "items") else Ok filtered_data
    | None => Ok filtered_data
    end
  else if dict_has FLAT_MAPPING fs && has_column "sector" filtered_data
  then
    match dict_get FLAT_MAPPING fs with
    | Some (FMapping m) => Ok (apply_unification filtered_data "sector" m)
    | Some v =>
        if truthy v then Raise (TypeError "replace") else Ok filtered_data
    | None => Ok filtered_data
    end
  else Ok filtered_data.

(** [if activity_type: filtered_data = filtered_data[... == ...]] *)
Definition activity_stage (filtered_data : DataFrame)
    (activity_type : option string) : result DataFrame :=
  match activity_type with
  | None => Ok filtered_data
  | Some a =>
      if String.eqb a "" then Ok filtered_data
      else
        c <- get_column "tipoActividadInspeccion" filtered_data ;;
        lowered <- str_lower c ;;
        Ok (select_rows
              (map (fun v => cell_eqb v (Str (lower a))) lowered)
              filtered_data)
  end.

(** [filtered_data[key].isin(value)] or [filtered_data[key] == value]. *)
Definition filter_mask (value : filter_value) (vs : list cell)
    : result (list bool) :=
  match value with
  | FList l => Ok (map (isin l) vs)
  | FStr s => Ok (map (fun c => cell_eqb c (Str s)) vs)
  | FNum q => Ok (map (fun c => cell_eqb c (Num q)) vs)
  | FBool b => Ok (map (fun c => cell_eqb c (Num (if b then 1 else 0))) vs)
  | FNone => Ok (map (fun _ => false) vs)
  | _ => Raise (TypeError "comparison")
  end.

(** One turn of the loop over [filters.items()]. *)
Definition apply_filter (filtered_data : DataFrame)
    (item : string * filter_value) : result DataFrame :=
  let '(key, value) := item in
  if mem_string key [FLAT_MAPPING; BY_PROVINCE] then Ok filtered_data
  else if truthy value && has_column key filtered_data then
    c <- get_column key filtered_data ;;
    mask <- filter_mask value (col_values c) ;;
    Ok (select_rows mask filtered_data)
  else Ok filtered_data.

Definition filters_stage (filtered_data : DataFrame)
    (filters : option (dict filter_value)) : result DataFrame :=
  match filters with
  | Some fs =>
      fold_left (fun r item => d <- r ;; apply_filter d item)
                fs (Ok filtered_data)
  | None => Ok filtered_data
  end.

Definition get_filtered_data (data : DataFrame)
    (activity_type : option string) (filters : option (dict filter_value))
    : result DataFrame :=
  filtered_data <- unify_stage data filters ;;
  filtered_data <- activity_stage filtered_data activity_type ;;
  filters_stage filtered_data filters.

(** ** [DataProcessor.get_unique_values] *)

(** [sorted(xs, key=...)]: Python's sort is stable, so it is determined by
    the strict order on the keys; insertion after the equal keys computes
    it. *)
Section Sorted.
Context {K A : Type} (lt : K -> K -> bool).

Fixpoint insert_by (x : K * A) (l : list (K * A)) : list (K * A) :=
  match l with
  | [] => [x]
  | y :: l' => if lt (fst x) (fst y) then x :: l else y :: insert_by x l'
  end.

Definition sorted_by (key : A -> K) (xs : list A) : list A :=
  map snd (fold_left (fun acc x => insert_by (key x, x) acc) xs []).
End Sorted.

(** A float key, [None] being [float('inf')]. *)
Definition float_lt (a b : option Q) : bool :=
  match a, b with
  | Some p, Some q => Qlt_bool p q
  | Some _, None => true
  | None, _ => false
  end.

Definition is_digit (a : ascii) : bool :=
  let n := nat_of_ascii a in (48 <=? n)%nat && (n <=? 57)%nat.

Definition is_dot (a : ascii) : bool := Ascii.eqb a "."%char.

(** [s.replace('.', '').isdigit()] *)
Definition digits_without_dots (s : string) : bool :=
  let cs := filter (fun a => negb (is_dot a)) (list_ascii_of_string s) in
  match cs with
  | [] => false
  | _ => forallb is_digit cs
  end.

Definition digit_value (a : ascii) : Z := Z.of_nat (nat_of_ascii a - 48).

Definition decimal_value (ds : list ascii) : Z :=
  fold_left (fun acc a => (10 * acc + digit_value a)%Z) ds 0%Z.

Fixpoint split_at_dot (cs : list ascii) : list ascii * list ascii :=
  match cs with
  | [] => ([], [])
  | a :: cs' =>
      if is_dot a then ([], cs')
      else let '(l, r) := split_at_dot cs' in (a :: l, r)
  end.

(** [float(s)] on a string made of digits and dots: a value when there
    is at most one dot, a [ValueError] otherwise. *)
Definition float_of_digits (s : string) : result Q :=
  let cs := list_ascii_of_string s in
  let '(whole, frac) := split_at_dot cs in
  if existsb is_dot frac then Raise (ValueError "could not convert string to float")
  else Ok (inject_Z (decimal_value whole)
           + inject_Z (decimal_value frac)
             / inject_Z (10 ^ Z.of_nat (List.length frac))).

Section UniqueValues.
Context {pandas : Pandas}.

(** [str(x)] *)
Definition py_str (c : cell) : string :=
  match c with
  | Null => "nan"
  | Str s => s
  | Num q => str_of_num q
  | Date t => str_of_datetime t
  end.

(** [float(x)] *)
Definition py_float (c : cell) : result Q :=
  match c with
  | Null => Raise (ValueError "nan")
  | Str s => float_of_digits s
  | Num q => Ok q
  | Date _ => Raise (TypeError "float() argument must be a string or a number")
  end.

(** [lambda x: float(x) if str(x).replace('.', '').isdigit() else float('inf')] *)
Definition numeric_key (x : cell) : result (option Q) :=
  if digits_without_dots (py_str x)
  then q <- py_float x ;; Ok (Some q)
  else Ok None.

Fixpoint numeric_keys (xs : list cell) : result (list (option Q)) :=
  match xs with
  | [] => Ok []
  | x :: xs' =>
      k <- numeric_key x ;;
      ks <- numeric_keys xs' ;;
      Ok (k :: ks)
  end.

Definition sorted_numeric_first (xs : list cell) : list cell :=
  match numeric_keys xs with
  | Ok ks =>
      map snd (sorted_by float_lt fst (combine ks xs))
  | Raise _ => sorted_by String.ltb py_str xs
  end.

Definition get_unique_values (data : DataFrame) (column_name : string)
    (sorted_order : bool) : list cell :=
  match find_column column_name data with
  | None => []
  | Some c =>
      let unique_values := unique (dropna (col_values c)) in
      if sorted_order then sorted_numeric_first unique_values
      else unique_values
  end.

End UniqueValues.

(** ** [utils/sector_similarity.py] *)

(** [difflib.SequenceMatcher(None, a, b).ratio()] *)
Class Difflib : Type := { ratio : string -> string -> Q }.

(** Characters are ASCII; codes from 128 on stand for letters outside
    ASCII and are kept as they are. *)
Definition is_space (a : ascii) : bool :=
  let n := nat_of_ascii a in
  ((9 <=? n)%nat && (n <=? 13)%nat) || ((28 <=? n)%nat && (n <=? 32)%nat).

Definition is_word (a : ascii) : bool :=
  let n := nat_of_ascii a in
  is_digit a
  || ((65 <=? n)%nat && (n <=? 90)%nat)
  || ((97 <=? n)%nat && (n <=? 122)%nat)
  || (n =? 95)%nat
  || (128 <=? n)%nat.

Definition upper_ascii (a : ascii) : ascii :=
  let n := nat_of_ascii a in
  if (97 <=? n)%nat && (n <=? 122)%nat then ascii_of_nat (n - 32) else a.

Fixpoint lstrip (cs : list ascii) : list ascii :=
  match cs with
  | a :: cs' => if is_space a then lstrip cs' else cs
  | [] => []
  end.

(** [s.strip()] *)
Definition strip (cs : list ascii) : list ascii :=
  rev (lstrip (rev (lstrip cs))).

(** [re.sub(r'\s+', ' ', s)] *)
Fixpoint collapse_spaces (cs : list ascii) : list ascii :=
  match cs with
  | [] => []
  | a :: cs' =>
      if is_space a then
        match cs' with
        | b :: _ => if is_space b then collapse_spaces cs'
                    else " "%char :: collapse_spaces cs'
        | [] => [" "%char]
        end
      else a :: collapse_spaces cs'
  end.

Definition normalize_sector_name (sector_name : string) : string :=
  if String.eqb sector_name "" then ""
  else
    let sector := map upper_ascii (strip (list_ascii_of_string sector_name)) in
    let sector := filter (fun a => is_word a || is_space a) sector in
    string_of_list_ascii (collapse_spaces sector).

Record SectorSimilarityDetector : Type := {
  similarity_threshold : Q
}.

Section SectorSimilarity.
Context {difflib : Difflib} (self : SectorSimilarityDetector).

Definition calculate_similarity (sector1 sector2 : string) : Q :=
  if String.eqb sector1 "" || String.eqb sector2 "" then 0
  else
    let norm1 := normalize_sector_name sector1 in
    let norm2 := normalize_sector_name sector2 in
    if String.eqb norm1 norm2 then 1 else ratio norm1 norm2.

(** [min(group, key=len)]: the first of the shortest members.  The code
    calls it on groups of two members or more. *)
Fixpoint min_by_len_from (best : string) (group : list string) : string :=
  match group with
  | [] => best
  | x :: group' =>
      if (String.length x <? String.length best)%nat
      then min_by_len_from x group'
      else min_by_len_from best group'
  end.

Definition min_by_len (group : list string) : string :=
  match group with
  | [] => ""
  | x :: group' => min_by_len_from x group'
  end.

(** The inner loop: the labels after [sector1], in order. *)
Definition similar_step (sector1 : string)
    (st : list string * list string) (sector2 : string)
    : list string * list string :=
  let '(group, processed) := st in
  if mem_string sector2 processed then st
  else if Qle_bool (similarity_threshold self)
                   (calculate_similarity sector1 sector2)
  then (group ++ [sector2], sector2 :: processed)
  else st.

(** The outer loop over [valid_sectors]. *)
Fixpoint similar_groups_loop (sectors : list string)
    (processed : list string) (similar_groups : dict (list string))
    : dict (list string) :=
  match sectors with
  | [] => similar_groups
  | sector1 :: rest =>
      if mem_string sector1 processed
      then similar_groups_loop rest processed similar_groups
      else
        let '(group, processed') :=
          fold_left (similar_step sector1) rest
                    ([sector1], sector1 :: processed) in
        let similar_groups' :=
          if (1 <? List.length group)%nat
          then dict_set (min_by_len group) group similar_groups
          else similar_groups in
        similar_groups_loop rest processed' similar_groups'
  end.

Definition find_similar_sectors (sectors_list : list string)
    : dict (list string) :=
  let valid_sectors :=
    filter (fun s => match strip (list_ascii_of_string s) with
                     | [] => false
                     | _ => true
                     end)
           sectors_list in
  if (List.length valid_sectors <? 2)%nat then []
  else similar_groups_loop valid_sectors [] [].

End SectorSimilarity.

(** ** [CercoTab.calculate_cerco_effectiveness] *)

Record effectiveness : Type := mkEffectiveness {
  eff_cod_renipress : cell;
  eff_localidad_eess : cell;
  total_houses : Z;
  positive_houses : Z;
  effectiveness_percentage : Q;
  intervention_score : Q
}.

(** Python's [a / b] on integers. *)
Definition py_truediv (a b : Z) : result Q :=
  if (b =? 0)%Z then Raise ZeroDivisionError
  else Ok (inject_Z a / inject_Z b).

(** [series.iloc[0]] *)
Definition iloc0 (c : column) : result cell :=
  match col_values c with
  | v :: _ => Ok v
  | [] => Raise IndexError
  end.

Definition py_len (df : DataFrame) : Z := Z.of_nat (nrows df).

Definition attended : list cell := [Num 1; Num 2; Num 3; Num 4].

Definition facility_effectiveness (data : DataFrame) (facility : cell)
    : result effectiveness :=
  eess <- get_column "localidad_eess" data ;;
  let facility_data :=
    select_rows (map (fun c => cell_eqb c facility) (col_values eess)) data in
  renipress_code <-
    (if (0 <? py_len facility_data)%Z
     then c <- get_column "cod_renipress" facility_data ;; iloc0 c
     else Ok (Num 0)) ;;
  att <- get_column "atencion_vivienda_indicador" facility_data ;;
  let total :=
    py_len (select_rows (map (isin attended) (col_values att))
                        facility_data) in
  pos <- get_column "viv_positiva" facility_data ;;
  att1 <- get_column "atencion_vivienda_indicador" facility_data ;;
  let positive :=
    py_len (select_rows
              (map (fun pa => cell_eqb (fst pa) (Num 1)
                              && cell_eqb (snd pa) (Num 1))
                   (combine (col_values pos) (col_values att1)))
              facility_data) in
  eff <-
    (if (0 <? total)%Z
     then q <- py_truediv (total - positive) total ;; Ok (q * 100)
     else Ok 0) ;;
  score <-
    (q <- py_truediv total (Z.max 1 positive) ;;
     let x := q * 2 in
     Ok (if Qlt_bool x 10 then x else 10)) ;;
  Ok (mkEffectiveness renipress_code facility total positive eff score).

Fixpoint for_each {A B : Type} (f : A -> result B) (xs : list A)
    : result (list B) :=
  match xs with
  | [] => Ok []
  | x :: xs' =>
      y <- f x ;;
      ys <- for_each f xs' ;;
      Ok (y :: ys)
  end.

Definition calculate_cerco_effectiveness (data : DataFrame)
    : result (list effectiveness) :=
  if df_empty data then Ok []
  else
    eess <- get_column "localidad_eess" data ;;
    for_each (facility_effectiveness data) (unique (col_values eess)).

(** ** [table_helpers.safe_dataframe] *)

(** What the guard needs of the frame it is given: its shape, its
    estimated size in bytes ([memory_usage(deep=True).sum()], positive as
    soon as the frame has rows) and the estimated size of [df.head(n)]. *)
Record table : Type := mkTable {
  t_rows : Z;
  t_columns : Z;
  t_bytes : positive;
  t_head_bytes : Z -> Z
}.

(** What is handed to [st.dataframe], if anything. *)
Inductive rendered : Type :=
| NoData
| Full
| Head (rows : Z)
| SchemaOnly (rows : Z).

Definition megabytes (bytes : Z) : Q := inject_Z bytes / inject_Z (1024 * 1024).

(** Python's [int(x)] on a float: truncation towards zero. *)
Definition py_int (x : Q) : Z := Z.quot (Qnum x) (Zpos (Qden x)).

Definition min_rows : Z := 50.

Definition over_margin (df : table) (max_memory_mb : Q) (rows : Z) : bool :=
  Qlt_bool (max_memory_mb * (90 # 100)) (megabytes (t_head_bytes df rows)).

(** The [while] loop; it returns the row count it stops at. *)
Equations? shrink (df : table) (max_memory_mb : Q) (safe_row_count : Z) : Z
  by wf (Z.to_nat (safe_row_count - min_rows)) lt :=
  shrink df max_memory_mb safe_row_count
    with Equations.Prop.Logic.inspect (over_margin df max_memory_mb safe_row_count
                  && (min_rows <? safe_row_count)%Z) => {
    | exist _ true _ =>
        shrink df max_memory_mb
          (Z.max min_rows (py_int (inject_Z safe_row_count * (75 # 100))));
    | exist _ false _ => safe_row_count }.
Proof.
  apply andb_prop in e as [_ H]. apply Z.ltb_lt in H.
  unfold min_rows, py_int in *. simpl.
  assert (Z.quot (safe_row_count * 75) 100 < safe_row_count)%Z
    by (apply Z.quot_lt_upper_bound; lia).
  lia.
Qed.

Definition safe_dataframe (df : table) (max_rows : Z) (max_memory_mb : Q)
    : rendered :=
  if (t_rows df =? 0)%Z || (t_columns df =? 0)%Z then NoData
  else
    let memory_mb := megabytes (Zpos (t_bytes df)) in
    let total_rows := t_rows df in
    let is_too_large :=
      (max_rows <? total_rows)%Z || Qlt_bool max_memory_mb memory_mb in
    if is_too_large then
      let safe_row_count :=
        if Qlt_bool max_memory_mb memory_mb then
          let memory_safe_rows :=
            Z.max 1000
              (py_int (max_memory_mb * inject_Z total_rows / memory_mb)) in
          Z.min max_rows memory_safe_rows
        else max_rows in
      let safe_row_count := shrink df max_memory_mb safe_row_count in
      if over_margin df max_memory_mb safe_row_count
      then SchemaOnly safe_row_count
      else Head safe_row_count
    else Full.

(** ** [DataProcessor.get_date_range], [FilterComponent.apply_date_filter] *)

(** A timestamp counts nanoseconds; a calendar date is the number of its
    day. *)
Definition day_ns : Z := 86400000000000.

(** [Timestamp.date()] *)
Definition date_of (t : Z) : Z := (t / day_ns)%Z.

(** The timestamps of a series that holds nothing else. *)
Fixpoint timestamps (xs : list cell) : option (list Z) :=
  match xs with
  | [] => Some []
  | Date t :: xs' => option_map (cons t) (timestamps xs')
  | _ :: _ => None
  end.

(** Values that Python can order among themselves, and that are not
    timestamps: strings only, or numbers only. *)
Definition one_kind (xs : list cell) : bool :=
  forallb (fun c => match c with Str _ => true | _ => false end) xs
  || forallb (fun c => match c with Num _ => true | _ => false end) xs.

(** [(None, None)] is [None] here.  On a column that does not hold
    timestamps, [min()] fails when the values cannot be ordered, and
    [.date()] when they can. *)
Definition get_date_range (data : DataFrame) : result (option (Z * Z)) :=
  match find_column "fecha_inspeccion" data with
  | Some c =>
      let dates := dropna (col_values c) in
      if (0 <? List.length dates)%nat then
        match col_dtype c with
        | DCategory =>
            Raise (TypeError "Categorical is not ordered for operation min")
        | _ =>
            match timestamps dates with
            | Some (t :: ts) =>
                Ok (Some (date_of (fold_left Z.min ts t),
                          date_of (fold_left Z.max ts t)))
            | Some [] => Ok None
            | None =>
                if one_kind dates then Raise (AttributeError "date")
                else Raise (TypeError "'<' not supported")
            end
        end
      else Ok None
  | None => Ok None
  end.

(** [(series.dt.date >= start_date) & (series.dt.date <= end_date)] on one
    cell; a missing date satisfies neither comparison. *)
Definition in_date_range (start_date end_date : Z) (c : cell) : bool :=
  match c with
  | Date t => (start_date <=? date_of t)%Z && (date_of t <=? end_date)%Z
  | _ => false
  end.

Definition apply_date_filter (data : DataFrame) (date_range : option (Z * Z))
    : result DataFrame :=
  match date_range with
  | Some (start_date, end_date) =>
      if has_column "fecha_inspeccion" data then
        c <- get_column "fecha_inspeccion" data ;;
        match col_dtype c with
        | DDatetime =>
            Ok (select_rows
                  (map (in_date_range start_date end_date) (col_values c))
                  data)
        | _ =>
            Raise (AttributeError
                     "Can only use .dt accessor with datetimelike values")
        end
      else Ok data
  | None => Ok data
  end.

(** ** [SectorSimilarityDetector.get_sector_filter_options] *)

(** The distinct members of a list of labels, in order of first
    appearance. *)
Fixpoint first_occurrences (seen : list string) (xs : list string)
    : list string :=
  match xs with
  | [] => []
  | x :: xs' =>
      if mem_string x seen then first_occurrences seen xs'
      else x :: first_occurrences (x :: seen) xs'
  end.

(** [sorted(list(set(xs)))]: the order a set is listed in does not show
    once the list of its distinct members is sorted. *)
Definition sorted_set (xs : list string) : list string :=
  sorted_by String.ltb (fun s => s) (first_occurrences [] xs).

(** [unification_mapping.get(sector, sector)] *)
Definition mapping_get (unification_mapping : dict string) (sector : string)
    : string :=
  match dict_get sector unification_mapping with
  | Some unified_name => unified_name
  | None => sector
  end.

(** The sectors are labels, that is strings; a blank one is left out. *)
Definition get_sector_filter_options (sectors_list : list string)
    (unification_mapping : option (dict string)) : list string :=
  let valid :=
    filter (fun s => match strip (list_ascii_of_string s) with
                     | [] => false
                     | _ => true
                     end)
           sectors_list in
  let unified_sectors :=
    match unification_mapping with
    | Some ((_ :: _) as m) => map (mapping_get m) valid
    | _ => valid
    end in
  sorted_set unified_sectors.

(** ** [SectorSimilarityDetector.find_similar_sectors_by_province] *)

(** The label a cell of a text column holds: [Some None] for a missing
    value, [None] for a cell that is not text. *)
Definition text_of (c : cell) : option (option string) :=
  match c with
  | Null => Some None
  | Str s => Some (Some s)
  | _ => None
  end.

Fixpoint text_values (cs : list cell) : option (list (option string)) :=
  match cs with
  | [] => Some []
  | c :: cs' =>
      match text_of c, text_values cs' with
      | Some t, Some ts => Some (t :: ts)
      | _, _ => None
      end
  end.

(** The keys of [groupby(province_col)]: the provinces, missing ones
    dropped, sorted. *)
Definition province_keys (provinces : list (option string)) : list string :=
  sorted_set
    (flat_map (fun p => match p with Some q => [q] | None => [] end)
              provinces).

(** [x.dropna().unique().tolist()] on the sectors of one province. *)
Definition sectors_of_province
    (rows : list (option string * option string)) (province : string)
    : list string :=
  first_occurrences []
    (flat_map (fun r => match r with
                        | (Some p, Some s) =>
                            if String.eqb p province then [s] else []
                        | _ => []
                        end)
              rows).

Section SimilarByProvince.
Context {difflib : Difflib} (self : SectorSimilarityDetector).

(** The loop over [province_sectors.items()]. *)
Definition similar_by_province_step
    (rows : list (option string * option string))
    (similar_groups_by_province : dict (dict (list string)))
    (province : string) : dict (dict (list string)) :=
  let sectors_in_province := sectors_of_province rows province in
  if (List.length sectors_in_province <? 2)%nat
  then similar_groups_by_province
  else
    match find_similar_sectors self sectors_in_province with
    | [] => similar_groups_by_province
    | similar_groups =>
        dict_set province similar_groups similar_groups_by_province
    end.

(** Labels are text in this model, as in [find_similar_sectors]: the
    result is [None] when the sector or the province column holds a cell
    that is neither a string nor missing. *)
Definition find_similar_sectors_by_province (data_df : DataFrame)
    (sector_col province_col : string)
    : option (dict (dict (list string))) :=
  if df_empty data_df
     || negb (has_column sector_col data_df)
     || negb (has_column province_col data_df)
  then Some []
  else
    match find_column province_col data_df, find_column sector_col data_df with
    | Some provinces, Some sectors =>
        match text_values (col_values provinces),
              text_values (col_values sectors) with
        | Some ps, Some ss =>
            let rows := combine ps ss in
            Some (fold_left (similar_by_province_step rows)
                            (province_keys ps) [])
        | _, _ => None
        end
    | _, _ => Some []
    end.

End SimilarByProvince.

(* ===================================================================== *)
(** * Part II: the vocabulary of the properties, and samples              *)
(* ===================================================================== *)

(** ** A reading of the primitives

    A simple reading of the primitives, on which examples are evaluated:
    numbers and dates are read from strings of digits, a number prints as
    its integer part followed by [.0], and a year lasts 31556952 seconds. *)
Definition string_of_Z (z : Z) : string :=
  DecimalString.NilZero.string_of_int (Z.to_int z).

Definition digits_only (s : string) : bool :=
  match list_ascii_of_string s with
  | [] => false
  | cs => forallb is_digit cs
  end.

#[global] Instance sample_pandas : Pandas := {|
  parse_datetime s :=
    if digits_only s then Some (decimal_value (list_ascii_of_string s))
    else None;
  datetime_of_num q := Some (Qfloor q);
  parse_numeric s :=
    if digits_without_dots s
    then match float_of_digits s with Ok q => Some q | Raise _ => None end
    else None;
  year_of t := (1970 + t / 31556952000000000)%Z;
  str_of_num q := String.append (string_of_Z (Qfloor q)) ".0";
  str_of_datetime t := String.append (string_of_Z t) "ns"
|}.

#[global] Instance sample_difflib : Difflib := {|
  ratio a b := if String.eqb a b then 1 else 0
|}.

(** ** Normalisation *)

(** The three replacements that open [process_data], on one cell. *)
Definition replace_markers (v : cell) : cell :=
  replace_with_nan "nan" (replace_with_nan " " (replace_with_nan "" v)).

(** A missing value or one of the markers the code looks for. *)
Definition missing_marker (v : cell) : bool :=
  match v with
  | Null => true
  | Str s => mem_string s [""; " "; "nan"; "NaN"; "None"]
  | _ => false
  end.

(** What a text cell holds once normalised. *)
Definition clean_text (v : cell) : bool :=
  match v with
  | Str s => negb (mem_string s ["nan"; "NaN"; "None"])
  | _ => false
  end.

(** What a numeric cell holds once filled. *)
Definition not_null (v : cell) : bool := negb (is_null v).

(** No numeric column holds a missing value, no object (text) column holds
    a missing value or a marker. *)
Definition column_clean (c : column) : bool :=
  match col_dtype c with
  | DNumber => forallb not_null (col_values c)
  | DObject => forallb clean_text (col_values c)
  | _ => true
  end.

(** The invariant of the canonical table, on its object and numeric
    columns. *)
Definition no_missing_values (df : DataFrame) : bool :=
  forallb column_clean (df_columns df).

(** The same, with the category-encoded text columns counted as text. *)
Definition column_clean_with_categories (c : column) : bool :=
  match col_dtype c with
  | DNumber => forallb not_null (col_values c)
  | DObject | DCategory => forallb clean_text (col_values c)
  | _ => true
  end.

(** A text column of the input: of object dtype, and none of the columns
    [process_data] types as a date, as a number or overwrites. *)
Definition text_column (c : column) : bool :=
  match col_dtype c with
  | DObject =>
      negb (mem_string (col_name c)
              ("year" :: date_columns ++ critical_numeric_columns))
  | _ => false
  end.

(** A frame whose [sector] column has few distinct values and whose [obs]
    column holds a two-space string. *)
Definition sample_raw : DataFrame :=
  mkDataFrame [0; 1; 2; 3]%nat
    [ mkColumn "sector" DObject [Str "A"; Str "A"; Str "A"; Null];
      mkColumn "obs" DObject [Str "  "; Str "x"; Null; Str "NaN"];
      mkColumn "cod_renipress" DObject
        [Str "5060"; Str "5060"; Str "n/a"; Null];
      mkColumn "fecha_inspeccion" DObject
        [Str "1700000000000000000"; Str "ayer"; Null; Str ""] ].

(** ** Filtered views *)

(** A scalar or a list: a value an equality or membership filter holds. *)
Definition plain (v : filter_value) : bool :=
  match v with
  | FNone | FBool _ | FNum _ | FStr _ | FList _ => true
  | _ => false
  end.

(** One of the two keys that carry a sector mapping. *)
Definition special_key (k : string) : bool :=
  mem_string k [FLAT_MAPPING; BY_PROVINCE].

(** Whether a cell passes a plain filter value: membership for a list,
    [==] otherwise. *)
Definition cell_matches (v : filter_value) (c : cell) : bool :=
  match v with
  | FList l => isin l c
  | FStr s => cell_eqb c (Str s)
  | FNum q => cell_eqb c (Num q)
  | FBool b => cell_eqb c (Num (if b then 1 else 0))
  | _ => false
  end.

(** The mask of one filter on the rows of [base], when the loop applies
    it: the key is no mapping key, the value is truthy and the key names
    a column. *)
Definition filter_applies (base : DataFrame) (item : string * filter_value)
    : option (list bool) :=
  let '(k, v) := item in
  if special_key k then None
  else if truthy v then
    match find_column k base with
    | Some c => Some (map (cell_matches v) (col_values c))
    | None => None
    end
  else None.

(** The rows two masks both keep. *)
Fixpoint and_mask (m1 m2 : list bool) : list bool :=
  match m1, m2 with
  | b1 :: m1', b2 :: m2' => (b1 && b2) :: and_mask m1' m2'
  | _, _ => []
  end.

(** The rows that pass every filter that applies; [None] when no filter
    applies. *)
Definition combined_mask (base : DataFrame) (filters : dict filter_value)
    : option (list bool) :=
  fold_left
    (fun acc item =>
       match filter_applies base item with
       | Some m =>
           Some (match acc with Some m0 => and_mask m0 m | None => m end)
       | None => acc
       end)
    filters None.

(** [df[mask]], or [df] when there is nothing to select by. *)
Definition select_rows_opt (mask : option (list bool)) (df : DataFrame)
    : DataFrame :=
  match mask with
  | Some m => select_rows m df
  | None => df
  end.

(** Two flags, four visits. *)
Definition sample_visits : DataFrame :=
  mkDataFrame [0; 1; 2; 3]%nat
    [ mkColumn "viv_positiva" DNumber [Num 0; Num 1; Num 0; Num 1];
      mkColumn "sector" DObject
        [Str "SAN JUAN"; Str "SAN JUA"; Str "SAN JUAN"; Str ""];
      mkColumn "nombre_prov" DObject
        [Str "LIMA"; Str "LIMA"; Str "CUSCO"; Str "CUSCO"];
      mkColumn "year" DNumber [Num 2023; Num 2024; Num 2024; Num 2024] ].

(** One filter more in [combined_mask]. *)
Definition mask_step (base : DataFrame) (acc : option (list bool))
    (item : string * filter_value) : option (list bool) :=
  match filter_applies base item with
  | Some m => Some (match acc with Some m0 => and_mask m0 m | None => m end)
  | None => acc
  end.

(** ** Unification by province *)

(** Row [i] belongs to none of the provinces [ps], [pv] being the cells
    of the province column. *)
Definition row_outside (ps : list string) (pv : list cell) (i : nat) : Prop :=
  match nth_error pv i with
  | Some pc => forall p, In p ps -> cell_eqb pc (Str p) = false
  | None => True
  end.

(** A column after unification, against the column before: same label and
    dtype; the same column when it is not the sector column; and in any
    case the same cells on the rows outside the provinces [ps]. *)
Definition column_framed (ps : list string) (pv : list cell)
    (c c' : column) : Prop :=
  col_name c' = col_name c
  /\ col_dtype c' = col_dtype c
  /\ (col_name c <> "sector" -> c' = c)
  /\ (forall i, row_outside ps pv i ->
        nth_error (col_values c') i = nth_error (col_values c) i).

(** A frame after unification, against the frame before. *)
Definition framed (ps : list string) (pv : list cell)
    (d d' : DataFrame) : Prop :=
  df_index d' = df_index d
  /\ Forall2 (column_framed ps pv) (df_columns d) (df_columns d').

(** The cells of the province column, if there is one. *)
Definition province_values (data : DataFrame) : list cell :=
  match find_column "nombre_prov" data with
  | Some c => col_values c
  | None => []
  end.

(** No two columns of the frame share a label. *)
Definition unique_labels (data : DataFrame) : Prop :=
  NoDup (map col_name (df_columns data)).

(** The column [name] of the frame is category-encoded. *)
Definition category_encoded (name : string) (data : DataFrame) : bool :=
  existsb (fun c => is_category c && String.eqb (col_name c) name)
          (df_columns data).

(** The visits of [sample_visits] as production mode holds them, the
    sector column category-encoded. *)
Definition sample_encoded : DataFrame :=
  mkDataFrame [0; 1; 2; 3]%nat
    [ mkColumn "viv_positiva" DNumber [Num 0; Num 1; Num 0; Num 1];
      mkColumn "sector" DCategory
        [Str "SAN JUAN"; Str "SAN JUA"; Str "SAN JUAN"; Str "SAN JUA"];
      mkColumn "nombre_prov" DObject
        [Str "LIMA"; Str "LIMA"; Str "CUSCO"; Str "CUSCO"];
      mkColumn "year" DNumber [Num 2023; Num 2024; Num 2024; Num 2024] ].

(** ** Unique values *)

(** A text column with a repeated and a missing value. *)
Definition sample_districts : DataFrame :=
  mkDataFrame [0; 1; 2; 3]%nat
    [ mkColumn "distrito" DObject
        [Str "PIURA"; Str "CASTILLA"; Str "PIURA"; Null] ].

(** ** Cerco effectiveness *)

(** The number of rows that satisfy [p]. *)
Definition count_rows {A : Type} (p : A -> bool) (rows : list A) : Z :=
  Z.of_nat (List.length (filter p rows)).

(** A cell that holds one of the whole numbers [codes]. *)
Definition indicator_in (codes : list Z) (v : cell) : bool :=
  match v with
  | Num q => existsb (fun n => Qeq_bool q (inject_Z n)) codes
  | _ => false
  end.

(** The rows of facility [f] whose attention indicator is one of
    [codes]. *)
Definition facility_total (codes : list Z) (eess att : list cell) (f : cell)
    : Z :=
  count_rows (fun r => cell_eqb (fst r) f && indicator_in codes (snd r))
             (combine eess att).

(** The rows of facility [f] with positivity flag 1 and attention 1. *)
Definition facility_positive (eess pos att : list cell) (f : cell) : Z :=
  count_rows
    (fun r => cell_eqb (fst r) f
              && (cell_eqb (fst (snd r)) (Num 1)
                  && cell_eqb (snd (snd r)) (Num 1)))
    (combine eess (combine pos att)).

(** Every column has one cell per row. *)
Definition rectangular (data : DataFrame) : Prop :=
  Forall (fun c => List.length (col_values c) = nrows data) (df_columns data).

(** Five visits of two facilities, the last one without a facility. *)
Definition sample_cerco : DataFrame :=
  mkDataFrame [0; 1; 2; 3; 4]%nat
    [ mkColumn "localidad_eess" DObject
        [Str "SAN PEDRO"; Str "SAN PEDRO"; Str "LA UNION"; Str "SAN PEDRO";
         Null];
      mkColumn "cod_renipress" DNumber
        [Num 1661; Num 1661; Num 1660; Num 1661; Num 0];
      mkColumn "atencion_vivienda_indicador" DNumber
        [Num 1; Num 2; Num 1; Num 5; Num 1];
      mkColumn "viv_positiva" DNumber
        [Num 1; Num 0; Num 0; Num 1; Num 1] ].

(** The number of rows a mask keeps. *)
Definition count_true (mask : list bool) : nat :=
  List.length (filter (fun b => b) mask).

(** (total - positive) / total x 100, and 0 when the total is 0. *)
Definition effectiveness_of (t p : Z) : Q :=
  if (0 <? t)%Z then inject_Z (t - p) / inject_Z t * 100 else 0.

(** ** The render guard *)

(** The estimated size, in MB, of the first [rows] rows. *)
Definition head_mb (df : table) (rows : Z) : Q :=
  megabytes (t_head_bytes df rows).

(** The estimated size, in MB, of the whole frame. *)
Definition total_mb (df : table) : Q := megabytes (Zpos (t_bytes df)).

(** The frame exceeds one of the two ceilings. *)
Definition too_large (df : table) (max_rows : Z) (max_memory_mb : Q) : Prop :=
  (max_rows < t_rows df)%Z \/ max_memory_mb < total_mb df.

(** 100000 rows of 2100 bytes: about 200 MB. *)
Definition sample_wide : table :=
  mkTable 100000 91 210000000
    (fun n => 2100 * Z.max 0 (Z.min n 100000))%Z.

(** 10 rows, 50331648 bytes: 48 MB. *)
Definition sample_48mb : table :=
  mkTable 10 91 50331648
    (fun n => 5033164 * Z.max 0 (Z.min n 10) + 8)%Z.

(** 60 rows of 1 MB each. *)
Definition sample_fat_rows : table :=
  mkTable 60 91 62914560
    (fun n => 1048576 * Z.max 0 (Z.min n 60))%Z.

(** ** Similar sectors *)

(** [k] is the first of the shortest members of [group]. *)
Definition first_shortest (k : string) (group : list string) : Prop :=
  exists before after,
    group = before ++ k :: after
    /\ Forall (fun x => (String.length k < String.length x)%nat) before
    /\ Forall (fun x => (String.length k <= String.length x)%nat) after.

(** What is claimed of an entry of the result: two members at least,
    filed under the first of the shortest. *)
Definition reported_group (entry : string * list string) : Prop :=
  (2 <= List.length (snd entry))%nat
  /\ first_shortest (fst entry) (snd entry).

(** The detector the filter component builds. *)
Definition default_detector : SectorSimilarityDetector :=
  {| similarity_threshold := 8 # 10 |}.

(** ** [process_data] seen column by column *)

Section ColumnByColumn.
Context {pandas : Pandas}.

(** The three opening replacements on one column, [h0], [h1] and [h2]
    telling which of them found its string among the object columns. *)
Definition replace_markers_in (h0 h1 h2 : bool) (c : column) : column :=
  replace_in_column "nan" h2
    (replace_in_column " " h1 (replace_in_column "" h0 c)).

(** The first half, before the year is extracted: markers replaced by
    missing values, date columns parsed. *)
Definition before_year (h0 h1 h2 : bool) (c : column) : column :=
  let c1 := replace_markers_in h0 h1 h2 c in
  if mem_string (col_name c) date_columns then to_datetime c1 else c1.

(** The first half on a column whose dtype the replacements keep: it
    works cell by cell. *)
Definition before_year_kept (c : column) : column :=
  let c1 := map_values replace_markers c in
  if mem_string (col_name c) date_columns then to_datetime c1 else c1.

(** Which of the three opening replacements of [process_data] find their
    string among the object columns of [data]. *)
Definition hit_empty (data : DataFrame) : bool := replace_hits "" data.

Definition hit_blank (data : DataFrame) : bool :=
  replace_hits " " (df_replace_with_nan "" data).

Definition hit_nan (data : DataFrame) : bool :=
  replace_hits "nan" (df_replace_with_nan " " (df_replace_with_nan "" data)).

(** The frame between the two halves of [process_data]. *)
Definition first_half (data : DataFrame) : DataFrame :=
  mkDataFrame (df_index data)
    (map (before_year (hit_empty data) (hit_blank data) (hit_nan data))
         (df_columns data)).

(** A string the three opening replacements keep. *)
Definition kept_string (v : cell) : bool :=
  match v with
  | Str s => negb (mem_string s [""; " "; "nan"])
  | _ => false
  end.

(** A column that holds a string the opening replacements keep: it stays
    a text column. *)
Definition keeps_string (c : column) : bool :=
  existsb kept_string (col_values c).

(** An object column holds a string the opening replacements keep, or no
    cell at all. *)
Definition keeps_text (c : column) : bool :=
  match col_dtype c with
  | DObject =>
      match col_values c with
      | [] => true
      | _ => keeps_string c
      end
  | _ => true
  end.

(** A table of one text column whose cells are all markers of a missing
    value. *)
Definition sample_markers : DataFrame :=
  mkDataFrame [0; 1]%nat [ mkColumn "obs" DObject [Str "None"; Str "NaN"] ].

(** The second half: critical columns made numeric, numbers filled with
    0, text cleaned. *)
Definition after_year (c : column) : column :=
  fill_text
    (fill_numeric
       (if mem_string (col_name c) critical_numeric_columns
        then map_values (fillna (Num 0)) (to_numeric c)
        else c)).

(** A column with the label of a date column is a datetime column. *)
Definition typed_dates (a : column) : Prop :=
  mem_string (col_name a) date_columns = true -> col_dtype a = DDatetime.

(** The three replacements that close the text loop, on one string. *)
Definition strip_markers (s : string) : cell :=
  replace_with_empty "None"
    (replace_with_empty "NaN" (replace_with_empty "nan" (Str s))).

(** The value the second half starts from: the critical columns are made
    numeric first. *)
Definition critical_numeric (a : column) : column :=
  if mem_string (col_name a) critical_numeric_columns
  then map_values (fillna (Num 0)) (to_numeric a)
  else a.

(** What [process_data] makes of a cell of a text column. *)
Definition normalized_text (v : cell) : cell :=
  clean_text_cell (replace_markers v).

(** A cell the opening replacements leave alone. *)
Definition unmarked (v : cell) : Prop := replace_markers v = v.

(** A column as the first half of [process_data] leaves it. *)
Definition settled (a : column) : Prop :=
  typed_dates a /\ Forall unmarked (col_values a).

(** The year of a cell of the inspection date, 0 standing for a missing
    date. *)
Definition year_or_zero (v : cell) : cell :=
  match v with
  | Date t => Num (inject_Z (year_of t))
  | _ => Num 0
  end.

End ColumnByColumn.

(** ** The canonical table *)

(** A numeric column holds numbers and missing values, a datetime column
    timestamps and missing values; the other dtypes hold anything. *)
Definition well_typed_cell (ty : dtype) (v : cell) : bool :=
  match ty, v with
  | DNumber, (Num _ | Null) => true
  | DNumber, _ => false
  | DDatetime, (Date _ | Null) => true
  | DDatetime, _ => false
  | _, _ => true
  end.

Definition well_typed_column (c : column) : bool :=
  forallb (well_typed_cell (col_dtype c)) (col_values c).

Definition well_typed (df : DataFrame) : bool :=
  forallb well_typed_column (df_columns df).

(** The labels of a frame, in order. *)
Definition labels (df : DataFrame) : list string :=
  map col_name (df_columns df).

(** The labels and dtypes of a frame, in order. *)
Definition shape (df : DataFrame) : list (string * dtype) :=
  map (fun c => (col_name c, col_dtype c)) (df_columns df).

(** How the canonical table types the columns its code names. *)
Definition typed_by_label (c : column) : bool :=
  (if mem_string (col_name c) date_columns
   then match col_dtype c with DDatetime => true | _ => false end
   else true)
  && (if mem_string (col_name c) critical_numeric_columns
      then match col_dtype c with DNumber => true | _ => false end
      else true).

(** ** Views *)

(** [view] is [data] restricted to some of its rows. *)
Definition restriction (view data : DataFrame) : Prop :=
  exists mask, view = select_rows_opt mask data.

(** The mask on the rows of a frame that selects, among the rows [m1]
    keeps, those [m2] keeps. *)
Fixpoint compose_mask (m1 m2 : list bool) : list bool :=
  match m1 with
  | [] => []
  | true :: m1' =>
      match m2 with
      | b :: m2' => b :: compose_mask m1' m2'
      | [] => false :: compose_mask m1' []
      end
  | false :: m1' => false :: compose_mask m1' m2
  end.

(** The filters of an optional filter set. *)
Definition filter_items (filters : option (dict filter_value))
    : dict filter_value :=
  match filters with Some d => d | None => [] end.

(** A mapping whose values are final: a value is no key, or a key mapped
    to itself. *)
Definition closed_mapping (m : dict string) : Prop :=
  forall k v, dict_get k m = Some v ->
              dict_get v m = None \/ dict_get v m = Some v.

(** ** Production mode *)

(** [c'] is [c] with the same label and cells, its dtype kept or turned
    from object into category. *)
Definition encoded (c c' : column) : Prop :=
  col_name c' = col_name c
  /\ col_values c' = col_values c
  /\ (col_dtype c' = col_dtype c
      \/ (col_dtype c = DObject /\ col_dtype c' = DCategory)).

(** ** Lists of values *)

(** How many members of [xs] are the same value as [v]. *)
Definition occurrences (v : cell) (xs : list cell) : nat :=
  List.length (filter (cell_same v) xs).

(** Keys in non-decreasing order of the strict order [lt]. *)
Definition ascending {K : Type} (lt : K -> K -> bool) (ks : list K) : Prop :=
  Sorted (fun a b => lt b a = false) ks.

(** ** Groups of similar sectors *)

(** A label that is not blank: something is left of it after [strip]. *)
Definition non_blank (s : string) : bool :=
  match strip (list_ascii_of_string s) with
  | [] => false
  | _ => true
  end.

Section SimilarGroups.
Context {difflib : Difflib} (self : SectorSimilarityDetector).

(** [s] is as similar to [seed] as the detector asks. *)
Definition meets_threshold (seed s : string) : Prop :=
  Qle_bool (similarity_threshold self) (calculate_similarity seed s) = true.

(** A group gathered around its first member: every other member meets
    the threshold against it. *)
Definition seeded (group : list string) : Prop :=
  exists seed members,
    group = seed :: members /\ Forall (meets_threshold seed) members.

End SimilarGroups.

(** ** Normalised sector names *)

Definition is_lower (a : ascii) : bool :=
  let n := nat_of_ascii a in (97 <=? n)%nat && (n <=? 122)%nat.

(** No two white-space characters in a row. *)
Fixpoint single_spaced (cs : list ascii) : bool :=
  match cs with
  | a :: cs' =>
      match cs' with
      | b :: _ => negb (is_space a && is_space b) && single_spaced cs'
      | [] => true
      end
  | [] => true
  end.

(** ** Bounds of the effectiveness figures *)

Definition within_bounds (r : effectiveness) : Prop :=
  (0 <= positive_houses r <= total_houses r)%Z
  /\ 0 <= effectiveness_percentage r <= 100
  /\ 0 <= intervention_score r <= 10.

(** ** Dates *)

(** A cell of a date column whose date, when it has one, is between [lo]
    and [hi]. *)
Definition dated_within (lo hi : Z) (v : cell) : Prop :=
  match v with
  | Date t => (lo <= date_of t <= hi)%Z
  | Null => True
  | _ => False
  end.

(** Three visits, the second one without a date. *)
Definition sample_dated : DataFrame :=
  mkDataFrame [0; 1; 2]%nat
    [ mkColumn "fecha_inspeccion" DDatetime
        [Date 1700000000000000000; Null; Date 1700200000000000000];
      mkColumn "sector" DObject [Str "A"; Str "B"; Str "C"] ].

(** ** Options of the sector filter *)

(** The name a sector is offered under. *)
Definition offered_name (unification_mapping : option (dict string))
    (sector : string) : string :=
  match unification_mapping with
  | Some m => mapping_get m sector
  | None => sector
  end.

(** Labels in strictly increasing order. *)
Definition strictly_ascending (xs : list string) : Prop :=
  Sorted (fun a b => String.ltb a b = true) xs.

(** ** Similar sectors, province by province *)

(** Some row of [data] has province [p] and sector [s]. *)
Definition occurs_in_province (data : DataFrame)
    (sector_col province_col : string) (p s : string) : Prop :=
  exists provinces sectors,
    find_column province_col data = Some provinces
    /\ find_column sector_col data = Some sectors
    /\ In (Str p, Str s)
          (combine (col_values provinces) (col_values sectors)).

(** Five visits in two provinces; one sector of LIMA is spelt in two
    ways, and CUSCO has a sector of the same name. *)
Definition sample_sectors : DataFrame :=
  mkDataFrame [0; 1; 2; 3; 4]%nat
    [ mkColumn "nombre_prov" DObject
        [Str "LIMA"; Str "LIMA"; Str "CUSCO"; Str "CUSCO"; Str "LIMA"];
      mkColumn "sector" DObject
        [Str "SAN JUAN"; Str "san juan."; Str "SAN JUAN"; Str "CENTRO";
         Null] ].

(** The value a list of pairs files under the key [k], if any. *)
Fixpoint filed_under {V : Type} (k : string) (m : list (string * V))
    : option V :=
  match m with
  | [] => None
  | (k', v) :: m' => if String.eqb k' k then Some v else filed_under k m'
  end.

(** The name a sector goes by under a mapping: the name filed under it,
    or its own. *)
Definition mapped_name (mapping : list (string * string)) (s : string)
    : string :=
  match filed_under s mapping with
  | Some t => t
  | None => s
  end.

(** The sector a row ends with under a mapping by province.  A row is
    given by its province and its sector; only a sector name in a named
    province can change. *)
Definition unified_sector (m : list (string * list (string * string)))
    (row : cell * cell) : cell :=
  match row with
  | (Str p, Str s) =>
      match filed_under p m with
      | Some mapping => Str (mapped_name mapping s)
      | None => Str s
      end
  | (_, sc) => sc
  end.

(** Two labels that differ in spelling only: neither is empty, and they
    have the same normalised form. *)
Definition same_spelling (a b : string) : Prop :=
  a <> "" /\ b <> ""
  /\ normalize_sector_name a = normalize_sector_name b.

(** Two characters that are the same, or the upper-case and the
    lower-case form of one ASCII letter (codes 65 to 90, and 32 more). *)
Definition same_letter (a b : ascii) : bool :=
  let m := nat_of_ascii a in
  let n := nat_of_ascii b in
  ((m =? n)
   || ((65 <=? m) && (m <=? 90) && (n =? m + 32))
   || ((65 <=? n) && (n <=? 90) && (m =? n + 32)))%nat.

(** Two strings that differ in the case of their ASCII letters at most. *)
Fixpoint same_ignoring_case (s t : string) : bool :=
  match s, t with
  | EmptyString, EmptyString => true
  | String a s', String b t' => same_letter a b && same_ignoring_case s' t'
  | _, _ => false
  end.

(** A cell that holds the activity [a], whatever the case. *)
Definition is_activity (a : string) (v : cell) : bool :=
  match v with
  | Str s => same_ignoring_case s a
  | _ => false
  end.

(** Three visits of two activity types, written in three ways. *)
Definition sample_activities : DataFrame :=
  mkDataFrame [0; 1; 2]%nat
    [ mkColumn "tipoActividadInspeccion" DObject
        [Str "Cerco"; Str "control"; Str "CERCO"];
      mkColumn "sector" DObject [Str "A"; Str "B"; Str "C"] ].

(* ===================================================================== *)
(** * Part III: properties                                                 *)
(* ===================================================================== *)

(** ** Frames and columns *)

Lemma mem_string_In (s : string) (l : list string) :
  mem_string s l = true <-> In s l.
Proof.
  unfold mem_string. rewrite existsb_exists. split.
  - intros [x [Hin Heq]]. apply String.eqb_eq in Heq. now subst.
  - intros Hin. exists s. split; [assumption | apply String.eqb_refl].
Qed.

Lemma mem_string_false (s : string) (l : list string) :
  mem_string s l = false <-> ~ In s l.
Proof.
  rewrite <- mem_string_In. destruct (mem_string s l); split; congruence.
Qed.

Lemma column_eta (c : column) :
  mkColumn (col_name c) (col_dtype c) (col_values c) = c.
Proof. now destruct c. Qed.

Lemma map_values_name (f : cell -> cell) (c : column) :
  col_name (map_values f c) = col_name c.
Proof. reflexivity. Qed.

Lemma map_values_compose (f g : cell -> cell) (c : column) :
  map_values f (map_values g c) = map_values (fun v => f (g v)) c.
Proof. unfold map_values. simpl. now rewrite map_map. Qed.

Lemma map_values_ext (f g : cell -> cell) (c : column) :
  Forall (fun v => f v = g v) (col_values c) ->
  map_values f c = map_values g c.
Proof.
  intros H. unfold map_values. f_equal.
  induction H; simpl; congruence.
Qed.

Lemma map_values_fixed (f : cell -> cell) (c : column) :
  Forall (fun v => f v = v) (col_values c) -> map_values f c = c.
Proof.
  intros H. rewrite <- (column_eta c) at 2. unfold map_values. f_equal.
  induction H; simpl; congruence.
Qed.

Lemma has_column_find (name : string) (df : DataFrame) :
  has_column name df = true <-> exists c, find_column name df = Some c.
Proof.
  unfold has_column, find_column. destruct df as [idx cols]. simpl.
  induction cols as [|c cols IH]; simpl.
  - split; [discriminate | intros [c H]; discriminate].
  - rewrite String.eqb_sym. destruct (String.eqb (col_name c) name); simpl.
    + split; eauto.
    + exact IH.
Qed.

Lemma find_column_name (name : string) (df : DataFrame) (c : column) :
  find_column name df = Some c -> col_name c = name /\ In c (df_columns df).
Proof.
  unfold find_column. intros H. apply find_some in H as [Hin Heq].
  apply String.eqb_eq in Heq. now split.
Qed.

Lemma find_column_map (name : string) (f : column -> column)
    (idx idx' : list nat) (cols : list column) :
  (forall c, col_name (f c) = col_name c) ->
  find_column name (mkDataFrame idx (map f cols))
  = option_map f (find_column name (mkDataFrame idx' cols)).
Proof.
  intros Hname. unfold find_column. simpl.
  induction cols as [|c cols IH]; simpl; [reflexivity|].
  rewrite Hname. destruct (String.eqb (col_name c) name); [reflexivity | exact IH].
Qed.

Lemma has_column_map (name : string) (f : column -> column)
    (idx idx' : list nat) (cols : list column) :
  (forall c, col_name (f c) = col_name c) ->
  has_column name (mkDataFrame idx (map f cols))
  = has_column name (mkDataFrame idx' cols).
Proof.
  intros Hname. unfold has_column. simpl. rewrite map_map.
  f_equal. apply map_ext. exact Hname.
Qed.

(** A loop over a fixed list of distinct labels rewrites each column of
    that list once. *)
Lemma for_columns_spec (names : list string) (f : column -> column)
    (df : DataFrame) :
  NoDup names ->
  (forall c, col_name (f c) = col_name c) ->
  for_columns names f df
  = mkDataFrame (df_index df)
      (map (fun c => if mem_string (col_name c) names then f c else c)
           (df_columns df)).
Proof.
  intros Hnd Hname. revert df.
  induction Hnd as [|n names Hnotin Hnd IH]; intros [idx cols]; simpl.
  - f_equal. now rewrite map_id.
  - unfold for_columns in *. simpl fold_left.
    assert (Hstep :
      (if has_column n (mkDataFrame idx cols)
       then map_column n f (mkDataFrame idx cols)
       else mkDataFrame idx cols)
      = map_column n f (mkDataFrame idx cols)).
    { destruct (has_column n (mkDataFrame idx cols)) eqn:Hhas; [reflexivity|].
      unfold map_column. simpl. f_equal.
      rewrite <- (map_id cols) at 1. apply map_ext_in.
      intros c Hc. destruct (String.eqb (col_name c) n) eqn:Heq; [|reflexivity].
      apply String.eqb_eq in Heq. exfalso.
      apply mem_string_false in Hhas. apply Hhas. simpl.
      rewrite <- Heq. now apply in_map. }
    rewrite Hstep, IH. unfold map_column. simpl. f_equal.
    rewrite map_map. apply map_ext. intros c.
    rewrite (String.eqb_sym (col_name c) n).
    destruct (String.eqb n (col_name c)) eqn:Heq; simpl.
    + apply String.eqb_eq in Heq. subst n. rewrite Hname.
      apply mem_string_false in Hnotin. now rewrite Hnotin.
    + reflexivity.
Qed.

Lemma set_column_index (name : string) (ty : dtype) (vs : list cell)
    (df : DataFrame) :
  df_index (set_column name ty vs df) = df_index df.
Proof. unfold set_column. now destruct (has_column name df). Qed.

Lemma set_column_In (name : string) (ty : dtype) (vs : list cell)
    (df : DataFrame) (a : column) :
  In a (df_columns (set_column name ty vs df)) ->
  a = mkColumn name ty vs \/ (col_name a <> name /\ In a (df_columns df)).
Proof.
  unfold set_column. destruct (has_column name df) eqn:Hhas; simpl.
  - rewrite in_map_iff. intros [c [Heq Hin]].
    destruct (String.eqb (col_name c) name) eqn:E.
    + now left.
    + right. subst a. apply String.eqb_neq in E. now split.
  - rewrite in_app_iff. simpl. intros [Hin | [Heq | []]].
    + right. split; [|assumption].
      intros E. apply mem_string_false in Hhas. apply Hhas.
      rewrite <- E. now apply in_map.
    + now left.
Qed.

Lemma set_column_keeps (name : string) (ty : dtype) (vs : list cell)
    (df : DataFrame) (a : column) :
  In a (df_columns df) -> col_name a <> name ->
  In a (df_columns (set_column name ty vs df)).
Proof.
  intros Hin Hne. unfold set_column. destruct (has_column name df); simpl.
  - apply in_map_iff. exists a. split; [|assumption].
    apply String.eqb_neq in Hne. now rewrite Hne.
  - apply in_app_iff. now left.
Qed.

Lemma set_column_find_other (name other : string) (ty : dtype)
    (vs : list cell) (df : DataFrame) :
  other <> name ->
  find_column other (set_column name ty vs df) = find_column other df.
Proof.
  intros Hne. unfold set_column, find_column.
  destruct (has_column name df); simpl.
  - induction (df_columns df) as [|c cols IH]; simpl; [reflexivity|].
    destruct (String.eqb (col_name c) name) eqn:E; simpl.
    + apply String.eqb_eq in E. rewrite E.
      apply not_eq_sym in Hne. apply String.eqb_neq in Hne. rewrite Hne.
      exact IH.
    + destruct (String.eqb (col_name c) other); [reflexivity | exact IH].
  - induction (df_columns df) as [|c cols IH]; simpl.
    + apply not_eq_sym in Hne. apply String.eqb_neq in Hne. now rewrite Hne.
    + destruct (String.eqb (col_name c) other); [reflexivity | exact IH].
Qed.

(** ** [process_data], column by column *)

Section ProcessDataFacts.
Context {pandas : Pandas}.

Lemma to_datetime_name (c : column) : col_name (to_datetime c) = col_name c.
Proof. unfold to_datetime. now destruct (col_dtype c). Qed.

Lemma to_numeric_name (c : column) : col_name (to_numeric c) = col_name c.
Proof. unfold to_numeric. now destruct (col_dtype c). Qed.

Lemma fill_numeric_name (c : column) : col_name (fill_numeric c) = col_name c.
Proof. unfold fill_numeric. now destruct (col_dtype c). Qed.

Lemma fill_text_name (c : column) : col_name (fill_text c) = col_name c.
Proof.
  unfold fill_text. destruct (col_dtype c); try reflexivity.
  now destruct (mem_string (col_name c) date_columns).
Qed.

(** *** The opening replacements on one column *)

Lemma column_ext (c c' : column) :
  col_name c = col_name c' -> col_dtype c = col_dtype c' ->
  col_values c = col_values c' -> c = c'.
Proof. destruct c, c'; simpl; congruence. Qed.

Lemma infer_objects_name (c : column) :
  col_name (infer_objects c) = col_name c.
Proof. unfold infer_objects. now destruct (col_dtype c). Qed.

Lemma infer_objects_values (c : column) :
  col_values (infer_objects c) = col_values c.
Proof. unfold infer_objects. now destruct (col_dtype c). Qed.

Lemma infer_objects_other (c : column) :
  col_dtype c <> DObject -> infer_objects c = c.
Proof. unfold infer_objects. now destruct (col_dtype c). Qed.

(** An object column with a string, or without cells, stays as it is. *)
Lemma infer_objects_text (c : column) :
  col_values c = [] \/ existsb is_str (col_values c) = true ->
  infer_objects c = c.
Proof.
  intros H. unfold infer_objects. destruct (col_dtype c) eqn:E;
    try reflexivity.
  apply column_ext; cbn [col_name col_dtype col_values]; try reflexivity.
  rewrite E. unfold infer_dtype. destruct H as [-> | ->]; reflexivity.
Qed.

Lemma replace_in_column_name (s : string) (h : bool) (c : column) :
  col_name (replace_in_column s h c) = col_name c.
Proof.
  unfold replace_in_column. cbv zeta.
  destruct h; [now rewrite infer_objects_name | reflexivity].
Qed.

Lemma replace_in_column_values (s : string) (h : bool) (c : column) :
  col_values (replace_in_column s h c)
  = map (replace_with_nan s) (col_values c).
Proof.
  unfold replace_in_column. cbv zeta.
  destruct h; [now rewrite infer_objects_values | reflexivity].
Qed.

Lemma replace_in_column_other (s : string) (h : bool) (c : column) :
  col_dtype c <> DObject ->
  replace_in_column s h c = map_values (replace_with_nan s) c.
Proof.
  intros H. unfold replace_in_column. cbv zeta.
  destruct h; [now apply infer_objects_other | reflexivity].
Qed.

Lemma replace_markers_in_name (h0 h1 h2 : bool) (c : column) :
  col_name (replace_markers_in h0 h1 h2 c) = col_name c.
Proof. unfold replace_markers_in. now rewrite !replace_in_column_name. Qed.

Lemma replace_markers_in_values (h0 h1 h2 : bool) (c : column) :
  col_values (replace_markers_in h0 h1 h2 c)
  = map replace_markers (col_values c).
Proof.
  unfold replace_markers_in. rewrite !replace_in_column_values, !map_map.
  reflexivity.
Qed.

Lemma kept_string_replace (s : string) (v : cell) :
  mem_string s [""; " "; "nan"] = true -> kept_string v = true ->
  replace_with_nan s v = v.
Proof.
  destruct v as [|t|q|d]; try reflexivity. cbn [kept_string]. intros Hs Ht.
  apply negb_true_iff in Ht. cbn [replace_with_nan].
  destruct (String.eqb t s) eqn:E; [|reflexivity].
  apply String.eqb_eq in E. congruence.
Qed.

Lemma keeps_string_replace (s : string) (c : column) :
  mem_string s [""; " "; "nan"] = true -> keeps_string c = true ->
  keeps_string (map_values (replace_with_nan s) c) = true.
Proof.
  unfold keeps_string. cbn [map_values col_values]. intros Hs H.
  apply existsb_exists in H as [v [Hv Hk]]. apply existsb_exists.
  exists v. split; [|exact Hk].
  rewrite <- (kept_string_replace s v Hs Hk). now apply in_map.
Qed.

Lemma keeps_string_is_str (c : column) :
  keeps_string c = true -> existsb is_str (col_values c) = true.
Proof.
  unfold keeps_string. intros H.
  apply existsb_exists in H as [v [Hv Hk]]. apply existsb_exists.
  exists v. split; [exact Hv | now destruct v].
Qed.

(** A column that keeps a string, or has no cell, keeps its dtype in
    each of the opening replacements. *)
Lemma replace_in_column_text (s : string) (h : bool) (c : column) :
  mem_string s [""; " "; "nan"] = true ->
  col_values c = [] \/ keeps_string c = true ->
  replace_in_column s h c = map_values (replace_with_nan s) c.
Proof.
  intros Hs H. unfold replace_in_column. cbv zeta.
  destruct h; [|reflexivity].
  apply infer_objects_text. destruct H as [H | H].
  - left. cbn [map_values col_values]. now rewrite H.
  - right. now apply keeps_string_is_str, keeps_string_replace.
Qed.

Lemma replace_markers_in_text (h0 h1 h2 : bool) (c : column) :
  col_values c = [] \/ keeps_string c = true ->
  replace_markers_in h0 h1 h2 c = map_values replace_markers c.
Proof.
  intros H. unfold replace_markers_in.
  assert (H0 : col_values (map_values (replace_with_nan "") c) = []
               \/ keeps_string (map_values (replace_with_nan "") c) = true).
  { destruct H as [H | H];
      [left; cbn [map_values col_values]; now rewrite H
      |right; now apply keeps_string_replace]. }
  assert (H1 : col_values (map_values (replace_with_nan " ")
                             (map_values (replace_with_nan "") c)) = []
               \/ keeps_string (map_values (replace_with_nan " ")
                                  (map_values (replace_with_nan "") c))
                  = true).
  { destruct H0 as [H0 | H0];
      [left; cbn [map_values col_values] in *; now rewrite H0
      |right; now apply keeps_string_replace]. }
  rewrite (replace_in_column_text "" h0 c) by (reflexivity || exact H).
  rewrite (replace_in_column_text " " h1) by (reflexivity || exact H0).
  rewrite (replace_in_column_text "nan" h2) by (reflexivity || exact H1).
  now rewrite !map_values_compose.
Qed.

Lemma replace_markers_in_other (h0 h1 h2 : bool) (c : column) :
  col_dtype c <> DObject ->
  replace_markers_in h0 h1 h2 c = map_values replace_markers c.
Proof.
  intros H. unfold replace_markers_in.
  rewrite (replace_in_column_other "" h0 c) by exact H.
  rewrite (replace_in_column_other " " h1) by exact H.
  rewrite (replace_in_column_other "nan" h2) by exact H.
  now rewrite !map_values_compose.
Qed.

(** What [keeps_text] is for. *)
Lemma replace_markers_in_kept (h0 h1 h2 : bool) (c : column) :
  keeps_text c = true ->
  replace_markers_in h0 h1 h2 c = map_values replace_markers c.
Proof.
  unfold keeps_text. intros H. destruct (col_dtype c) eqn:E;
    try (apply replace_markers_in_other; congruence).
  apply replace_markers_in_text.
  destruct (col_values c); [now left | now right].
Qed.

Lemma before_year_name (h0 h1 h2 : bool) (c : column) :
  col_name (before_year h0 h1 h2 c) = col_name c.
Proof.
  unfold before_year. cbv zeta.
  destruct (mem_string (col_name c) date_columns);
    [rewrite to_datetime_name|]; apply replace_markers_in_name.
Qed.

Lemma after_year_name (c : column) : col_name (after_year c) = col_name c.
Proof.
  unfold after_year. rewrite fill_text_name, fill_numeric_name.
  destruct (mem_string (col_name c) critical_numeric_columns); [|reflexivity].
  now rewrite map_values_name, to_numeric_name.
Qed.

Lemma date_columns_NoDup : NoDup date_columns.
Proof.
  unfold date_columns.
  repeat (constructor; [simpl; intuition discriminate|]). constructor.
Qed.

Lemma critical_numeric_columns_NoDup : NoDup critical_numeric_columns.
Proof.
  unfold critical_numeric_columns.
  repeat (constructor; [simpl; intuition discriminate|]). constructor.
Qed.

Lemma date_not_critical (name : string) :
  mem_string name date_columns = true ->
  mem_string name critical_numeric_columns = false.
Proof.
  intros H. apply mem_string_In in H. simpl in H.
  repeat (destruct H as [H | H]; [subst name; reflexivity|]). destruct H.
Qed.

Lemma extract_year_index (df : DataFrame) :
  df_index (extract_year df) = df_index df.
Proof.
  unfold extract_year. destruct (find_column "fecha_inspeccion" df);
    [apply set_column_index | reflexivity].
Qed.

Lemma replaced_frame (data : DataFrame) :
  df_replace_with_nan "nan"
    (df_replace_with_nan " " (df_replace_with_nan "" data))
  = mkDataFrame (df_index data)
      (map (replace_markers_in (hit_empty data) (hit_blank data)
              (hit_nan data))
           (df_columns data)).
Proof.
  unfold hit_nan, hit_blank, hit_empty.
  set (d0 := df_replace_with_nan "" data).
  set (d1 := df_replace_with_nan " " d0).
  unfold df_replace_with_nan at 1.
  change (df_index d1) with (df_index data).
  change (df_columns d1)
    with (map (replace_in_column " " (replace_hits " " d0))
              (map (replace_in_column "" (replace_hits "" data))
                   (df_columns data))).
  now rewrite !map_map.
Qed.

Lemma process_data_columns (data : DataFrame) :
  process_data data
  = mkDataFrame (df_index data)
      (map after_year (df_columns (extract_year (first_half data)))).
Proof.
  unfold process_data.
  rewrite (for_columns_spec critical_numeric_columns);
    [| exact critical_numeric_columns_NoDup
     | intros c; now rewrite map_values_name, to_numeric_name].
  rewrite (for_columns_spec date_columns);
    [| exact date_columns_NoDup | exact to_datetime_name].
  rewrite replaced_frame. cbn [df_index df_columns]. rewrite map_map.
  set (d := mkDataFrame (df_index data) _).
  assert (Hd : d = first_half data).
  { unfold d, first_half. f_equal. apply map_ext. intros c.
    unfold before_year. cbv zeta. now rewrite replace_markers_in_name. }
  rewrite Hd, extract_year_index, !map_map. reflexivity.
Qed.

(** One column of the frame between the two halves. *)
Lemma first_half_In (data : DataFrame) (b : column) :
  In b (df_columns (first_half data)) ->
  exists h0 h1 h2 c,
    In c (df_columns data) /\ b = before_year h0 h1 h2 c.
Proof.
  unfold first_half. cbn [df_columns]. intros H.
  apply in_map_iff in H as [c [<- Hc]]. eauto 6.
Qed.

Lemma first_half_index (data : DataFrame) :
  df_index (first_half data) = df_index data.
Proof. reflexivity. Qed.

(** *** What the columns look like between the two halves *)

Lemma to_datetime_dtype (c : column) : col_dtype (to_datetime c) = DDatetime.
Proof. unfold to_datetime. now destruct (col_dtype c) eqn:E. Qed.

Lemma before_year_typed (h0 h1 h2 : bool) (c : column) :
  typed_dates (before_year h0 h1 h2 c).
Proof.
  unfold typed_dates. rewrite before_year_name. intros H.
  unfold before_year. cbv zeta. rewrite H. apply to_datetime_dtype.
Qed.

Lemma extract_year_In (df : DataFrame) (a : column) :
  In a (df_columns (extract_year df)) ->
  (col_name a <> "year" /\ In a (df_columns df))
  \/ (exists f, find_column "fecha_inspeccion" df = Some f
               /\ a = mkColumn "year" DNumber (map year_cell (col_values f)))
  \/ (find_column "fecha_inspeccion" df = None /\ In a (df_columns df)).
Proof.
  unfold extract_year.
  destruct (find_column "fecha_inspeccion" df) as [f|] eqn:Hf.
  - intros H. apply set_column_In in H as [H | H].
    + right. left. now exists f.
    + now left.
  - intros H. right. right. now split.
Qed.

Lemma year_column_typed (vs : list cell) :
  typed_dates (mkColumn "year" DNumber vs).
Proof. unfold typed_dates. simpl. discriminate. Qed.

Lemma between_typed (data : DataFrame) (a : column) :
  In a (df_columns (extract_year (first_half data))) ->
  typed_dates a.
Proof.
  intros H. apply extract_year_In in H as [[_ H] | [[f [_ H]] | [_ H]]].
  - apply first_half_In in H as (h0 & h1 & h2 & c & _ & ->).
    apply before_year_typed.
  - subst a. apply year_column_typed.
  - apply first_half_In in H as (h0 & h1 & h2 & c & _ & ->).
    apply before_year_typed.
Qed.

(** *** Cells *)

Lemma replace_with_empty_Str (m s : string) :
  replace_with_empty m (Str s) = if String.eqb s m then Str "" else Str s.
Proof. reflexivity. Qed.

Lemma strip_markers_cases (s : string) :
  (mem_string s ["nan"; "NaN"; "None"] = true /\ strip_markers s = Str "")
  \/ (mem_string s ["nan"; "NaN"; "None"] = false /\ strip_markers s = Str s).
Proof.
  unfold strip_markers, mem_string. cbn [existsb].
  rewrite (replace_with_empty_Str "nan").
  destruct (String.eqb s "nan") eqn:E1.
  - left. now split.
  - rewrite (replace_with_empty_Str "NaN").
    destruct (String.eqb s "NaN") eqn:E2.
    + left. now split.
    + rewrite (replace_with_empty_Str "None").
      destruct (String.eqb s "None") eqn:E3.
      * left. now split.
      * right. now split.
Qed.

Lemma strip_markers_clean (s : string) : clean_text (strip_markers s) = true.
Proof.
  destruct (strip_markers_cases s) as [[_ ->] | [H ->]].
  - reflexivity.
  - cbn [clean_text]. now rewrite H.
Qed.

Lemma clean_text_cell_strip (v : cell) :
  clean_text_cell v = strip_markers (py_str (fillna (Str "") v)).
Proof. now destruct v. Qed.

Lemma clean_text_cell_clean (v : cell) : clean_text (clean_text_cell v) = true.
Proof. rewrite clean_text_cell_strip. apply strip_markers_clean. Qed.

Lemma fillna_not_null (v : cell) : not_null (fillna (Num 0) v) = true.
Proof. now destruct v. Qed.

Lemma fill_numeric_number (x : column) :
  col_dtype x = DNumber -> fill_numeric x = map_values (fillna (Num 0)) x.
Proof. unfold fill_numeric. now intros ->. Qed.

Lemma fill_numeric_other (x : column) :
  col_dtype x <> DNumber -> fill_numeric x = x.
Proof. unfold fill_numeric. now destruct (col_dtype x). Qed.

Lemma fill_text_object (x : column) :
  col_dtype x = DObject -> mem_string (col_name x) date_columns = false ->
  fill_text x = map_values clean_text_cell x.
Proof. unfold fill_text. now intros -> ->. Qed.

Lemma fill_text_other (x : column) :
  col_dtype x <> DObject -> fill_text x = x.
Proof. unfold fill_text. now destruct (col_dtype x). Qed.

Lemma critical_numeric_name (a : column) :
  col_name (critical_numeric a) = col_name a.
Proof.
  unfold critical_numeric.
  destruct (mem_string (col_name a) critical_numeric_columns);
    [now rewrite map_values_name, to_numeric_name | reflexivity].
Qed.

Lemma critical_numeric_typed (a : column) :
  typed_dates a -> typed_dates (critical_numeric a).
Proof.
  unfold typed_dates. rewrite critical_numeric_name. intros Hty H.
  unfold critical_numeric. rewrite (date_not_critical _ H). now apply Hty.
Qed.

Lemma after_year_clean (a : column) :
  typed_dates a -> column_clean (after_year a) = true.
Proof.
  intros Hty. apply critical_numeric_typed in Hty.
  change (after_year a) with (fill_text (fill_numeric (critical_numeric a))).
  set (x := critical_numeric a) in *. clearbody x.
  destruct (col_dtype x) eqn:Ex.
  - rewrite (fill_numeric_other x) by congruence.
    destruct (mem_string (col_name x) date_columns) eqn:Ed.
    + apply Hty in Ed. congruence.
    + rewrite (fill_text_object x Ex Ed). unfold column_clean.
      cbn [map_values col_dtype col_values]. rewrite Ex.
      rewrite forallb_forall. intros v Hv.
      apply in_map_iff in Hv as [w [<- _]]. apply clean_text_cell_clean.
  - rewrite (fill_numeric_number x Ex).
    rewrite fill_text_other by (cbn [map_values col_dtype]; congruence).
    unfold column_clean. cbn [map_values col_dtype col_values]. rewrite Ex.
    rewrite forallb_forall. intros v Hv.
    apply in_map_iff in Hv as [w [<- _]]. apply fillna_not_null.
  - rewrite (fill_numeric_other x) by congruence.
    rewrite fill_text_other by congruence.
    unfold column_clean. now rewrite Ex.
  - rewrite (fill_numeric_other x) by congruence.
    rewrite fill_text_other by congruence.
    unfold column_clean. now rewrite Ex.
Qed.

Lemma process_data_clean (data : DataFrame) :
  no_missing_values (process_data data) = true.
Proof.
  rewrite process_data_columns. unfold no_missing_values. simpl.
  rewrite forallb_forall. intros c Hc.
  apply in_map_iff in Hc as [a [<- Ha]].
  apply after_year_clean. eapply between_typed. exact Ha.
Qed.

(** *** Text columns, cell by cell *)

Lemma normalized_text_marker (v : cell) :
  missing_marker v = true -> normalized_text v = Str "".
Proof.
  destruct v as [|s|q|t]; cbn [missing_marker]; try discriminate;
    [reflexivity|].
  intros H. apply mem_string_In in H. simpl in H.
  repeat (destruct H as [H | H]; [subst s; reflexivity|]). destruct H.
Qed.

Lemma replace_with_nan_Str (m s : string) :
  replace_with_nan m (Str s) = if String.eqb s m then Null else Str s.
Proof. reflexivity. Qed.

Lemma normalized_text_kept (s : string) :
  missing_marker (Str s) = false -> normalized_text (Str s) = Str s.
Proof.
  unfold missing_marker, mem_string. cbn [existsb]. intros H.
  apply orb_false_elim in H as [H0 H].
  apply orb_false_elim in H as [H1 H].
  apply orb_false_elim in H as [H2 H].
  apply orb_false_elim in H as [H3 H].
  apply orb_false_elim in H as [H4 _].
  unfold normalized_text, replace_markers.
  rewrite (replace_with_nan_Str ""). rewrite H0.
  rewrite (replace_with_nan_Str " "). rewrite H1.
  rewrite (replace_with_nan_Str "nan"). rewrite H2.
  rewrite clean_text_cell_strip. cbn [fillna py_str].
  destruct (strip_markers_cases s) as [[Hm _] | [_ ->]]; [|reflexivity].
  unfold mem_string in Hm. cbn [existsb] in Hm.
  rewrite H2, H3, H4 in Hm. discriminate.
Qed.

Lemma extract_year_keeps (df : DataFrame) (a : column) :
  In a (df_columns df) -> col_name a <> "year" ->
  In a (df_columns (extract_year df)).
Proof.
  intros Hin Hne. unfold extract_year.
  destruct (find_column "fecha_inspeccion" df); [|assumption].
  now apply set_column_keeps.
Qed.

Lemma text_column_normalized (data : DataFrame) (c : column) :
  In c (df_columns data) -> text_column c = true ->
  keeps_string c = true ->
  In (map_values normalized_text c) (df_columns (process_data data)).
Proof.
  intros Hin Htext Hkeeps. unfold text_column in Htext.
  destruct (col_dtype c) eqn:Ec; [| discriminate Htext ..].
  apply negb_true_iff, mem_string_false in Htext.
  assert (Hyear : col_name c <> "year") by (intros E; apply Htext; now left).
  assert (Hdate : mem_string (col_name c) date_columns = false).
  { apply mem_string_false. intros E. apply Htext. right.
    apply in_app_iff. now left. }
  assert (Hcrit : mem_string (col_name c) critical_numeric_columns = false).
  { apply mem_string_false. intros E. apply Htext. right.
    apply in_app_iff. now right. }
  rewrite process_data_columns. cbn [df_columns].
  apply in_map_iff. exists (map_values replace_markers c). split.
  - unfold after_year. cbn [map_values col_name]. rewrite Hcrit.
    rewrite fill_numeric_other by (cbn [map_values col_dtype]; congruence).
    rewrite fill_text_object by assumption.
    rewrite map_values_compose. reflexivity.
  - apply extract_year_keeps; [|assumption].
    unfold first_half. cbn [df_columns]. apply in_map_iff. exists c.
    split; [|assumption].
    unfold before_year. cbv zeta. rewrite Hdate.
    apply replace_markers_in_text. now right.
Qed.

(** C1 (as the code has it).  After [process_data], no numeric column
    holds a missing value and no object-typed text column holds a missing
    value or one of the strings "nan", "NaN", "None".  In a text column
    that holds at least one string other than "", " " and "nan" -- a
    column that stays a text column --, a cell that was missing or held
    "", " ", "nan", "NaN" or "None" holds the empty string, and every
    other string, a longer run of spaces included, is kept as it is. *)
Theorem process_data_no_missing_values (data : DataFrame) :
  no_missing_values (process_data data) = true
  /\ (forall c, In c (df_columns data) -> text_column c = true ->
        keeps_string c = true ->
        In (map_values normalized_text c) (df_columns (process_data data)))
  /\ (forall v, missing_marker v = true -> normalized_text v = Str "")
  /\ (forall s, missing_marker (Str s) = false ->
        normalized_text (Str s) = Str s).
Proof.
  split; [apply process_data_clean|].
  split; [intros c; apply text_column_normalized|].
  split; [apply normalized_text_marker | apply normalized_text_kept].
Qed.

End ProcessDataFacts.

(** C1 (as stated) fails on [sample_raw] in production: the [sector]
    column, category-encoded before normalisation, keeps its missing
    value, and the two-space cell of [obs] is not emptied. *)
Lemma production_keeps_missing_text :
  let out := DataProcessor_init true sample_raw in
  forallb column_clean_with_categories (df_columns out) = false
  /\ find_column "sector" out
     = Some (mkColumn "sector" DCategory [Str "A"; Str "A"; Str "A"; Null])
  /\ find_column "obs" out
     = Some (mkColumn "obs" DObject [Str "  "; Str "x"; Str ""; Str ""]).
Proof. vm_compute. repeat split; reflexivity. Qed.

(** A text column that the opening replacements leave without any
    string is no text column any more: pandas types it as numbers, and
    it is filled with 0, not with the empty string. *)
Example emptied_text_column_becomes_numeric :
  process_data
    (mkDataFrame [0; 1; 2; 3]%nat
       [ mkColumn "obs" DObject [Str ""; Str " "; Str "nan"; Null];
         mkColumn "nota" DObject [Str ""; Str "x"; Str "NaN"; Null] ])
  = mkDataFrame [0; 1; 2; 3]%nat
      [ mkColumn "obs" DNumber [Num 0; Num 0; Num 0; Num 0];
        mkColumn "nota" DObject [Str ""; Str "x"; Str ""; Str ""] ].
Proof. reflexivity. Qed.

(** ** Running [process_data] twice *)

Section Idempotence.
Context {pandas : Pandas}.
Hypothesis str_of_num_not_blank : forall q, str_of_num q <> " ".
Hypothesis str_of_datetime_not_blank : forall t, str_of_datetime t <> " ".

Lemma replace_markers_cases (s : string) :
  (mem_string s [""; " "; "nan"] = true /\ replace_markers (Str s) = Null)
  \/ (mem_string s [""; " "; "nan"] = false
      /\ replace_markers (Str s) = Str s).
Proof.
  unfold replace_markers, mem_string. cbn [existsb].
  rewrite (replace_with_nan_Str "").
  destruct (String.eqb s "") eqn:E1.
  - left. now split.
  - rewrite (replace_with_nan_Str " ").
    destruct (String.eqb s " ") eqn:E2.
    + left. now split.
    + rewrite (replace_with_nan_Str "nan").
      destruct (String.eqb s "nan") eqn:E3.
      * left. now split.
      * right. now split.
Qed.

Lemma replace_markers_unmarked (v : cell) : unmarked (replace_markers v).
Proof.
  unfold unmarked. destruct v as [|s|q|t]; try reflexivity.
  destruct (replace_markers_cases s) as [[_ ->] | [_ H]].
  - reflexivity.
  - now rewrite !H.
Qed.

Lemma unmarked_fillna (w : cell) :
  unmarked w -> unmarked (fillna (Num 0) w).
Proof. now destruct w. Qed.

Lemma unmarked_cell_of_option {A : Type} (f : A -> cell) (o : option A) :
  (forall x, unmarked (f x)) -> unmarked (cell_of_option f o).
Proof. intros H. destruct o; [apply H | reflexivity]. Qed.

Lemma to_datetime_cell_unmarked (v : cell) : unmarked (to_datetime_cell v).
Proof.
  destruct v; simpl; try reflexivity;
    now apply unmarked_cell_of_option.
Qed.

Lemma before_year_settled (h0 h1 h2 : bool) (c : column) :
  settled (before_year h0 h1 h2 c).
Proof.
  split; [apply before_year_typed|].
  unfold before_year. cbv zeta.
  assert (H : Forall unmarked
                (col_values (replace_markers_in h0 h1 h2 c))).
  { rewrite replace_markers_in_values. apply Forall_forall. intros v Hv.
    apply in_map_iff in Hv as [w [<- _]]. apply replace_markers_unmarked. }
  destruct (mem_string (col_name c) date_columns); [|exact H].
  unfold to_datetime.
  destruct (col_dtype (replace_markers_in h0 h1 h2 c)); try exact H.
  all: cbn [col_values]; apply Forall_forall; intros v Hv;
    apply in_map_iff in Hv as [w [<- _]]; apply to_datetime_cell_unmarked.
Qed.

Lemma first_half_settled (data : DataFrame) (c : column) :
  In c (df_columns (first_half data)) -> settled c.
Proof.
  intros H. apply first_half_In in H as (h0 & h1 & h2 & c0 & _ & ->).
  apply before_year_settled.
Qed.

Lemma year_column_settled (vs : list cell) :
  settled (mkColumn "year" DNumber (map year_cell vs)).
Proof.
  split; [apply year_column_typed|].
  cbn [col_values]. apply Forall_forall. intros v Hv.
  apply in_map_iff in Hv as [w [<- _]]. now destruct w.
Qed.

Lemma between_settled (D : DataFrame) (a : column) :
  (forall c, In c (df_columns D) -> settled c) ->
  In a (df_columns (extract_year D)) ->
  settled a.
Proof.
  intros HD H. apply extract_year_In in H as [[_ H] | [[f [_ H]] | [_ H]]].
  - now apply HD.
  - subst a. apply year_column_settled.
  - now apply HD.
Qed.

Lemma settled_fixed (a : column) :
  settled a -> map_values replace_markers a = a.
Proof. intros [_ H]. now apply map_values_fixed. Qed.

Lemma after_year_date (a : column) :
  settled a -> mem_string (col_name a) date_columns = true ->
  after_year a = a.
Proof.
  intros [Hty _] Hd. unfold after_year.
  rewrite (date_not_critical _ Hd).
  rewrite fill_numeric_other by (rewrite (Hty Hd); discriminate).
  apply fill_text_other. rewrite (Hty Hd). discriminate.
Qed.

(** On a column whose dtype the opening replacements keep, the first
    half works cell by cell. *)
Lemma before_year_kept_eq (h0 h1 h2 : bool) (c : column) :
  keeps_text c = true -> before_year h0 h1 h2 c = before_year_kept c.
Proof.
  intros H. unfold before_year, before_year_kept. cbv zeta.
  now rewrite (replace_markers_in_kept h0 h1 h2 c H).
Qed.

Lemma before_year_kept_name (c : column) :
  col_name (before_year_kept c) = col_name c.
Proof.
  unfold before_year_kept. cbv zeta.
  destruct (mem_string (col_name c) date_columns); [|reflexivity].
  now rewrite to_datetime_name.
Qed.

Lemma before_year_date (a : column) :
  settled a -> mem_string (col_name a) date_columns = true ->
  before_year_kept a = a.
Proof.
  intros Hs Hd. unfold before_year_kept. cbv zeta. rewrite Hd.
  rewrite (settled_fixed a Hs). unfold to_datetime.
  destruct Hs as [Hty _]. now rewrite (Hty Hd).
Qed.

Lemma before_year_other (a : column) :
  mem_string (col_name a) date_columns = false ->
  before_year_kept a = map_values replace_markers a.
Proof. intros Hd. unfold before_year_kept. cbv zeta. now rewrite Hd. Qed.

Lemma to_numeric_values_unmarked (a : column) :
  Forall unmarked (col_values a) ->
  Forall (fun w => unmarked (fillna (Num 0) w)) (col_values (to_numeric a)).
Proof.
  intros H. unfold to_numeric. destruct (col_dtype a).
  - cbn [col_values]. apply Forall_forall. intros v Hv.
    apply in_map_iff in Hv as [w [<- _]].
    destruct w; simpl; try reflexivity.
    destruct (parse_numeric s); reflexivity.
  - eapply Forall_impl; [|exact H]. intros w. apply unmarked_fillna.
  - cbn [col_values]. rewrite Forall_forall in *. intros v Hv.
    apply in_map_iff in Hv as [w [<- Hw]].
    destruct w; simpl; try reflexivity. apply (H _ Hw).
  - cbn [col_values]. apply Forall_forall. intros v Hv.
    apply in_map_iff in Hv as [w [<- _]].
    destruct w; simpl; try reflexivity.
    destruct (parse_numeric s); reflexivity.
Qed.

Lemma fillna_idempotent (w : cell) :
  fillna (Num 0) (fillna (Num 0) w) = fillna (Num 0) w.
Proof. now destruct w. Qed.

Lemma py_str_not_blank (v : cell) :
  unmarked v -> py_str (fillna (Str "") v) <> " ".
Proof.
  destruct v as [|s|q|t]; cbn [fillna py_str]; intros H.
  - discriminate.
  - destruct (replace_markers_cases s) as [[_ E] | [E _]].
    + unfold unmarked in H. congruence.
    + intros ->. discriminate.
  - apply str_of_num_not_blank.
  - apply str_of_datetime_not_blank.
Qed.

Lemma clean_text_cell_stable (v : cell) :
  unmarked v ->
  clean_text_cell (replace_markers (clean_text_cell v)) = clean_text_cell v.
Proof.
  intros H. apply py_str_not_blank in H.
  rewrite (clean_text_cell_strip v).
  set (s := py_str (fillna (Str "") v)) in *. clearbody s.
  destruct (strip_markers_cases s) as [[_ ->] | [Hm ->]]; [reflexivity|].
  destruct (replace_markers_cases s) as [[Hr ->] | [_ ->]].
  - apply mem_string_In in Hr. simpl in Hr.
    destruct Hr as [<- | [<- | [<- | []]]];
      [reflexivity | congruence | discriminate].
  - rewrite clean_text_cell_strip. cbn [fillna py_str].
    destruct (strip_markers_cases s) as [[Hm' _] | [_ ->]];
      [congruence | reflexivity].
Qed.

(** The second run undoes nothing of what the first has settled. *)
Lemma after_before_after (a : column) :
  settled a -> after_year (before_year_kept (after_year a)) = after_year a.
Proof.
  intros Hs.
  destruct (mem_string (col_name a) date_columns) eqn:Hd.
  { rewrite (after_year_date a Hs Hd), (before_year_date a Hs Hd).
    apply (after_year_date a Hs Hd). }
  rewrite before_year_other by (now rewrite after_year_name).
  destruct Hs as [_ Hu].
  unfold after_year at 2 3.
  destruct (mem_string (col_name a) critical_numeric_columns) eqn:Hc.
  - pose proof (to_numeric_values_unmarked a Hu) as Hz.
    assert (Hty : col_dtype (to_numeric a) = DNumber)
      by (unfold to_numeric; now destruct (col_dtype a) eqn:E).
    assert (Hn : col_name (to_numeric a) = col_name a)
      by apply to_numeric_name.
    set (z := to_numeric a) in *. clearbody z.
    rewrite fill_numeric_number by exact Hty.
    rewrite fill_text_other by (cbn [map_values col_dtype]; congruence).
    unfold after_year. cbn [map_values col_name]. rewrite Hn, Hc.
    unfold to_numeric. cbn [map_values col_dtype]. rewrite Hty.
    rewrite fill_numeric_number by exact Hty.
    rewrite fill_text_other by (cbn [map_values col_dtype]; congruence).
    rewrite !map_values_compose. apply map_values_ext.
    eapply Forall_impl; [|exact Hz]. intros w Hw. cbv beta.
    rewrite !fillna_idempotent. unfold unmarked in Hw. rewrite Hw.
    now rewrite !fillna_idempotent.
  - destruct (col_dtype a) eqn:Ea.
    + rewrite fill_numeric_other by congruence.
      rewrite fill_text_object by assumption.
      unfold after_year. cbn [map_values col_name]. rewrite Hc.
      rewrite fill_numeric_other by (cbn [map_values col_dtype]; congruence).
      rewrite fill_text_object by assumption.
      rewrite !map_values_compose. apply map_values_ext.
      eapply Forall_impl; [|exact Hu]. intros w Hw.
      now apply clean_text_cell_stable.
    + rewrite fill_numeric_number by assumption.
      rewrite fill_text_other by (cbn [map_values col_dtype]; congruence).
      unfold after_year. cbn [map_values col_name]. rewrite Hc.
      rewrite fill_numeric_number by assumption.
      rewrite fill_text_other by (cbn [map_values col_dtype]; congruence).
      rewrite !map_values_compose. apply map_values_ext.
      eapply Forall_impl; [|exact Hu]. intros w Hw. cbv beta.
      apply unmarked_fillna in Hw. unfold unmarked in Hw. rewrite Hw.
      apply fillna_idempotent.
    + rewrite fill_numeric_other by congruence.
      rewrite fill_text_other by congruence.
      rewrite (map_values_fixed replace_markers a Hu).
      unfold after_year. rewrite Hc.
      rewrite fill_numeric_other by congruence.
      apply fill_text_other. congruence.
    + rewrite fill_numeric_other by congruence.
      rewrite fill_text_other by congruence.
      rewrite (map_values_fixed replace_markers a Hu).
      unfold after_year. rewrite Hc.
      rewrite fill_numeric_other by congruence.
      apply fill_text_other. congruence.
Qed.

Lemma set_column_has (name : string) (ty : dtype) (vs : list cell)
    (df : DataFrame) :
  has_column name (set_column name ty vs df) = true.
Proof.
  unfold set_column. destruct (has_column name df) eqn:Hhas.
  - unfold map_column.
    rewrite (has_column_map name _ (df_index df) (df_index df)).
    + now destruct df.
    + intros c. destruct (String.eqb (col_name c) name) eqn:E;
        [apply String.eqb_eq in E; now rewrite E | reflexivity].
  - apply mem_string_In. cbn [df_columns]. rewrite map_app.
    apply in_app_iff. right. now left.
Qed.

Lemma frame_eta (df : DataFrame) :
  mkDataFrame (df_index df) (df_columns df) = df.
Proof. now destruct df. Qed.

(** The second run on a frame of settled columns, when it works cell by
    cell. *)
Lemma second_run (idx : list nat) (D : DataFrame) :
  df_index D = idx ->
  (forall c, In c (df_columns D) -> settled c) ->
  mkDataFrame idx
    (map after_year
       (df_columns
          (extract_year
             (mkDataFrame idx
                (map before_year_kept
                   (map after_year (df_columns (extract_year D))))))))
  = mkDataFrame idx (map after_year (df_columns (extract_year D))).
Proof.
  intros HidxD HD. f_equal.
  pose proof (between_settled D) as Hsettled.
  assert (Hidx : df_index (extract_year D) = idx)
    by (now rewrite extract_year_index).
  set (A := df_columns (extract_year D)) in *.
  rewrite map_map.
  assert (Hfind :
    find_column "fecha_inspeccion"
      (mkDataFrame idx
         (map (fun x => before_year_kept (after_year x)) A))
    = option_map (fun x => before_year_kept (after_year x))
        (find_column "fecha_inspeccion" (extract_year D))).
  { rewrite (find_column_map _ _ _ idx).
    - unfold A. now rewrite <- Hidx, frame_eta.
    - intros c. now rewrite before_year_kept_name, after_year_name. }
  unfold extract_year at 1. rewrite Hfind.
  unfold A, extract_year in *.
  destruct (find_column "fecha_inspeccion" D) as [f|] eqn:Hf.
  - rewrite set_column_find_other in * by discriminate. rewrite Hf.
    cbn [option_map].
    apply find_column_name in Hf as [Hfname Hfin].
    assert (Hfd : mem_string (col_name f) date_columns = true)
      by (now rewrite Hfname).
    rewrite (after_year_date f (HD f Hfin) Hfd).
    rewrite (before_year_date f (HD f Hfin) Hfd).
    set (yv := map year_cell (col_values f)) in *.
    unfold set_column at 1.
    rewrite (has_column_map "year" _ _ idx)
      by (intros c; now rewrite before_year_kept_name, after_year_name).
    replace (mkDataFrame idx
               (df_columns (set_column "year" DNumber yv D)))
      with (set_column "year" DNumber yv D)
      by (now rewrite <- Hidx, frame_eta).
    rewrite set_column_has.
    unfold map_column. cbn [df_columns]. rewrite !map_map.
    apply map_ext_in. intros a Ha.
    rewrite before_year_kept_name, after_year_name.
    destruct (String.eqb (col_name a) "year") eqn:E.
    + apply set_column_In in Ha as [-> | [Hne _]]; [reflexivity|].
      apply String.eqb_eq in E. contradiction.
    + apply after_before_after. now apply Hsettled.
  - rewrite Hf. cbn [option_map]. cbn [df_columns]. rewrite map_map.
    apply map_ext_in. intros a Ha.
    apply after_before_after. now apply Hsettled.
Qed.

Lemma first_half_kept (R : DataFrame) :
  forallb keeps_text (df_columns R) = true ->
  first_half R
  = mkDataFrame (df_index R) (map before_year_kept (df_columns R)).
Proof.
  intros H. unfold first_half. f_equal. apply map_ext_in. intros c Hc.
  apply before_year_kept_eq. rewrite forallb_forall in H. now apply H.
Qed.

(** C5 (as the code has it).  [process_data] run on its own result
    returns that result, column for column (labels, dtypes and cell
    values) and with the same index, when the first run has left in
    every object column that has cells at least one string other than
    "", " " and "nan" -- provided, as Python's [str] has it, that no
    number and no timestamp prints as a single space. *)
Theorem process_data_idempotent (data : DataFrame) :
  forallb keeps_text (df_columns (process_data data)) = true ->
  process_data (process_data data) = process_data data.
Proof.
  intros Hkept.
  rewrite (process_data_columns (process_data data)).
  rewrite (first_half_kept _ Hkept).
  rewrite (process_data_columns data). cbn [df_index df_columns].
  apply second_run; [reflexivity | apply first_half_settled].
Qed.

(** *** The condition is needed *)

Lemma forallb_false {A : Type} (f : A -> bool) (l : list A) :
  forallb f l = false -> exists x, In x l /\ f x = false.
Proof.
  induction l as [|x l IH]; cbn [forallb]; [discriminate|].
  destruct (f x) eqn:E.
  - intros H. destruct (IH H) as [y [Hy Hf]]. exists y. split; [now right|].
    exact Hf.
  - intros _. exists x. split; [now left | exact E].
Qed.

Lemma existsb_false {A : Type} (f : A -> bool) (l : list A) (x : A) :
  existsb f l = false -> In x l -> f x = false.
Proof.
  intros H Hx. destruct (f x) eqn:E; [|reflexivity].
  assert (existsb f l = true) by (apply existsb_exists; now exists x).
  congruence.
Qed.

Lemma after_year_number (x : column) :
  col_dtype x = DNumber -> col_dtype (after_year x) = DNumber.
Proof.
  intros H. unfold after_year.
  assert (Hy : col_dtype (critical_numeric x) = DNumber).
  { unfold critical_numeric.
    destruct (mem_string (col_name x) critical_numeric_columns); [|exact H].
    cbn [map_values col_dtype]. unfold to_numeric. now rewrite H. }
  fold (critical_numeric x).
  rewrite (fill_numeric_number _ Hy).
  rewrite fill_text_other by (cbn [map_values col_dtype]; congruence).
  exact Hy.
Qed.

(** The text columns of a result: neither dates nor critical indicators,
    cleaned cell by cell. *)
Lemma after_year_object (a : column) :
  settled a -> col_dtype (after_year a) = DObject ->
  mem_string (col_name a) date_columns = false
  /\ after_year a = map_values clean_text_cell a.
Proof.
  intros [Hty _] H. unfold after_year in *.
  destruct (mem_string (col_name a) critical_numeric_columns) eqn:Hc.
  - exfalso.
    assert (Hn : col_dtype (map_values (fillna (Num 0)) (to_numeric a))
                 = DNumber)
      by (cbn [map_values col_dtype]; unfold to_numeric;
          now destruct (col_dtype a) eqn:E).
    rewrite (fill_numeric_number _ Hn) in H.
    rewrite fill_text_other in H
      by (cbn [map_values col_dtype] in *; congruence).
    cbn [map_values col_dtype] in *. congruence.
  - destruct (col_dtype a) eqn:Ea.
    + destruct (mem_string (col_name a) date_columns) eqn:Hd;
        [apply Hty in Hd; congruence|].
      split; [reflexivity|].
      rewrite fill_numeric_other by congruence.
      now apply fill_text_object.
    + exfalso. rewrite (fill_numeric_number a Ea) in H.
      rewrite fill_text_other in H
        by (cbn [map_values col_dtype]; congruence).
      cbn [map_values col_dtype] in H. congruence.
    + exfalso. rewrite fill_numeric_other in H by congruence.
      rewrite fill_text_other in H by congruence. congruence.
    + exfalso. rewrite fill_numeric_other in H by congruence.
      rewrite fill_text_other in H by congruence. congruence.
Qed.

(** A cleaned cell that is none of the strings the opening replacements
    keep is the empty string. *)
Lemma clean_text_cell_emptied (v : cell) :
  unmarked v -> kept_string (clean_text_cell v) = false ->
  clean_text_cell v = Str "".
Proof.
  intros Hu. apply py_str_not_blank in Hu.
  rewrite (clean_text_cell_strip v).
  set (s := py_str (fillna (Str "") v)) in *. clearbody s.
  destruct (strip_markers_cases s) as [[_ ->] | [Hm ->]]; [reflexivity|].
  cbn [kept_string]. intros H. apply negb_false_iff, mem_string_In in H.
  cbn [In] in H. destruct H as [<- | [<- | [<- | []]]];
    [reflexivity | congruence | discriminate Hm].
Qed.

Lemma extract_year_nth (D : DataFrame) (i : nat) (b : column) :
  nth_error (df_columns D) i = Some b ->
  exists b',
    nth_error (df_columns (extract_year D)) i = Some b'
    /\ (b' = b \/ col_dtype b' = DNumber).
Proof.
  intros H. unfold extract_year.
  destruct (find_column "fecha_inspeccion" D) as [f|]; [|eauto].
  unfold set_column. destruct (has_column "year" D).
  - unfold map_column. cbn [df_columns]. rewrite nth_error_map, H.
    cbn [option_map].
    destruct (String.eqb (col_name b) "year"); eexists; split; eauto.
  - cbn [df_columns].
    rewrite nth_error_app1 by (apply nth_error_Some; congruence). eauto.
Qed.

Lemma existsb_map_null (f : cell -> bool) (l : list cell) :
  f Null = false -> existsb f (map (fun _ => Null) l) = false.
Proof.
  intros H. induction l as [|x l IH]; cbn [map existsb]; [reflexivity|].
  now rewrite H, IH.
Qed.

(** A text column of empty strings, once [replace('', np.nan)] has found
    an empty string: a numeric column. *)
Lemma before_year_emptied (h1 h2 : bool) (c : column) :
  col_dtype c = DObject ->
  col_values c <> [] ->
  Forall (fun v => v = Str "") (col_values c) ->
  mem_string (col_name c) date_columns = false ->
  col_dtype (before_year true h1 h2 c) = DNumber.
Proof.
  intros Ec Hne Hall Hd. unfold before_year. cbv zeta. rewrite Hd.
  unfold replace_markers_in.
  assert (H0 : col_dtype (replace_in_column "" true c) = DNumber).
  { unfold replace_in_column, infer_objects. cbv zeta.
    cbn [map_values col_dtype col_values]. rewrite Ec.
    cbn [col_dtype]. 
    assert (Hnull : map (replace_with_nan "") (col_values c)
                    = map (fun _ => Null) (col_values c)).
    { apply map_ext_in. intros v Hv. rewrite Forall_forall in Hall.
      now rewrite (Hall v Hv). }
    rewrite Hnull. unfold infer_dtype.
    rewrite !existsb_map_null by reflexivity. destruct (col_values c); [congruence | reflexivity]. }
  rewrite (replace_in_column_other " " h1) by congruence.
  rewrite (replace_in_column_other "nan" h2)
    by (cbn [map_values col_dtype]; congruence).
  cbn [map_values col_dtype]. exact H0.
Qed.

Lemma second_run_retypes (idx : list nat) (A : list column) :
  (forall a, In a A -> settled a) ->
  forallb keeps_text (map after_year A) = false ->
  process_data (mkDataFrame idx (map after_year A))
  <> mkDataFrame idx (map after_year A).
Proof.
  intros HA Hk. apply forallb_false in Hk as [c0 [Hin Hk]].
  pose proof Hin as Hin0.
  apply in_map_iff in Hin as [a [Hc0 Ha]].
  unfold keeps_text in Hk.
  destruct (col_dtype c0) eqn:Ec; try discriminate Hk.
  assert (Hne : col_values c0 <> [])
    by (intros E; rewrite E in Hk; discriminate Hk).
  assert (Hks : keeps_string c0 = false)
    by (destruct (col_values c0); [congruence | exact Hk]).
  clear Hk. rewrite <- Hc0 in Ec.
  destruct (after_year_object a (HA a Ha) Ec) as [Hd Hclean].
  rewrite <- (after_year_name a), Hc0 in Hd. rewrite Hc0 in Ec.
  assert (Hall : Forall (fun v => v = Str "") (col_values c0)).
  { apply Forall_forall. intros v Hv.
    pose proof (existsb_false _ _ v Hks Hv) as Hnot.
    rewrite <- Hc0, Hclean in Hv. cbn [map_values col_values] in Hv.
    apply in_map_iff in Hv as [w [<- Hw]].
    apply clean_text_cell_emptied; [|exact Hnot].
    destruct (HA a Ha) as [_ Hu]. rewrite Forall_forall in Hu.
    now apply Hu. }
  destruct (In_nth_error _ _ Hin0) as [i Hi].
  set (R := mkDataFrame idx (map after_year A)).
  assert (Hhit : hit_empty R = true).
  { unfold hit_empty, replace_hits. apply existsb_exists. exists c0.
    split; [exact Hin0|]. unfold is_object. rewrite Ec. cbn [andb].
    destruct (col_values c0) as [|v vs]; [congruence|].
    inversion Hall as [|? ? Hv _]; subst. reflexivity. }
  intros Heq.
  assert (Hdt : option_map col_dtype (nth_error (df_columns (process_data R)) i)
                = Some DNumber).
  { rewrite process_data_columns. cbn [df_columns].
    rewrite nth_error_map.
    assert (Hb : nth_error (df_columns (first_half R)) i
                 = Some (before_year (hit_empty R) (hit_blank R) (hit_nan R)
                           c0)).
    { assert (Hcols : df_columns R = map after_year A) by reflexivity.
      unfold first_half. cbn [df_columns].
      now rewrite nth_error_map, Hcols, Hi. }
    rewrite Hhit in Hb.
    pose proof (before_year_emptied (hit_blank R) (hit_nan R) c0
                  Ec Hne Hall Hd) as Hnum.
    destruct (extract_year_nth _ _ _ Hb) as [b' [-> Hb']].
    cbn [option_map]. f_equal. apply after_year_number.
    destruct Hb' as [-> | Hb']; assumption. }
  rewrite Heq in Hdt. unfold R in Hdt. cbn [df_columns] in Hdt.
  rewrite Hi in Hdt. cbn [option_map] in Hdt. congruence.
Qed.

(** The condition of [process_data_idempotent] cannot be dropped: when
    the first run leaves a text column with cells and without any string
    but the empty one, the second run makes a numeric column of it. *)
Lemma process_data_retypes_emptied_text (data : DataFrame) :
  forallb keeps_text (df_columns (process_data data)) = false ->
  process_data (process_data data) <> process_data data.
Proof.
  rewrite (process_data_columns data). cbn [df_columns].
  apply second_run_retypes. intros a Ha.
  apply (between_settled (first_half data)); [|exact Ha].
  apply first_half_settled.
Qed.

End Idempotence.

Lemma string_length_append (s t : string) :
  String.length (String.append s t) = (String.length s + String.length t)%nat.
Proof. induction s as [|a s IH]; simpl; [reflexivity | now rewrite IH]. Qed.

Lemma sample_str_of_num_not_blank (q : Q) :
  @str_of_num sample_pandas q <> " ".
Proof.
  cbn [str_of_num sample_pandas]. intros H.
  apply (f_equal String.length) in H.
  rewrite string_length_append in H. simpl in H. lia.
Qed.

Lemma sample_str_of_datetime_not_blank (t : Z) :
  @str_of_datetime sample_pandas t <> " ".
Proof.
  cbn [str_of_datetime sample_pandas]. intros H.
  apply (f_equal String.length) in H.
  rewrite string_length_append in H. simpl in H. lia.
Qed.

(** [process_data_idempotent] on [sample_raw], under the sample reading
    of the primitives. *)
Lemma process_data_idempotent_sample :
  process_data (process_data sample_raw) = process_data sample_raw.
Proof.
  exact (process_data_idempotent sample_str_of_num_not_blank
           sample_str_of_datetime_not_blank sample_raw eq_refl).
Defined.

(** C5 (as stated) fails on [sample_markers]: the first run leaves the
    column [obs] a text column of empty strings; the second run replaces
    them by missing values, pandas then types the column as numbers, and
    the column ends as a numeric column of zeros. *)
Lemma process_data_twice_retypes_empty_text :
  process_data sample_markers
  = mkDataFrame [0; 1]%nat [ mkColumn "obs" DObject [Str ""; Str ""] ]
  /\ process_data (process_data sample_markers)
     = mkDataFrame [0; 1]%nat [ mkColumn "obs" DNumber [Num 0; Num 0] ].
Proof. split; reflexivity. Qed.

(** ** [get_filtered_data] *)

(** *** Selection *)

Lemma select_length {A : Type} (mask : list bool) (xs : list A) :
  (List.length (select mask xs) <= List.length xs)%nat.
Proof.
  revert xs. induction mask as [|m mask IH]; intros [|x xs]; simpl; try lia.
  specialize (IH xs). destruct m; simpl; lia.
Qed.

Lemma select_map {A B : Type} (f : A -> B) (mask : list bool) (xs : list A) :
  select mask (map f xs) = map f (select mask xs).
Proof.
  revert xs. induction mask as [|m mask IH]; intros [|x xs]; simpl;
    try reflexivity.
  destruct m; simpl; now rewrite IH.
Qed.

Lemma select_nil {A : Type} (mask : list bool) : select mask (@nil A) = [].
Proof. now destruct mask. Qed.

Lemma select_select {A : Type} (m1 m2 : list bool) (xs : list A) :
  select (select m1 m2) (select m1 xs) = select (and_mask m1 m2) xs.
Proof.
  revert m2 xs. induction m1 as [|b1 m1 IH]; intros m2 xs.
  - reflexivity.
  - destruct m2 as [|b2 m2], xs as [|x xs]; simpl.
    + now destruct b1.
    + now destruct b1.
    + rewrite select_nil. now destruct b1.
    + destruct b1; simpl.
      * destruct b2; simpl; now rewrite IH.
      * apply IH.
Qed.

Lemma select_rows_nrows (mask : list bool) (df : DataFrame) :
  (nrows (select_rows mask df) <= nrows df)%nat.
Proof. apply select_length. Qed.

Lemma select_rows_find (name : string) (mask : list bool) (df : DataFrame) :
  find_column name (select_rows mask df)
  = option_map
      (fun c => mkColumn (col_name c) (col_dtype c)
                         (select mask (col_values c)))
      (find_column name df).
Proof.
  unfold select_rows.
  apply (find_column_map name _ _ (df_index df)). reflexivity.
Qed.

Lemma select_rows_has (name : string) (mask : list bool) (df : DataFrame) :
  has_column name (select_rows mask df) = has_column name df.
Proof.
  unfold select_rows.
  rewrite (has_column_map name _ _ (df_index df)) by reflexivity.
  now rewrite frame_eta.
Qed.

Lemma select_rows_select_rows (m1 m2 : list bool) (df : DataFrame) :
  select_rows (select m1 m2) (select_rows m1 df)
  = select_rows (and_mask m1 m2) df.
Proof.
  unfold select_rows. cbn [df_index df_columns]. f_equal.
  - apply select_select.
  - rewrite map_map. apply map_ext. intros c. cbn [col_name col_dtype col_values].
    f_equal. apply select_select.
Qed.

(** *** The loop over the filters *)

Lemma has_column_get (name : string) (df : DataFrame) :
  has_column name df = true ->
  exists c, find_column name df = Some c /\ get_column name df = Ok c.
Proof.
  intros H. apply has_column_find in H as [c Hc]. exists c.
  unfold get_column. now rewrite Hc.
Qed.

Lemma has_column_none (name : string) (df : DataFrame) :
  has_column name df = false -> find_column name df = None.
Proof.
  intros H. destruct (find_column name df) as [c|] eqn:E; [|reflexivity].
  assert (has_column name df = true) by (apply has_column_find; eauto).
  congruence.
Qed.

Lemma filter_mask_plain (v : filter_value) (vs : list cell) :
  plain v = true -> truthy v = true ->
  filter_mask v vs = Ok (map (cell_matches v) vs).
Proof. destruct v; simpl; try discriminate; reflexivity. Qed.

(** One turn of the loop: the value has to be a scalar or a list only
    when the turn compares it with a column. *)
Lemma apply_filter_applies (d : DataFrame) (k : string) (v : filter_value) :
  (special_key k = false -> truthy v = true -> has_column k d = true ->
   plain v = true) ->
  apply_filter d (k, v) = Ok (select_rows_opt (filter_applies d (k, v)) d).
Proof.
  intros Hplain. unfold apply_filter, filter_applies.
  change (mem_string k [FLAT_MAPPING; BY_PROVINCE]) with (special_key k).
  destruct (special_key k) eqn:Hk; [reflexivity|].
  destruct (truthy v) eqn:Hv; [|reflexivity].
  destruct (has_column k d) eqn:Hc; cbn [andb].
  - apply has_column_get in Hc as [c [Hfind Hget]].
    rewrite Hget, Hfind. cbn [bind].
    rewrite filter_mask_plain by auto. reflexivity.
  - now rewrite (has_column_none _ _ Hc).
Qed.

Lemma apply_filter_spec (d : DataFrame) (k : string) (v : filter_value) :
  (special_key k = false -> plain v = true) ->
  apply_filter d (k, v) = Ok (select_rows_opt (filter_applies d (k, v)) d).
Proof. intros H. apply apply_filter_applies. auto. Qed.

Lemma select_rows_opt_has (name : string) (acc : option (list bool))
    (df : DataFrame) :
  has_column name (select_rows_opt acc df) = has_column name df.
Proof. destruct acc; [apply select_rows_has | reflexivity]. Qed.

Lemma filter_applies_selected (m : list bool) (base : DataFrame)
    (item : string * filter_value) :
  filter_applies (select_rows m base) item
  = option_map (select m) (filter_applies base item).
Proof.
  destruct item as [k v]. unfold filter_applies.
  destruct (special_key k); [reflexivity|].
  destruct (truthy v); [|reflexivity].
  rewrite select_rows_find.
  destruct (find_column k base) as [c|]; [|reflexivity].
  cbn [option_map col_values]. now rewrite select_map.
Qed.

Lemma filters_fold_columns (base : DataFrame)
    (filters : dict filter_value) :
  forall acc,
  (forall k v, In (k, v) filters -> special_key k = false ->
     truthy v = true -> has_column k base = true -> plain v = true) ->
  fold_left (fun r item => d <- r ;; apply_filter d item) filters
            (Ok (select_rows_opt acc base))
  = Ok (select_rows_opt (fold_left (mask_step base) filters acc) base).
Proof.
  induction filters as [|[k v] filters IH]; intros acc Hplain.
  - reflexivity.
  - cbn [fold_left bind].
    rewrite apply_filter_applies
      by (rewrite select_rows_opt_has; apply Hplain; now left).
    assert (Hstep :
      select_rows_opt
        (filter_applies (select_rows_opt acc base) (k, v))
        (select_rows_opt acc base)
      = select_rows_opt (mask_step base acc (k, v)) base).
    { unfold mask_step. destruct acc as [m0|]; cbn [select_rows_opt].
      - rewrite filter_applies_selected.
        destruct (filter_applies base (k, v)) as [m|];
          cbn [option_map select_rows_opt]; [|reflexivity].
        apply select_rows_select_rows.
      - now destruct (filter_applies base (k, v)). }
    rewrite Hstep. apply IH. intros k' v' Hin. apply Hplain. now right.
Qed.

Lemma filters_fold (base : DataFrame) (filters : dict filter_value) :
  forall acc,
  (forall k v, In (k, v) filters -> special_key k = false -> plain v = true) ->
  fold_left (fun r item => d <- r ;; apply_filter d item) filters
            (Ok (select_rows_opt acc base))
  = Ok (select_rows_opt (fold_left (mask_step base) filters acc) base).
Proof.
  intros acc H. apply filters_fold_columns. intros k v Hin Hk _ _.
  now apply (H k v).
Qed.

(** C2 (as the code has it).  Once the unification and activity blocks
    have produced [base], the view returned is [base] restricted to the
    rows that pass every filter that applies -- a filter applying when its
    key is no mapping key, names a column and its value is truthy:
    membership for a list, [==] otherwise.  A key that names no column
    selects nothing and raises nothing, whatever is filed under it (the
    pair of dates the filter component files under [date_range]
    included), and so does a falsy value (None, 0, False, the empty
    string, the empty list).  Of the filter set this asks one thing: a
    truthy value filed under the name of a column is a scalar or a
    list. *)
Theorem filters_apply_when_truthy (data base : DataFrame)
    (activity_type : option string) (filters : dict filter_value) :
  (forall k v, In (k, v) filters -> special_key k = false ->
     truthy v = true -> has_column k base = true -> plain v = true) ->
  (u <- unify_stage data (Some filters) ;; activity_stage u activity_type)
  = Ok base ->
  get_filtered_data data activity_type (Some filters)
  = Ok (select_rows_opt (combined_mask base filters) base).
Proof.
  intros Hplain Hbase. unfold get_filtered_data.
  destruct (unify_stage data (Some filters)) as [u|e]; [|discriminate].
  cbn [bind] in *. rewrite Hbase. cbn [bind filters_stage].
  apply (filters_fold_columns base filters None Hplain).
Qed.

(** [filters_apply_when_truthy] on [sample_visits], with a filter set as
    the filter component builds it: one list filter, one scalar filter,
    one key that names no column, one falsy value, and the pair of dates
    under [date_range]. *)
Lemma filters_apply_when_truthy_sample :
  get_filtered_data sample_visits None
    (Some [("year", FList [Num 2024]); ("nombre_prov", FStr "CUSCO");
           ("distrito", FStr "X"); ("viv_positiva", FNum 0);
           ("date_range", FDateRange 19675 19700)])
  = Ok (mkDataFrame [2; 3]%nat
          [ mkColumn "viv_positiva" DNumber [Num 0; Num 1];
            mkColumn "sector" DObject [Str "SAN JUAN"; Str ""];
            mkColumn "nombre_prov" DObject [Str "CUSCO"; Str "CUSCO"];
            mkColumn "year" DNumber [Num 2024; Num 2024] ]).
Proof.
  refine (eq_trans
            (filters_apply_when_truthy sample_visits sample_visits None
               [("year", FList [Num 2024]); ("nombre_prov", FStr "CUSCO");
                ("distrito", FStr "X"); ("viv_positiva", FNum 0);
                ("date_range", FDateRange 19675 19700)] _ _) _).
  - intros k v H _ _ Hcol. simpl in H.
    repeat (destruct H as [H | H];
            [inversion H; subst; first [reflexivity | discriminate Hcol]|]).
    destruct H.
  - reflexivity.
  - vm_compute. reflexivity.
Defined.

(** C2 (as stated) fails on [sample_visits]: filtering on the value 0,
    on the empty string or on the empty list returns every row, not the
    rows whose value equals it or belongs to it. *)
Lemma falsy_filters_are_skipped :
  get_filtered_data sample_visits None (Some [("viv_positiva", FNum 0)])
  = Ok sample_visits
  /\ nrows (select_rows (map (cell_matches (FNum 0))
                            [Num 0; Num 1; Num 0; Num 1])
                       sample_visits) = 2%nat
  /\ get_filtered_data sample_visits None (Some [("sector", FStr "")])
     = Ok sample_visits
  /\ nrows (select_rows (map (cell_matches (FStr ""))
                            [Str "SAN JUAN"; Str "SAN JUA"; Str "SAN JUAN";
                             Str ""])
                       sample_visits) = 1%nat
  /\ get_filtered_data sample_visits None (Some [("year", FList [])])
     = Ok sample_visits
  /\ nrows (select_rows (map (cell_matches (FList []))
                            [Num 2023; Num 2024; Num 2024; Num 2024])
                       sample_visits) = 0%nat.
Proof. vm_compute. repeat split; reflexivity. Qed.

(** *** One more filter *)

Lemma dict_set_fresh {V : Type} (k : string) (v : V) (d : dict V) :
  dict_has k d = false -> dict_set k v d = d ++ [(k, v)].
Proof.
  unfold dict_has, mem_string.
  induction d as [|[k' v'] d IH]; simpl; [reflexivity|].
  intros H. apply orb_false_elim in H as [H1 H2].
  rewrite String.eqb_sym, H1. now rewrite IH.
Qed.

Lemma dict_get_app_other {V : Type} (k k' : string) (v : V) (d : dict V) :
  k' <> k -> dict_get k' (d ++ [(k, v)]) = dict_get k' d.
Proof.
  intros Hne. unfold dict_get. f_equal.
  induction d as [|[k0 v0] d IH]; simpl.
  - apply not_eq_sym in Hne. apply String.eqb_neq in Hne. now rewrite Hne.
  - destruct (String.eqb k0 k'); [reflexivity | exact IH].
Qed.

Lemma dict_has_app_other {V : Type} (k k' : string) (v : V) (d : dict V) :
  k' <> k -> dict_has k' (d ++ [(k, v)]) = dict_has k' d.
Proof.
  intros Hne. unfold dict_has, mem_string.
  rewrite map_app, existsb_app. simpl.
  apply String.eqb_neq in Hne. rewrite Hne. now rewrite !orb_false_r.
Qed.

Lemma unify_stage_app (data : DataFrame) (k : string) (v : filter_value)
    (filters : dict filter_value) :
  special_key k = false ->
  unify_stage data (Some (filters ++ [(k, v)]))
  = unify_stage data (Some filters).
Proof.
  intros Hk. apply mem_string_false in Hk.
  assert (H1 : BY_PROVINCE <> k) by (intros <-; apply Hk; simpl; auto).
  assert (H2 : FLAT_MAPPING <> k) by (intros <-; apply Hk; simpl; auto).
  unfold unify_stage.
  now rewrite !dict_has_app_other, !dict_get_app_other by assumption.
Qed.

Lemma apply_filter_shrinks (d : DataFrame) (k : string) (v : filter_value) :
  special_key k = false -> plain v = true ->
  exists d', apply_filter d (k, v) = Ok d' /\ (nrows d' <= nrows d)%nat.
Proof.
  intros Hk Hv. rewrite apply_filter_spec by auto.
  eexists. split; [reflexivity|].
  destruct (filter_applies d (k, v)); cbn [select_rows_opt];
    [apply select_rows_nrows | lia].
Qed.

(** C8.  Adding a filter on a key the set does not hold yet (an equality
    or membership filter, not a mapping) never adds rows: when the call
    with [filters] returns a view, the call with the larger set returns a
    view too, with at most as many rows. *)
Theorem filter_monotone (data view : DataFrame)
    (activity_type : option string) (filters : dict filter_value)
    (k : string) (v : filter_value) :
  dict_has k filters = false ->
  special_key k = false ->
  plain v = true ->
  get_filtered_data data activity_type (Some filters) = Ok view ->
  exists view',
    get_filtered_data data activity_type (Some (dict_set k v filters))
    = Ok view'
    /\ (nrows view' <= nrows view)%nat.
Proof.
  intros Hfresh Hk Hv Hview.
  destruct (apply_filter_shrinks view k v Hk Hv) as [view' [Hstep Hle]].
  exists view'. split; [|exact Hle].
  rewrite (dict_set_fresh k v filters Hfresh).
  pose proof (unify_stage_app data k v filters Hk) as Hu.
  unfold get_filtered_data, dict in *. rewrite Hu.
  destruct (unify_stage data (Some filters)) as [u|e]; [|discriminate].
  cbn [bind] in *.
  destruct (activity_stage u activity_type) as [a|e]; [|discriminate].
  cbn [bind filters_stage] in *.
  rewrite fold_left_app. cbn [fold_left]. rewrite Hview. exact Hstep.
Qed.

(** [filter_monotone] on [sample_visits]: a province filter added to a
    year filter. *)
Lemma filter_monotone_sample :
  exists view',
    get_filtered_data sample_visits None
      (Some (dict_set "nombre_prov" (FStr "LIMA")
                      [("year", FNum 2024)]))
    = Ok view'
    /\ (nrows view' <= 3)%nat.
Proof.
  exact (filter_monotone sample_visits
           (select_rows [false; true; true; true] sample_visits)
           None [("year", FNum 2024)] "nombre_prov" (FStr "LIMA")
           eq_refl eq_refl eq_refl eq_refl).
Defined.

(** *** The activity filter on a frame without the activity column *)

Lemma activity_stage_missing_column (d : DataFrame) (a : string) :
  a <> "" -> has_column "tipoActividadInspeccion" d = false ->
  activity_stage d (Some a) = Raise (KeyError "tipoActividadInspeccion").
Proof.
  intros Ha Hc. unfold activity_stage.
  apply String.eqb_neq in Ha. rewrite Ha.
  unfold get_column. now rewrite (has_column_none _ _ Hc).
Qed.

Lemma get_filtered_data_missing_activity_column (data : DataFrame)
    (a : string) :
  a <> "" -> has_column "tipoActividadInspeccion" data = false ->
  get_filtered_data data (Some a) None
  = Raise (KeyError "tipoActividadInspeccion").
Proof.
  intros Ha Hc. unfold get_filtered_data.
  change (unify_stage data None) with (Ok data). cbn [bind].
  now rewrite activity_stage_missing_column.
Qed.

(** C3: what the code does.  On [sample_visits], which has no
    [tipoActividadInspeccion] column, a call with the activity type
    "cerco" raises [KeyError]; no view is returned. *)
Theorem activity_filter_raises_on_missing_column :
  get_filtered_data sample_visits (Some "cerco") None
  = Raise (KeyError "tipoActividadInspeccion")
  /\ get_filtered_data sample_visits (Some "cerco")
       (Some [("year", FNum 2024)])
     = Raise (KeyError "tipoActividadInspeccion").
Proof. split; reflexivity. Qed.

(** ** Unification by province *)

(** *** Writing back under a mask *)

Lemma scatter_select {A : Type} (mask : list bool) (xs : list A) :
  scatter mask xs (select mask xs) = xs.
Proof.
  revert xs. induction mask as [|m mask IH]; intros [|x xs]; simpl;
    try reflexivity.
  destruct m; simpl; now rewrite IH.
Qed.

Lemma scatter_outside {A : Type} (mask : list bool) (old new : list A)
    (i : nat) :
  nth_error mask i <> Some true ->
  nth_error (scatter mask old new) i = nth_error old i.
Proof.
  revert old new i. induction mask as [|m mask IH]; intros old new i H.
  - reflexivity.
  - destruct old as [|x old]; [reflexivity|].
    destruct i as [|i]; simpl in *.
    + destruct m; [congruence|reflexivity].
    + destruct m; [destruct new|]; simpl; now apply IH.
Qed.

Lemma find_column_unique (idx : list nat) (cols : list column) (c : column) :
  NoDup (map col_name cols) -> In c cols ->
  find_column (col_name c) (mkDataFrame idx cols) = Some c.
Proof.
  unfold find_column. cbn [df_columns].
  induction cols as [|c0 cols IH]; intros Hnd Hin; [destruct Hin|].
  simpl in *. inversion Hnd as [|? ? Hnotin Hnd']; subst.
  destruct Hin as [-> | Hin].
  - now rewrite String.eqb_refl.
  - destruct (String.eqb (col_name c0) (col_name c)) eqn:E.
    + apply String.eqb_eq in E. exfalso. apply Hnotin. rewrite E.
      now apply in_map.
    + now apply IH.
Qed.

Lemma Forall2_map_in {A B : Type} (R : A -> B -> Prop) (f : A -> B)
    (l : list A) :
  (forall x, In x l -> R x (f x)) -> Forall2 R l (map f l).
Proof.
  induction l as [|x l IH]; intros H; simpl; constructor.
  - apply H. now left.
  - apply IH. intros y Hy. apply H. now right.
Qed.

(** *** One province, then all of them *)

Lemma column_framed_refl (ps : list string) (pv : list cell) (c : column) :
  column_framed ps pv c c.
Proof. repeat split; auto. Qed.

Lemma framed_refl (ps : list string) (pv : list cell) (d : DataFrame) :
  framed ps pv d d.
Proof.
  split; [reflexivity|]. rewrite <- (map_id (df_columns d)) at 2.
  apply Forall2_map_in. intros c _. apply column_framed_refl.
Qed.

Lemma row_outside_app (ps ps' : list string) (pv : list cell) (i : nat) :
  row_outside (ps ++ ps') pv i ->
  row_outside ps pv i /\ row_outside ps' pv i.
Proof.
  unfold row_outside. destruct (nth_error pv i); [|auto].
  intros H. split; intros p Hp; apply H; apply in_app_iff; auto.
Qed.

Lemma framed_trans (ps ps' : list string) (pv : list cell)
    (d d' d'' : DataFrame) :
  framed ps pv d d' -> framed ps' pv d' d'' -> framed (ps ++ ps') pv d d''.
Proof.
  intros [Hi H] [Hi' H']. split; [congruence|].
  revert H'. generalize (df_columns d''). clear Hi Hi'.
  induction H as [|c c' l l' Hc H IH]; intros l'' H';
    inversion H' as [|? c'' ? l3 Hc' H'']; subst; constructor.
  - destruct Hc as [Hn [Ht [Hs Hr]]], Hc' as [Hn' [Ht' [Hs' Hr']]].
    repeat split.
    + congruence.
    + congruence.
    + intros Hne. rewrite Hs' by congruence. now apply Hs.
    + intros i Hi. apply row_outside_app in Hi as [Ho Ho'].
      rewrite Hr' by assumption. now apply Hr.
  - now apply IH.
Qed.

Lemma framed_names (ps : list string) (pv : list cell) (d d' : DataFrame) :
  framed ps pv d d' ->
  map col_name (df_columns d') = map col_name (df_columns d).
Proof.
  intros [_ H]. induction H as [|c c' l l' [Hn _] _ IH]; simpl;
    [reflexivity | now rewrite Hn, IH].
Qed.

Lemma framed_find (ps : list string) (pv : list cell) (d d' : DataFrame)
    (name : string) :
  framed ps pv d d' -> name <> "sector" ->
  find_column name d' = find_column name d.
Proof.
  intros [_ H] Hne. unfold find_column.
  induction H as [|c c' l l' [Hn [_ [Hs _]]] _ IH]; simpl; [reflexivity|].
  rewrite Hn. destruct (String.eqb (col_name c) name) eqn:E.
  - apply String.eqb_eq in E. f_equal. apply Hs. congruence.
  - exact IH.
Qed.

(** The frame [apply_unification] returns on the selected rows. *)
Lemma apply_unification_columns (d : DataFrame) (m : dict string) :
  exists g,
    apply_unification d "sector" m
    = mkDataFrame (df_index d) (map g (df_columns d))
    /\ (forall c, col_name (g c) = col_name c)
    /\ (forall c, col_name c <> "sector" -> g c = c).
Proof.
  unfold apply_unification. destruct m as [|kv m].
  - exists (fun c => c). rewrite map_id. repeat split; auto. now destruct d.
  - destruct (has_column "sector" d).
    + eexists. split; [reflexivity|]. split; intros c.
      * now destruct (String.eqb (col_name c) "sector").
      * intros Hne. apply String.eqb_neq in Hne. now rewrite Hne.
    + exists (fun c => c). rewrite map_id. repeat split; auto. now destruct d.
Qed.

Lemma loc_assign_ok (mask : list bool) (df sub d' : DataFrame)
    (retyped : list string) :
  loc_assign mask df sub retyped = Ok d' -> d' = loc_write mask df sub.
Proof.
  unfold loc_assign. destruct (existsb _ (df_columns df));
    [discriminate | now intros [= <-]].
Qed.

Lemma retyped_by_unification_sector (cats : list cell) (m : dict string)
    (name : string) :
  mem_string name (retyped_by_unification cats m) = true ->
  name = "sector".
Proof.
  unfold retyped_by_unification. destruct m; [discriminate|].
  destruct (same_categories _ _); [discriminate|].
  cbn [mem_string existsb]. rewrite orb_false_r. apply String.eqb_eq.
Qed.

Lemma loc_assign_not_encoded (mask : list bool) (df sub : DataFrame)
    (cats : list cell) (m : dict string) :
  category_encoded "sector" df = false ->
  loc_assign mask df sub (retyped_by_unification cats m)
  = Ok (loc_write mask df sub).
Proof.
  intros H. unfold loc_assign.
  destruct (existsb _ (df_columns df)) eqn:E; [|reflexivity].
  apply existsb_exists in E as [c [Hc E]].
  apply andb_true_iff in E as [Hcat Hname].
  apply retyped_by_unification_sector in Hname.
  assert (Henc : category_encoded "sector" df = true).
  { apply existsb_exists. exists c. split; [exact Hc|].
    rewrite Hcat, Hname. reflexivity. }
  congruence.
Qed.

Lemma loc_write_framed (d : DataFrame) (prov : column) (p : string)
    (m : dict string) :
  unique_labels d ->
  let mask := map (fun c => cell_eqb c (Str p)) (col_values prov) in
  framed [p] (col_values prov) d
    (loc_write mask d (apply_unification (select_rows mask d) "sector" m)).
Proof.
  intros Hnd mask.
  destruct (apply_unification_columns (select_rows mask d) m)
    as [g [Hsub [Hgname Hgother]]].
  rewrite Hsub. unfold loc_write. split; [reflexivity|].
  cbn [df_columns]. apply Forall2_map_in. intros c Hc.
  unfold select_rows. cbn [df_index df_columns]. rewrite map_map.
  rewrite (find_column_map (col_name c) _ _ (df_index d))
    by (intros c0; now rewrite Hgname).
  replace (mkDataFrame (df_index d) (df_columns d)) with d
    by (now destruct d).
  rewrite <- (frame_eta d), (find_column_unique _ _ c Hnd Hc).
  cbn [option_map]. repeat split.
  - intros Hne.
    rewrite Hgother by exact Hne. cbn [col_values].
    rewrite scatter_select. apply column_eta.
  - intros i Hi. cbn [col_values]. apply scatter_outside.
    unfold row_outside in Hi. unfold mask. rewrite nth_error_map.
    destruct (nth_error (col_values prov) i) as [pc|]; [|discriminate].
    cbn [option_map]. rewrite (Hi p) by now left. discriminate.
Qed.

(** What one turn of the loop returns, when it returns. *)
Lemma unify_province_framed (cats : list cell) (d d' : DataFrame)
    (prov : column) (p : string) (m : dict string) :
  unique_labels d ->
  find_column "nombre_prov" d = Some prov ->
  unify_province cats d (p, m) = Ok d' ->
  framed [p] (col_values prov) d d'.
Proof.
  intros Hnd Hprov. unfold unify_province, get_column. rewrite Hprov.
  cbn [bind].
  destruct (existsb (fun b => b) _);
    [|intros [= <-]; apply framed_refl].
  intros H. apply loc_assign_ok in H. subst d'.
  now apply loc_write_framed.
Qed.

(** One turn of the loop returns when the sector column is not
    category-encoded. *)
Lemma unify_province_returns (cats : list cell) (d : DataFrame)
    (prov : column) (p : string) (m : dict string) :
  find_column "nombre_prov" d = Some prov ->
  category_encoded "sector" d = false ->
  exists d', unify_province cats d (p, m) = Ok d'.
Proof.
  intros Hprov Hplain. unfold unify_province, get_column. rewrite Hprov.
  cbn [bind].
  destruct (existsb (fun b => b) _); [|now exists d].
  rewrite loc_assign_not_encoded by exact Hplain. eauto.
Qed.

Lemma framed_category_encoded (ps : list string) (pv : list cell)
    (d d' : DataFrame) (name : string) :
  framed ps pv d d' ->
  category_encoded name d' = category_encoded name d.
Proof.
  intros [_ H]. unfold category_encoded.
  induction H as [|c c' l l' [Hn [Ht _]] _ IH]; [reflexivity|].
  cbn [existsb]. rewrite IH. unfold is_category. now rewrite Hn, Ht.
Qed.

Lemma fold_unify_province_framed (cats : list cell)
    (m : dict (dict string)) :
  forall (d d' : DataFrame) (prov : column),
  unique_labels d ->
  find_column "nombre_prov" d = Some prov ->
  fold_left (fun r item => x <- r ;; unify_province cats x item) m (Ok d)
  = Ok d' ->
  framed (map fst m) (col_values prov) d d'.
Proof.
  induction m as [|[p mp] m IH]; intros d d' prov Hnd Hprov;
    cbn [fold_left bind].
  - intros [= <-]. apply framed_refl.
  - destruct (unify_province cats d (p, mp)) as [d1|e] eqn:H1.
    + intros H2.
      pose proof (unify_province_framed cats d d1 prov p mp Hnd Hprov H1)
        as F1.
      apply (framed_trans [p] (map fst m) _ d d1 d' F1).
      apply IH; [| |exact H2].
      * unfold unique_labels. now rewrite (framed_names _ _ _ _ F1).
      * rewrite (framed_find _ _ _ _ _ F1) by discriminate. exact Hprov.
    + intros H. exfalso. clear -H.
      induction m as [|i m IHm]; cbn [fold_left bind] in H;
        [discriminate | auto].
Qed.

Lemma fold_unify_province_returns (cats : list cell)
    (m : dict (dict string)) :
  forall (d : DataFrame) (prov : column),
  unique_labels d ->
  find_column "nombre_prov" d = Some prov ->
  category_encoded "sector" d = false ->
  exists d',
    fold_left (fun r item => x <- r ;; unify_province cats x item) m (Ok d)
    = Ok d'.
Proof.
  induction m as [|[p mp] m IH]; intros d prov Hnd Hprov Hplain;
    cbn [fold_left bind].
  - now exists d.
  - destruct (unify_province_returns cats d prov p mp Hprov Hplain)
      as [d1 H1].
    rewrite H1.
    pose proof (unify_province_framed cats d d1 prov p mp Hnd Hprov H1)
      as F1.
    apply (IH d1 prov).
    + unfold unique_labels. now rewrite (framed_names _ _ _ _ F1).
    + rewrite (framed_find _ _ _ _ _ F1) by discriminate. exact Hprov.
    + now rewrite (framed_category_encoded _ _ _ _ _ F1).
Qed.

Lemma unify_by_province_framed (m : dict (dict string))
    (d d' : DataFrame) (prov : column) :
  unique_labels d ->
  find_column "nombre_prov" d = Some prov ->
  unify_by_province d m = Ok d' ->
  framed (map fst m) (col_values prov) d d'.
Proof. unfold unify_by_province. apply fold_unify_province_framed. Qed.

Lemma unify_by_province_returns (m : dict (dict string))
    (d : DataFrame) (prov : column) :
  unique_labels d ->
  find_column "nombre_prov" d = Some prov ->
  category_encoded "sector" d = false ->
  exists d', unify_by_province d m = Ok d'.
Proof. unfold unify_by_province. apply fold_unify_province_returns. Qed.

Lemma by_province_call (data : DataFrame) (m : dict (dict string)) :
  get_filtered_data data None (Some [(BY_PROVINCE, FByProvince m)])
  = if has_column "sector" data && has_column "nombre_prov" data
    then unify_by_province data m
    else Ok data.
Proof.
  unfold get_filtered_data, unify_stage.
  change (dict_has BY_PROVINCE [(BY_PROVINCE, FByProvince m)]) with true.
  change (dict_get BY_PROVINCE [(BY_PROVINCE, FByProvince m)])
    with (Some (FByProvince m)).
  change (dict_has FLAT_MAPPING [(BY_PROVINCE, FByProvince m)]) with false.
  cbn [andb].
  destruct (has_column "sector" data && has_column "nombre_prov" data);
    [|reflexivity].
  destruct (unify_by_province data m) as [u|e]; [|reflexivity].
  cbn [bind activity_stage filters_stage fold_left]. 
  unfold apply_filter.
  change (mem_string BY_PROVINCE [FLAT_MAPPING; BY_PROVINCE]) with true.
  reflexivity.
Qed.

(** C4.  On a frame with unique column labels, a view that the call
    carrying a by-province mapping returns has the index, the labels and
    the dtypes of the data; every column other than [sector] is the
    column of the data, and the [sector] cell of every row whose province
    is none of the provinces the mapping names is the cell of the data.
    The call returns such a view whenever the sector column is not
    category-encoded. *)
Theorem unification_scoped (data : DataFrame) (m : dict (dict string)) :
  unique_labels data ->
  (forall view,
     get_filtered_data data None (Some [(BY_PROVINCE, FByProvince m)])
     = Ok view ->
     framed (map fst m) (province_values data) data view)
  /\ (category_encoded "sector" data = false ->
      exists view,
        get_filtered_data data None (Some [(BY_PROVINCE, FByProvince m)])
        = Ok view).
Proof.
  intros Hnd. rewrite by_province_call.
  destruct (has_column "sector" data); cbn [andb];
    [|split; [intros view [= <-]; apply framed_refl | now exists data]].
  destruct (has_column "nombre_prov" data) eqn:Hp;
    [|split; [intros view [= <-]; apply framed_refl | now exists data]].
  apply has_column_find in Hp as [prov Hprov].
  unfold province_values. rewrite Hprov. split.
  - intros view. now apply unify_by_province_framed.
  - intros Hplain. now apply (unify_by_province_returns m data prov).
Qed.

Lemma sample_visits_unique_labels : unique_labels sample_visits.
Proof.
  unfold unique_labels. simpl.
  repeat (constructor; [simpl; intuition discriminate|]). constructor.
Qed.

(** [unification_scoped] on [sample_visits], with a mapping for LIMA:
    the call returns, and what it returns differs from the data in the
    sectors of LIMA only. *)
Lemma unification_scoped_sample :
  exists view,
    get_filtered_data sample_visits None
      (Some [(BY_PROVINCE,
              FByProvince [("LIMA", [("SAN JUA", "SAN JUAN")])])])
    = Ok view
    /\ framed ["LIMA"] (province_values sample_visits) sample_visits view.
Proof.
  destruct (unification_scoped sample_visits
              [("LIMA", [("SAN JUA", "SAN JUAN")])]
              sample_visits_unique_labels) as [Hframed Hreturns].
  destruct (Hreturns eq_refl) as [view Hview].
  exists view. split; [exact Hview | exact (Hframed view Hview)].
Defined.

(** In production mode the sector column is category-encoded, and a
    mapping that renames one of its categories makes the write-back
    raise: no view is returned. *)
Example unification_raises_on_encoded_sector :
  get_filtered_data sample_encoded None
    (Some [(BY_PROVINCE, FByProvince [("LIMA", [("SAN JUA", "SAN JUAN")])])])
  = Raise (TypeError
      "Cannot set a Categorical with another, without identical categories")
  /\ get_filtered_data sample_encoded None
       (Some [(BY_PROVINCE, FByProvince [("LIMA", [("CENTRO", "CENTRAL")])])])
     = Ok sample_encoded.
Proof. split; reflexivity. Qed.

(** ** Unique values *)

Lemma get_unique_values_missing_column {pandas : Pandas}
    (data : DataFrame) (column_name : string) (sorted_order : bool) :
  has_column column_name data = false ->
  get_unique_values data column_name sorted_order = [].
Proof.
  intros H. unfold get_unique_values. now rewrite (has_column_none _ _ H).
Qed.

(** A key that is [float('inf')] goes after everything. *)
Lemma insert_by_inf {A : Type} (x : A) (l : list (option Q * A)) :
  insert_by float_lt (None, x) l = l ++ [(None, x)].
Proof.
  induction l as [|y l IH]; simpl; [reflexivity | now rewrite IH].
Qed.

Lemma sorted_by_inf {A : Type} (key : A -> option Q) (xs : list A) :
  Forall (fun x => key x = None) xs ->
  sorted_by float_lt key xs = xs.
Proof.
  intros H. unfold sorted_by.
  assert (Hfold : forall acc,
    fold_left (fun acc x => insert_by float_lt (key x, x) acc) xs acc
    = acc ++ map (fun x => (None, x)) xs).
  { induction H as [|x xs Hx H IH]; intros acc; simpl.
    - now rewrite app_nil_r.
    - rewrite IH, Hx, insert_by_inf, <- app_assoc. reflexivity. }
  rewrite Hfold. simpl. rewrite map_map. apply map_id.
Qed.

(** Values whose [str] is not made of digits and dots come back in the
    order they were given, whatever that order. *)
Lemma sorted_numeric_first_text {pandas : Pandas} (xs : list cell) :
  Forall (fun x => digits_without_dots (py_str x) = false) xs ->
  sorted_numeric_first xs = xs.
Proof.
  intros H. unfold sorted_numeric_first.
  assert (Hkeys : numeric_keys xs = Ok (map (fun _ => None) xs)).
  { induction H as [|x xs Hx H IH]; simpl; [reflexivity|].
    unfold numeric_key. now rewrite Hx, IH. }
  rewrite Hkeys. rewrite sorted_by_inf.
  - clear. induction xs as [|x xs IH]; simpl; [reflexivity | now rewrite IH].
  - clear. induction xs as [|x xs IH]; simpl; constructor; auto.
Qed.

(** C10: what the code does.  A column that is absent gives the empty
    list, and the distinct non-null values of a present column come back;
    but with [sorted_order] the values of a text column keep their order
    of first appearance: every key is [float('inf')], nothing is raised,
    and the sort by [str] is never reached. *)
Theorem unique_text_values_keep_first_appearance :
  get_unique_values sample_districts "provincia" true = []
  /\ get_unique_values sample_districts "distrito" false
     = [Str "PIURA"; Str "CASTILLA"]
  /\ get_unique_values sample_districts "distrito" true
     = [Str "PIURA"; Str "CASTILLA"]
  /\ sorted_by String.ltb py_str [Str "PIURA"; Str "CASTILLA"]
     = [Str "CASTILLA"; Str "PIURA"].
Proof. vm_compute. repeat split; reflexivity. Qed.

(** ** Cerco effectiveness *)

(** *** Counting selected rows *)

Lemma select_count {A : Type} (mask : list bool) (xs : list A) :
  List.length mask = List.length xs ->
  List.length (select mask xs) = count_true mask.
Proof.
  unfold count_true. revert xs.
  induction mask as [|m mask IH]; intros [|x xs] H; simpl in *;
    try discriminate; [reflexivity|].
  destruct m; simpl; rewrite IH by lia; reflexivity.
Qed.

Lemma and_mask_map {A B : Type} (f : A -> bool) (g : B -> bool)
    (xs : list A) (ys : list B) :
  and_mask (map f xs) (map g ys)
  = map (fun r => f (fst r) && g (snd r)) (combine xs ys).
Proof.
  revert ys. induction xs as [|x xs IH]; intros [|y ys]; simpl;
    try reflexivity.
  now rewrite IH.
Qed.

Lemma count_true_map {A : Type} (p : A -> bool) (l : list A) :
  count_true (map p l) = List.length (filter p l).
Proof.
  unfold count_true. induction l as [|x l IH]; simpl; [reflexivity|].
  destruct (p x); simpl; now rewrite IH.
Qed.

Lemma select_combine {A B : Type} (mask : list bool)
    (xs : list A) (ys : list B) :
  combine (select mask xs) (select mask ys) = select mask (combine xs ys).
Proof.
  revert xs ys. induction mask as [|m mask IH]; intros [|x xs] [|y ys];
    simpl; try reflexivity.
  - destruct m; simpl; [reflexivity | apply combine_nil].
  - destruct m; simpl; now rewrite IH.
Qed.

Lemma and_mask_length (m1 m2 : list bool) :
  List.length m1 = List.length m2 ->
  List.length (and_mask m1 m2) = List.length m1.
Proof.
  revert m2. induction m1 as [|b m1 IH]; intros [|b2 m2] H; simpl in *;
    try discriminate; [reflexivity|].
  now rewrite IH by lia.
Qed.

Lemma for_each_ok {A B : Type} (f : A -> result B) (P : A -> B -> Prop)
    (xs : list A) :
  (forall x, In x xs -> exists y, f x = Ok y /\ P x y) ->
  exists ys, for_each f xs = Ok ys /\ Forall2 P xs ys.
Proof.
  induction xs as [|x xs IH]; intros H.
  - exists []. split; [reflexivity | constructor].
  - destruct (H x (or_introl eq_refl)) as [y [Hy Py]].
    destruct IH as [ys [Hys Pys]]; [intros z Hz; apply H; now right|].
    exists (y :: ys). simpl. rewrite Hy, Hys. split; [reflexivity|].
    now constructor.
Qed.

Lemma select_length_same {A B : Type} (mask : list bool)
    (xs : list A) (ys : list B) :
  List.length xs = List.length ys ->
  List.length (select mask xs) = List.length (select mask ys).
Proof.
  revert xs ys. induction mask as [|m mask IH]; intros [|x xs] [|y ys] H;
    simpl in *; try discriminate; try reflexivity.
  destruct m; simpl; rewrite (IH xs ys) by lia; reflexivity.
Qed.

Lemma rectangular_length (data : DataFrame) (name : string) (c : column) :
  rectangular data -> find_column name data = Some c ->
  List.length (col_values c) = nrows data.
Proof.
  intros Hrect Hfind. apply find_column_name in Hfind as [_ Hin].
  unfold rectangular in Hrect. rewrite Forall_forall in Hrect. now apply Hrect.
Qed.

Lemma get_column_selected (name : string) (mask : list bool)
    (data : DataFrame) (c : column) :
  find_column name data = Some c ->
  get_column name (select_rows mask data)
  = Ok (mkColumn (col_name c) (col_dtype c) (select mask (col_values c))).
Proof.
  intros H. unfold get_column. now rewrite select_rows_find, H.
Qed.

Lemma py_truediv_ok (a b : Z) :
  b <> 0%Z -> py_truediv a b = Ok (inject_Z a / inject_Z b).
Proof.
  intros H. unfold py_truediv. apply Z.eqb_neq in H. now rewrite H.
Qed.

(** The values the code lists as attended are the four codes 1 to 4. *)
Lemma isin_attended (v : cell) :
  isin attended v = indicator_in [1; 2; 3; 4]%Z v.
Proof. destruct v; reflexivity. Qed.

Lemma filter_length_ext {A : Type} (p q : A -> bool) (l : list A) :
  (forall x, p x = q x) ->
  List.length (filter p l) = List.length (filter q l).
Proof. intros H. now rewrite (filter_ext _ _ H). Qed.

(** The two counts the code takes with masks are the counts of rows. *)
Lemma masked_total (data : DataFrame) (eess att : column) (f : cell) :
  List.length (col_values eess) = nrows data ->
  List.length (col_values att) = nrows data ->
  let mask := map (fun c => cell_eqb c f) (col_values eess) in
  py_len (select_rows (map (isin attended) (select mask (col_values att)))
                      (select_rows mask data))
  = facility_total [1; 2; 3; 4]%Z (col_values eess) (col_values att) f.
Proof.
  intros He Ha mask. subst mask.
  unfold py_len, nrows, facility_total, count_rows.
  f_equal. unfold select_rows at 1. cbn [df_index].
  unfold select_rows. cbn [df_index].
  rewrite <- select_map, select_select, and_mask_map.
  rewrite select_count, count_true_map;
    [apply filter_length_ext; intros r;
     now rewrite isin_attended|].
  rewrite length_map, length_combine. unfold nrows in *. lia.
Qed.

Lemma masked_positive (data : DataFrame) (eess pos att : column) (f : cell) :
  List.length (col_values eess) = nrows data ->
  List.length (col_values pos) = nrows data ->
  List.length (col_values att) = nrows data ->
  let mask := map (fun c => cell_eqb c f) (col_values eess) in
  py_len (select_rows
            (map (fun pa => cell_eqb (fst pa) (Num 1)
                            && cell_eqb (snd pa) (Num 1))
                 (combine (select mask (col_values pos))
                          (select mask (col_values att))))
            (select_rows mask data))
  = facility_positive (col_values eess) (col_values pos) (col_values att) f.
Proof.
  intros He Hp Ha mask. subst mask.
  unfold py_len, nrows, facility_positive, count_rows.
  f_equal. unfold select_rows at 1. cbn [df_index].
  unfold select_rows. cbn [df_index].
  rewrite select_combine, <- select_map, select_select, and_mask_map.
  rewrite select_count, count_true_map; [reflexivity|].
  rewrite length_map, !length_combine. unfold nrows in *. lia.
Qed.

Lemma facility_effectiveness_spec (data : DataFrame)
    (eess cod att pos : column) (f : cell) :
  rectangular data ->
  find_column "localidad_eess" data = Some eess ->
  find_column "cod_renipress" data = Some cod ->
  find_column "atencion_vivienda_indicador" data = Some att ->
  find_column "viv_positiva" data = Some pos ->
  exists r,
    facility_effectiveness data f = Ok r
    /\ eff_localidad_eess r = f
    /\ total_houses r
       = facility_total [1; 2; 3; 4]%Z (col_values eess) (col_values att) f
    /\ positive_houses r
       = facility_positive (col_values eess) (col_values pos)
                           (col_values att) f
    /\ effectiveness_percentage r
       = effectiveness_of (total_houses r) (positive_houses r).
Proof.
  intros Hrect He Hc Ha Hp.
  pose proof (rectangular_length _ _ _ Hrect He) as Le.
  pose proof (rectangular_length _ _ _ Hrect Hc) as Lc.
  pose proof (rectangular_length _ _ _ Hrect Ha) as La.
  pose proof (rectangular_length _ _ _ Hrect Hp) as Lp.
  unfold facility_effectiveness.
  unfold get_column at 1. rewrite He. cbn [bind].
  set (mask := map (fun c => cell_eqb c f) (col_values eess)).
  rewrite (get_column_selected _ mask _ _ Hc).
  rewrite !(get_column_selected _ mask _ _ Ha).
  rewrite (get_column_selected _ mask _ _ Hp).
  cbn [bind col_values].
  assert (Hcode : exists code,
    (if (0 <? py_len (select_rows mask data))%Z
     then iloc0 (mkColumn (col_name cod) (col_dtype cod)
                          (select mask (col_values cod)))
     else Ok (Num 0)) = Ok code).
  { destruct (0 <? py_len (select_rows mask data))%Z eqn:Hlen;
      [|now exists (Num 0)].
    apply Z.ltb_lt in Hlen. unfold py_len, nrows, select_rows in Hlen.
    cbn [df_index] in Hlen. unfold iloc0. cbn [col_values].
    rewrite (select_length_same mask (df_index data) (col_values cod)) in Hlen
      by (unfold nrows in Lc; lia).
    destruct (select mask (col_values cod)) as [|v vs];
      [simpl in Hlen; lia | now exists v]. }
  destruct Hcode as [code ->]. cbn [bind].
  subst mask.
  rewrite (masked_total data eess att f Le La).
  rewrite (masked_positive data eess pos att f Le Lp La).
  set (t := facility_total [1; 2; 3; 4]%Z (col_values eess)
                           (col_values att) f).
  set (p := facility_positive (col_values eess) (col_values pos)
                              (col_values att) f).
  assert (Heff : exists e,
    (if (0 <? t)%Z
     then q <- py_truediv (t - p) t ;; Ok (q * 100)
     else Ok 0) = Ok e /\ e = effectiveness_of t p).
  { unfold effectiveness_of. destruct (0 <? t)%Z eqn:Ht.
    - apply Z.ltb_lt in Ht. rewrite py_truediv_ok by lia.
      eexists. split; reflexivity.
    - eexists. split; reflexivity. }
  destruct Heff as [e [-> Hev]]. cbn [bind].
  rewrite py_truediv_ok by lia. cbn [bind].
  eexists. split; [reflexivity|]. cbn. repeat split. exact Hev.
Qed.

(** C6.  An empty view gives an empty result.  On a view that is not
    empty and holds the four columns read, the result has one entry per
    distinct facility, in order of first appearance; the entry of a
    facility has for [total_houses] the number of its rows with attention
    indicator 1, 2, 3 or 4, for [positive_houses] the number of its rows
    with positivity flag 1 and attention indicator 1, and for
    [effectiveness_percentage] (total - positive) / total * 100, or 0
    when the total is 0; no division fails. *)
Theorem cerco_effectiveness_spec (data : DataFrame) :
  (df_empty data = true -> calculate_cerco_effectiveness data = Ok [])
  /\ (forall eess cod att pos,
        df_empty data = false ->
        rectangular data ->
        find_column "localidad_eess" data = Some eess ->
        find_column "cod_renipress" data = Some cod ->
        find_column "atencion_vivienda_indicador" data = Some att ->
        find_column "viv_positiva" data = Some pos ->
        exists rows,
          calculate_cerco_effectiveness data = Ok rows
          /\ map eff_localidad_eess rows = unique (col_values eess)
          /\ Forall
               (fun r =>
                  total_houses r
                  = facility_total [1; 2; 3; 4]%Z
                      (col_values eess) (col_values att)
                      (eff_localidad_eess r)
                  /\ positive_houses r
                     = facility_positive (col_values eess) (col_values pos)
                         (col_values att) (eff_localidad_eess r)
                  /\ effectiveness_percentage r
                     = effectiveness_of (total_houses r) (positive_houses r))
               rows).
Proof.
  split.
  - intros H. unfold calculate_cerco_effectiveness. now rewrite H.
  - intros eess cod att pos Hne Hrect He Hc Ha Hp.
    unfold calculate_cerco_effectiveness. rewrite Hne.
    unfold get_column. rewrite He. cbn [bind].
    destruct (for_each_ok (facility_effectiveness data)
                (fun f r =>
                   eff_localidad_eess r = f
                   /\ total_houses r
                      = facility_total [1; 2; 3; 4]%Z
                          (col_values eess) (col_values att) f
                   /\ positive_houses r
                      = facility_positive (col_values eess) (col_values pos)
                          (col_values att) f
                   /\ effectiveness_percentage r
                      = effectiveness_of (total_houses r) (positive_houses r))
                (unique (col_values eess)))
      as [rows [Hrows Hall]].
    { intros f _.
      apply (facility_effectiveness_spec data eess cod att pos f);
        assumption. }
    exists rows. split; [exact Hrows|].
    clear Hrows. induction Hall as [|f r fs rs [Hf [Ht [Hp' Hq]]] _ [IH1 IH2]].
    + split; [reflexivity | constructor].
    + split; [simpl; now rewrite Hf, IH1|].
      constructor; [|exact IH2]. rewrite Hf. auto.
Qed.

Lemma sample_cerco_rectangular : rectangular sample_cerco.
Proof. repeat constructor. Qed.

(** [cerco_effectiveness_spec] on [sample_cerco]. *)
Lemma cerco_effectiveness_sample :
  exists rows,
    calculate_cerco_effectiveness sample_cerco = Ok rows
    /\ map eff_localidad_eess rows = [Str "SAN PEDRO"; Str "LA UNION"; Null]
    /\ Forall
         (fun r =>
            total_houses r
            = facility_total [1; 2; 3; 4]%Z
                [Str "SAN PEDRO"; Str "SAN PEDRO"; Str "LA UNION";
                 Str "SAN PEDRO"; Null]
                [Num 1; Num 2; Num 1; Num 5; Num 1]
                (eff_localidad_eess r)
            /\ positive_houses r
               = facility_positive
                   [Str "SAN PEDRO"; Str "SAN PEDRO"; Str "LA UNION";
                    Str "SAN PEDRO"; Null]
                   [Num 1; Num 0; Num 0; Num 1; Num 1]
                   [Num 1; Num 2; Num 1; Num 5; Num 1]
                   (eff_localidad_eess r)
            /\ effectiveness_percentage r
               = effectiveness_of (total_houses r) (positive_houses r))
         rows.
Proof.
  exact (proj2 (cerco_effectiveness_spec sample_cerco) _ _ _ _
           eq_refl sample_cerco_rectangular eq_refl eq_refl eq_refl eq_refl).
Defined.

Example cerco_effectiveness_sample_values :
  option_map
    (map (fun r => (total_houses r, positive_houses r,
                    Qred (effectiveness_percentage r))))
    (match calculate_cerco_effectiveness sample_cerco with
     | Ok rows => Some rows
     | Raise _ => None
     end)
  = Some [(2%Z, 1%Z, 50%Q); (1%Z, 0%Z, 100%Q); (0%Z, 0%Z, 0%Q)].
Proof. vm_compute. reflexivity. Qed.

(** The indicators 3 and 4 count as attended, 0 and 5 do not. *)
Example cerco_effectiveness_attended_values :
  option_map
    (map (fun r => (total_houses r, positive_houses r)))
    (match calculate_cerco_effectiveness
             (mkDataFrame [0; 1; 2; 3; 4; 5]%nat
                [ mkColumn "localidad_eess" DObject
                    [Str "A"; Str "A"; Str "A"; Str "A"; Str "A"; Str "A"];
                  mkColumn "cod_renipress" DNumber
                    [Num 7; Num 7; Num 7; Num 7; Num 7; Num 7];
                  mkColumn "atencion_vivienda_indicador" DNumber
                    [Num 0; Num 1; Num 2; Num 3; Num 4; Num 5];
                  mkColumn "viv_positiva" DNumber
                    [Num 1; Num 1; Num 1; Num 1; Num 1; Num 1] ])
     with
     | Ok rows => Some rows
     | Raise _ => None
     end)
  = Some [(4%Z, 1%Z)].
Proof. vm_compute. reflexivity. Qed.

(** ** The render guard *)

Lemma Qlt_bool_true (a b : Q) : Qlt_bool a b = true <-> a < b.
Proof.
  unfold Qlt_bool. rewrite negb_true_iff. split.
  - intros H. apply Qnot_le_lt. intros Hle.
    apply Qle_bool_iff in Hle. congruence.
  - intros H. destruct (Qle_bool b a) eqn:E; [|reflexivity].
    apply Qle_bool_iff in E. exfalso. now apply (Qlt_not_le a b).
Qed.

Lemma Qlt_bool_false (a b : Q) : Qlt_bool a b = false <-> b <= a.
Proof.
  unfold Qlt_bool. rewrite negb_false_iff. apply Qle_bool_iff.
Qed.

(** The loop stops under the margin, or at the minimum row count. *)
Lemma shrink_stops (df : table) (max_memory_mb : Q) (safe_row_count : Z) :
  over_margin df max_memory_mb (shrink df max_memory_mb safe_row_count)
  = true ->
  (shrink df max_memory_mb safe_row_count <= min_rows)%Z.
Proof.
  funelim (shrink df max_memory_mb safe_row_count).
  - exact H.
  - intros Hover. pose proof e as e'. rewrite Hover in e'.
    cbn [andb] in e'. apply Z.ltb_ge in e'. exact e'.
Qed.

(** C7 (as the code has it).  The guard always returns.  A frame that
    exceeds a ceiling is cut: what is rendered of it is a head whose
    estimated size is at most 0.9 times the memory ceiling, or, when the
    head the loop stops at is still over that margin -- the loop then
    having stopped at 50 rows or fewer -- the structural summary alone.
    A frame within both ceilings is rendered in full: its size is at most
    the ceiling, not 0.9 times the ceiling. *)
Theorem safe_dataframe_bounded (df : table) (max_rows : Z)
    (max_memory_mb : Q) :
  match safe_dataframe df max_rows max_memory_mb with
  | NoData => t_rows df = 0%Z \/ t_columns df = 0%Z
  | Full => (t_rows df <= max_rows)%Z /\ total_mb df <= max_memory_mb
  | Head rows =>
      too_large df max_rows max_memory_mb
      /\ head_mb df rows <= max_memory_mb * (90 # 100)
  | SchemaOnly rows =>
      too_large df max_rows max_memory_mb
      /\ (rows <= min_rows)%Z
      /\ max_memory_mb * (90 # 100) < head_mb df rows
  end.
Proof.
  unfold safe_dataframe.
  destruct ((t_rows df =? 0)%Z || (t_columns df =? 0)%Z) eqn:Hempty.
  { apply orb_true_iff in Hempty as [H | H]; apply Z.eqb_eq in H; auto. }
  fold (total_mb df).
  destruct ((max_rows <? t_rows df)%Z || Qlt_bool max_memory_mb (total_mb df))
    eqn:Hlarge.
  - assert (Htoo : too_large df max_rows max_memory_mb).
    { apply orb_true_iff in Hlarge as [H | H].
      - left. now apply Z.ltb_lt.
      - right. now apply Qlt_bool_true. }
    match goal with
    | |- context [shrink df max_memory_mb ?s] =>
        set (n := shrink df max_memory_mb s);
        pose proof (shrink_stops df max_memory_mb s) as Hstop; fold n in Hstop
    end.
    destruct (over_margin df max_memory_mb n) eqn:Hover.
    + split; [exact Htoo|]. split; [now apply Hstop|].
      now apply Qlt_bool_true.
    + split; [exact Htoo|]. now apply Qlt_bool_false.
  - apply orb_false_iff in Hlarge as [H1 H2]. split.
    + now apply Z.ltb_ge.
    + now apply Qlt_bool_false.
Qed.

(** C7 (as stated) fails on [sample_48mb], ceilings 50000 rows and 50 MB:
    the frame is rendered in full, and its 48 MB are over 0.9 x 50 MB. *)
Lemma full_render_exceeds_margin :
  safe_dataframe sample_48mb 50000 50 = Full
  /\ Qlt_bool (50 * (90 # 100)) (total_mb sample_48mb) = true.
Proof. vm_compute. split; reflexivity. Qed.

(** The guard on a wide frame of about 200 MB with a 50 MB ceiling: the
    loop runs once, 18724 rows are shown. *)
Example safe_dataframe_sample_wide :
  safe_dataframe sample_wide 50000 50 = Head 18724.
Proof. vm_compute. reflexivity. Qed.

(** The guard on rows of 1 MB each: 50 rows are still over the margin,
    the summary is shown. *)
Example safe_dataframe_sample_fat_rows :
  safe_dataframe sample_fat_rows 50000 50 = SchemaOnly 50.
Proof. vm_compute. reflexivity. Qed.

(** ** Similar sectors *)

Section SimilarityFacts.
Context {difflib : Difflib} (self : SectorSimilarityDetector).

Lemma min_by_len_from_spec (rest : list string) :
  forall (before : list string) (best : string) (middle : list string),
  Forall (fun x => (String.length best < String.length x)%nat) before ->
  Forall (fun x => (String.length best <= String.length x)%nat) middle ->
  first_shortest (min_by_len_from best rest)
                 (before ++ best :: middle ++ rest).
Proof.
  induction rest as [|x rest IH]; intros before best middle Hb Hm.
  - exists before, middle. rewrite app_nil_r. auto.
  - cbn [min_by_len_from].
    destruct (String.length x <? String.length best)%nat eqn:E.
    + apply Nat.ltb_lt in E.
      replace (before ++ best :: middle ++ x :: rest)
        with ((before ++ best :: middle) ++ x :: [] ++ rest)
        by (now rewrite <- app_assoc).
      apply IH; [|constructor].
      apply Forall_app. split; [|constructor].
      * eapply Forall_impl; [|exact Hb]. cbv beta. intros; lia.
      * exact E.
      * eapply Forall_impl; [|exact Hm]. cbv beta. intros; lia.
    + apply Nat.ltb_ge in E.
      replace (before ++ best :: middle ++ x :: rest)
        with (before ++ best :: (middle ++ [x]) ++ rest)
        by (now rewrite <- app_assoc).
      apply IH; [exact Hb|].
      apply Forall_app. split; [exact Hm | now constructor].
Qed.

Lemma min_by_len_spec (group : list string) :
  (1 < List.length group)%nat -> first_shortest (min_by_len group) group.
Proof.
  destruct group as [|x rest]; simpl; [lia|]. intros _.
  apply (min_by_len_from_spec rest [] x []); constructor.
Qed.

Lemma dict_set_Forall {V : Type} (P : string * V -> Prop)
    (k : string) (v : V) (d : dict V) :
  P (k, v) -> Forall P d -> Forall P (dict_set k v d).
Proof.
  intros Hkv Hd. induction Hd as [|[k' v'] d Hx Hd IH]; simpl.
  - now constructor.
  - destruct (String.eqb k' k); constructor; assumption.
Qed.

Lemma similar_groups_loop_reported (sectors : list string) :
  forall processed groups,
  Forall reported_group groups ->
  Forall reported_group
    (similar_groups_loop self sectors processed groups).
Proof.
  induction sectors as [|sector1 rest IH]; intros processed groups Hg.
  - exact Hg.
  - cbn [similar_groups_loop].
    destruct (mem_string sector1 processed); [now apply IH|].
    destruct (fold_left (similar_step self sector1) rest
                ([sector1], sector1 :: processed)) as [group processed'].
    apply IH.
    destruct (1 <? List.length group)%nat eqn:E; [|exact Hg].
    apply Nat.ltb_lt in E. apply dict_set_Forall; [|exact Hg].
    split; cbn [fst snd]; [lia | now apply min_by_len_spec].
Qed.

(** C9 (as the code has it).  Every group [find_similar_sectors] reports
    has two members or more and is filed under the first of its shortest
    members.  Two labels, neither of them empty, with the same normalised
    form have similarity 1, which meets every threshold up to 1; the
    similarity of an empty label to anything is 0. *)
Theorem similar_sectors_reported (sectors_list : list string) :
  Forall reported_group (find_similar_sectors self sectors_list)
  /\ (forall s1 s2,
        s1 <> "" -> s2 <> "" ->
        normalize_sector_name s1 = normalize_sector_name s2 ->
        calculate_similarity s1 s2 = 1
        /\ (similarity_threshold self <= 1 ->
            Qle_bool (similarity_threshold self)
                     (calculate_similarity s1 s2) = true))
  /\ (forall s, calculate_similarity "" s = 0
                /\ calculate_similarity s "" = 0).
Proof.
  split; [|split].
  - unfold find_similar_sectors.
    match goal with |- context [if ?b then _ else _] => destruct b end.
    + constructor.
    + apply similar_groups_loop_reported. constructor.
  - intros s1 s2 H1 H2 Hn.
    assert (Hsim : calculate_similarity s1 s2 = 1).
    { unfold calculate_similarity.
      apply String.eqb_neq in H1, H2. rewrite H1, H2. cbn [orb].
      rewrite Hn. now rewrite String.eqb_refl. }
    split; [exact Hsim|]. intros Hthr. rewrite Hsim.
    now apply Qle_bool_iff.
  - intros s. unfold calculate_similarity. split; [reflexivity|].
    now rewrite orb_true_r.
Qed.

End SimilarityFacts.

(** C9 (as stated) fails on the empty label: an empty string and a blank
    one have the same normalised form and similarity 0, not 1; and with a
    threshold above 1 even identical normalised forms do not pass. *)
Lemma empty_labels_are_not_similar :
  normalize_sector_name " " = normalize_sector_name ""
  /\ calculate_similarity " " "" = 0
  /\ calculate_similarity "" "" = 0
  /\ normalize_sector_name "La Union" = normalize_sector_name "LA  UNION."
  /\ Qle_bool (15 # 10) (calculate_similarity "La Union" "LA  UNION.") = false.
Proof. vm_compute. repeat split; reflexivity. Qed.

(** The detector on a list with two spellings of two names and a label
    that stays alone. *)
Example find_similar_sectors_sample :
  find_similar_sectors default_detector
    ["SAN JUAN"; "san juan."; "CENTRO"; "X"; "SAN  JUAN"; "x"; ""]
  = [("SAN JUAN", ["SAN JUAN"; "san juan."; "SAN  JUAN"]);
     ("X", ["X"; "x"])].
Proof. vm_compute. reflexivity. Qed.

(* ===================================================================== *)
(** * Part IV: further properties of the code                             *)
(* ===================================================================== *)

(** ** The canonical table: rows, labels, types *)

Section CanonicalTable.
Context {pandas : Pandas}.

Lemma set_column_labels (name : string) (ty : dtype) (vs : list cell)
    (df : DataFrame) :
  labels (set_column name ty vs df)
  = labels df ++ (if has_column name df then [] else [name]).
Proof.
  unfold set_column, labels. destruct (has_column name df).
  - rewrite app_nil_r. unfold map_column. cbn [df_columns]. rewrite map_map.
    apply map_ext. intros c.
    destruct (String.eqb (col_name c) name) eqn:E; [|reflexivity].
    apply String.eqb_eq in E. now rewrite E.
  - cbn [df_columns]. now rewrite map_app.
Qed.

Lemma to_datetime_length (c : column) :
  List.length (col_values (to_datetime c)) = List.length (col_values c).
Proof.
  unfold to_datetime. destruct (col_dtype c); cbn [col_values];
    now rewrite ?length_map.
Qed.

Lemma before_year_length (h0 h1 h2 : bool) (c : column) :
  List.length (col_values (before_year h0 h1 h2 c))
  = List.length (col_values c).
Proof.
  unfold before_year. cbv zeta.
  destruct (mem_string (col_name c) date_columns);
    rewrite ?to_datetime_length, replace_markers_in_values;
    apply length_map.
Qed.

Lemma to_numeric_length (c : column) :
  List.length (col_values (to_numeric c)) = List.length (col_values c).
Proof.
  unfold to_numeric. destruct (col_dtype c); cbn [col_values];
    now rewrite ?length_map.
Qed.

Lemma fill_numeric_length (c : column) :
  List.length (col_values (fill_numeric c)) = List.length (col_values c).
Proof.
  unfold fill_numeric. destruct (col_dtype c); cbn [col_values map_values];
    now rewrite ?length_map.
Qed.

Lemma fill_text_length (c : column) :
  List.length (col_values (fill_text c)) = List.length (col_values c).
Proof.
  unfold fill_text. destruct (col_dtype c); try reflexivity.
  destruct (mem_string (col_name c) date_columns); [reflexivity|].
  cbn [col_values map_values]. now rewrite length_map.
Qed.

Lemma after_year_length (c : column) :
  List.length (col_values (after_year c)) = List.length (col_values c).
Proof.
  unfold after_year. rewrite fill_text_length, fill_numeric_length.
  destruct (mem_string (col_name c) critical_numeric_columns);
    [|reflexivity].
  cbn [col_values map_values]. now rewrite length_map, to_numeric_length.
Qed.

Lemma extract_year_labels (df : DataFrame) :
  labels (extract_year df)
  = labels df
    ++ (if has_column "fecha_inspeccion" df && negb (has_column "year" df)
        then ["year"] else []).
Proof.
  unfold extract_year.
  destruct (find_column "fecha_inspeccion" df) as [f|] eqn:Hf.
  - assert (H : has_column "fecha_inspeccion" df = true)
      by (apply has_column_find; eauto).
    rewrite H, set_column_labels. now destruct (has_column "year" df).
  - assert (H : has_column "fecha_inspeccion" df = false).
    { destruct (has_column "fecha_inspeccion" df) eqn:E; [|reflexivity].
      apply has_column_find in E as [c Hc]. congruence. }
    rewrite H. cbn [andb]. now rewrite app_nil_r.
Qed.

(** X1.  [process_data] keeps the index and the order of the labels; it adds
    one column, [year], at the end, when there is an inspection date and
    no [year] column yet; and a frame with one cell per row and column
    stays so. *)
Theorem process_data_keeps_frame (data : DataFrame) :
  df_index (process_data data) = df_index data
  /\ labels (process_data data)
     = labels data
       ++ (if has_column "fecha_inspeccion" data
              && negb (has_column "year" data)
           then ["year"] else [])
  /\ (rectangular data -> rectangular (process_data data)).
Proof.
  rewrite process_data_columns.
  set (D := first_half data).
  assert (HD : labels D = labels data).
  { unfold D, first_half, labels. cbn [df_columns]. rewrite map_map.
    apply map_ext. apply before_year_name. }
  assert (Hhas : forall n, has_column n D = has_column n data).
  { intros n. unfold has_column. fold (labels D) (labels data).
    now rewrite HD. }
  split; [reflexivity|]. split.
  - unfold labels at 1. cbn [df_columns]. rewrite map_map.
    rewrite (map_ext _ col_name after_year_name).
    fold (labels (extract_year D)).
    now rewrite extract_year_labels, HD, !Hhas.
  - intros Hrect. unfold rectangular in *. cbn [df_columns nrows df_index].
    rewrite Forall_forall in *. intros c Hc.
    apply in_map_iff in Hc as [a [<- Ha]]. rewrite after_year_length.
    assert (HDrect : forall b, In b (df_columns D) ->
                     List.length (col_values b) = nrows data).
    { intros b Hb. unfold D in Hb.
      apply first_half_In in Hb as (h0 & h1 & h2 & c0 & Hc0 & ->).
      rewrite before_year_length. now apply Hrect. }
    apply extract_year_In in Ha as [[_ Ha] | [[f [Hf ->]] | [_ Ha]]].
    + now apply HDrect.
    + cbn [col_values]. rewrite length_map.
      apply find_column_name in Hf as [_ Hf]. now apply HDrect.
    + now apply HDrect.
Qed.

Lemma after_year_of_date (a : column) :
  typed_dates a -> mem_string (col_name a) date_columns = true ->
  after_year a = a.
Proof.
  intros Hty Hd. unfold after_year.
  rewrite (date_not_critical _ Hd).
  rewrite fill_numeric_other by (rewrite (Hty Hd); discriminate).
  apply fill_text_other. rewrite (Hty Hd). discriminate.
Qed.

Lemma to_numeric_dtype (a : column) : col_dtype (to_numeric a) = DNumber.
Proof. unfold to_numeric. now destruct (col_dtype a) eqn:E. Qed.

Lemma after_year_typed_by_label (a : column) :
  typed_dates a -> typed_by_label (after_year a) = true.
Proof.
  intros Hty. unfold typed_by_label. rewrite after_year_name.
  destruct (mem_string (col_name a) date_columns) eqn:Hd.
  - rewrite (after_year_of_date a Hty Hd), (Hty Hd).
    now rewrite (date_not_critical _ Hd).
  - cbn [andb].
    destruct (mem_string (col_name a) critical_numeric_columns) eqn:Hc;
      [|reflexivity].
    unfold after_year. rewrite Hc.
    rewrite fill_numeric_number
      by (cbn [map_values col_dtype]; apply to_numeric_dtype).
    rewrite fill_text_other
      by (cbn [map_values col_dtype]; rewrite to_numeric_dtype; discriminate).
    cbn [map_values col_dtype]. now rewrite to_numeric_dtype.
Qed.

Lemma well_typed_map_values (f : cell -> cell) (c : column) :
  (forall v, well_typed_cell (col_dtype c) v = true ->
             well_typed_cell (col_dtype c) (f v) = true) ->
  well_typed_column c = true -> well_typed_column (map_values f c) = true.
Proof.
  unfold well_typed_column. cbn [map_values col_dtype col_values].
  rewrite !forallb_forall. intros Hf H v Hv.
  apply in_map_iff in Hv as [w [<- Hw]]. auto.
Qed.

Lemma replace_with_nan_well_typed (s : string) (ty : dtype) (v : cell) :
  well_typed_cell ty v = true ->
  well_typed_cell ty (replace_with_nan s v) = true.
Proof.
  destruct v as [|t|q|d]; try (intros H; exact H).
  destruct ty; try discriminate; intros _; cbn [replace_with_nan];
    now destruct (String.eqb t s).
Qed.

(** The dtype inferred for an object column fits its cells. *)
Lemma infer_dtype_well_typed (vs : list cell) :
  forallb (well_typed_cell (infer_dtype vs)) vs = true.
Proof.
  unfold infer_dtype.
  destruct (existsb is_str vs) eqn:Es;
    [apply forallb_forall; reflexivity|].
  destruct (existsb is_date vs) eqn:Ed.
  - destruct (existsb is_num vs) eqn:En;
      [apply forallb_forall; reflexivity|].
    apply forallb_forall. intros v Hv. destruct v as [|s|q|t];
      try reflexivity.
    + assert (existsb is_str vs = true)
        by (apply existsb_exists; now exists (Str s)).
      congruence.
    + assert (existsb is_num vs = true)
        by (apply existsb_exists; now exists (Num q)).
      congruence.
  - destruct vs as [|v0 vs0] eqn:Evs; [reflexivity|]. rewrite <- Evs in *.
    apply forallb_forall. intros v Hv. destruct v as [|s|q|t];
      try reflexivity.
    + assert (existsb is_str vs = true)
        by (apply existsb_exists; now exists (Str s)).
      congruence.
    + assert (existsb is_date vs = true)
        by (apply existsb_exists; now exists (Date t)).
      congruence.
Qed.

Lemma infer_objects_well_typed (c : column) :
  well_typed_column c = true -> well_typed_column (infer_objects c) = true.
Proof.
  intros H. unfold infer_objects. destruct (col_dtype c) eqn:E;
    try exact H.
  unfold well_typed_column. cbn [col_dtype col_values].
  apply infer_dtype_well_typed.
Qed.

Lemma replace_in_column_well_typed (s : string) (h : bool) (c : column) :
  well_typed_column c = true ->
  well_typed_column (replace_in_column s h c) = true.
Proof.
  intros H. unfold replace_in_column. cbv zeta.
  assert (H1 : well_typed_column (map_values (replace_with_nan s) c) = true)
    by (apply well_typed_map_values;
        [intros v; apply replace_with_nan_well_typed | exact H]).
  destruct h; [now apply infer_objects_well_typed | exact H1].
Qed.

Lemma to_datetime_well_typed (c : column) :
  well_typed_column c = true -> well_typed_column (to_datetime c) = true.
Proof.
  intros H. unfold to_datetime. destruct (col_dtype c) eqn:E; try exact H.
  all: unfold well_typed_column; cbn [col_dtype col_values];
    rewrite forallb_forall; intros v Hv;
    apply in_map_iff in Hv as [w [<- _]];
    destruct w; simpl; try reflexivity;
    match goal with |- context [cell_of_option _ ?o] => now destruct o end.
Qed.

Lemma before_year_well_typed (h0 h1 h2 : bool) (c : column) :
  well_typed_column c = true ->
  well_typed_column (before_year h0 h1 h2 c) = true.
Proof.
  intros H. unfold before_year. cbv zeta.
  assert (H1 : well_typed_column (replace_markers_in h0 h1 h2 c) = true)
    by (unfold replace_markers_in;
        now do 3 apply replace_in_column_well_typed).
  destruct (mem_string (col_name c) date_columns);
    [now apply to_datetime_well_typed | exact H1].
Qed.

Lemma to_numeric_filled_well_typed (c : column) :
  well_typed_column c = true ->
  well_typed_column (map_values (fillna (Num 0)) (to_numeric c)) = true.
Proof.
  intros H. unfold well_typed_column in *.
  cbn [map_values col_dtype col_values]. rewrite to_numeric_dtype.
  rewrite forallb_forall in *. intros v Hv.
  apply in_map_iff in Hv as [w [<- Hw]].
  unfold to_numeric in Hw. destruct (col_dtype c) eqn:E.
  - cbn [col_values] in Hw. apply in_map_iff in Hw as [u [<- _]].
    destruct u; simpl; try reflexivity. now destruct (parse_numeric s).
  - specialize (H w Hw). now destruct w.
  - cbn [col_values] in Hw. apply in_map_iff in Hw as [u [<- Hu]].
    specialize (H u Hu). now destruct u.
  - cbn [col_values] in Hw. apply in_map_iff in Hw as [u [<- _]].
    destruct u; simpl; try reflexivity. now destruct (parse_numeric s).
Qed.

Lemma fill_numeric_well_typed (c : column) :
  well_typed_column c = true -> well_typed_column (fill_numeric c) = true.
Proof.
  intros H. unfold fill_numeric. destruct (col_dtype c) eqn:E; try exact H.
  apply well_typed_map_values; [|exact H]. rewrite E. intros v. now destruct v.
Qed.

Lemma fill_text_well_typed (c : column) :
  well_typed_column c = true -> well_typed_column (fill_text c) = true.
Proof.
  intros H. unfold fill_text. destruct (col_dtype c) eqn:E; try exact H.
  destruct (mem_string (col_name c) date_columns); [exact H|].
  unfold well_typed_column. cbn [map_values col_dtype col_values].
  rewrite E. apply forallb_forall. reflexivity.
Qed.

Lemma after_year_well_typed (c : column) :
  well_typed_column c = true -> well_typed_column (after_year c) = true.
Proof.
  intros H. unfold after_year.
  apply fill_text_well_typed, fill_numeric_well_typed.
  destruct (mem_string (col_name c) critical_numeric_columns);
    [now apply to_numeric_filled_well_typed | exact H].
Qed.

Lemma process_data_typed_by_label (data : DataFrame) :
  forallb typed_by_label (df_columns (process_data data)) = true.
Proof.
  rewrite process_data_columns. cbn [df_columns].
  rewrite forallb_forall. intros c Hc.
  apply in_map_iff in Hc as [a [<- Ha]].
  apply after_year_typed_by_label. eapply between_typed. exact Ha.
Qed.

Lemma process_data_well_typed (data : DataFrame) :
  well_typed data = true -> well_typed (process_data data) = true.
Proof.
  rewrite process_data_columns.
  unfold well_typed. cbn [df_columns]. rewrite !forallb_forall.
  intros H c Hc. apply in_map_iff in Hc as [a [<- Ha]].
  apply after_year_well_typed.
  apply extract_year_In in Ha as [[_ Ha] | [[f [_ ->]] | [_ Ha]]].
  - apply first_half_In in Ha as (h0 & h1 & h2 & c0 & Hc0 & ->).
    apply before_year_well_typed. now apply H.
  - unfold well_typed_column. cbn [col_dtype col_values].
    rewrite forallb_forall. intros v Hv.
    apply in_map_iff in Hv as [w [<- _]]. now destruct w.
  - apply first_half_In in Ha as (h0 & h1 & h2 & c0 & Hc0 & ->).
    apply before_year_well_typed. now apply H.
Qed.

(** X2.  In the canonical table every column the code lists as a date is a
    datetime column and every column it lists as a critical indicator is
    a numeric column, whatever they were read as; and when the numeric
    and datetime columns of the input hold nothing but numbers, dates and
    missing values, so do those of the canonical table: a date column is
    a timestamp or missing, never a string. *)
Theorem process_data_types_columns (data : DataFrame) :
  forallb typed_by_label (df_columns (process_data data)) = true
  /\ (well_typed data = true -> well_typed (process_data data) = true).
Proof.
  split; [apply process_data_typed_by_label | apply process_data_well_typed].
Qed.

Lemma set_column_find (name : string) (ty : dtype) (vs : list cell)
    (df : DataFrame) :
  find_column name (set_column name ty vs df) = Some (mkColumn name ty vs).
Proof.
  unfold set_column, find_column.
  destruct (has_column name df) eqn:Hhas; cbn [df_columns].
  - apply mem_string_In in Hhas. unfold map_column. cbn [df_columns].
    induction (df_columns df) as [|c cols IH]; [destruct Hhas|].
    simpl. destruct (String.eqb (col_name c) name) eqn:E.
    + cbn [col_name]. now rewrite String.eqb_refl.
    + rewrite E. apply IH. simpl in Hhas. destruct Hhas as [H | H]; [|exact H].
      apply String.eqb_neq in E. congruence.
  - apply mem_string_false in Hhas.
    induction (df_columns df) as [|c cols IH]; simpl.
    + now rewrite String.eqb_refl.
    + destruct (String.eqb (col_name c) name) eqn:E.
      * apply String.eqb_eq in E. exfalso. apply Hhas. simpl. now left.
      * apply IH. intros H. apply Hhas. simpl. now right.
Qed.

(** X3.  When the data has an inspection date, the [year] column of the
    canonical table is numeric and holds, row by row, the year of the
    parsed inspection date -- and 0, not a missing value, where the date
    is missing or could not be parsed. *)
Theorem process_data_year (data : DataFrame) :
  has_column "fecha_inspeccion" data = true ->
  exists fecha,
    find_column "fecha_inspeccion" (process_data data) = Some fecha
    /\ col_dtype fecha = DDatetime
    /\ find_column "year" (process_data data)
       = Some (mkColumn "year" DNumber (map year_or_zero (col_values fecha))).
Proof.
  intros Hhas. rewrite process_data_columns.
  set (D := first_half data).
  assert (HhasD : has_column "fecha_inspeccion" D = true).
  { unfold D, first_half. rewrite (has_column_map _ _ _ (df_index data))
      by apply before_year_name.
    now rewrite frame_eta. }
  apply has_column_find in HhasD as [f Hf].
  assert (Hty : typed_dates f).
  { apply find_column_name in Hf as [_ Hin]. unfold D in Hin.
    apply first_half_In in Hin as (h0 & h1 & h2 & c & _ & ->).
    apply before_year_typed. }
  assert (Hname : col_name f = "fecha_inspeccion")
    by (now apply find_column_name in Hf).
  assert (Hd : mem_string (col_name f) date_columns = true)
    by (now rewrite Hname).
  exists f.
  rewrite !(find_column_map _ after_year _ (df_index (extract_year D)))
    by apply after_year_name.
  rewrite !frame_eta. unfold extract_year. rewrite Hf.
  rewrite set_column_find_other by discriminate. rewrite Hf.
  rewrite set_column_find. cbn [option_map].
  rewrite (after_year_of_date f Hty Hd).
  split; [reflexivity|]. split; [now apply Hty|].
  f_equal. unfold after_year. cbn [col_name].
  change (mem_string "year" critical_numeric_columns) with false.
  rewrite fill_numeric_number by reflexivity.
  rewrite fill_text_other by (cbn [map_values col_dtype]; discriminate).
  unfold map_values. cbn [col_name col_dtype col_values]. f_equal.
  rewrite map_map. apply map_ext. intros v. now destruct v.
Qed.

End CanonicalTable.

(** [process_data_year] on [sample_raw]. *)
Lemma process_data_year_sample :
  exists fecha,
    find_column "fecha_inspeccion" (process_data sample_raw) = Some fecha
    /\ col_dtype fecha = DDatetime
    /\ find_column "year" (process_data sample_raw)
       = Some (mkColumn "year" DNumber (map year_or_zero (col_values fecha))).
Proof. exact (process_data_year sample_raw eq_refl). Defined.

(** ** Views: what [get_filtered_data] can and cannot change *)

Lemma compose_mask_select {A : Type} (m1 m2 : list bool) (xs : list A) :
  select (compose_mask m1 m2) xs = select m2 (select m1 xs).
Proof.
  revert m2 xs. induction m1 as [|b m1 IH]; intros m2 xs.
  - simpl. now destruct m2.
  - destruct xs as [|x xs].
    + destruct b; [destruct m2|]; simpl; now rewrite ?select_nil.
    + destruct b; simpl.
      * destruct m2 as [|b2 m2]; simpl.
        -- rewrite IH. now destruct (select m1 xs).
        -- destruct b2; now rewrite IH.
      * apply IH.
Qed.

Lemma select_rows_compose (m1 m2 : list bool) (df : DataFrame) :
  select_rows m2 (select_rows m1 df) = select_rows (compose_mask m1 m2) df.
Proof.
  unfold select_rows. cbn [df_index df_columns]. f_equal.
  - symmetry. apply compose_mask_select.
  - rewrite map_map. apply map_ext. intros c.
    cbn [col_name col_dtype col_values]. f_equal.
    symmetry. apply compose_mask_select.
Qed.

Lemma restriction_refl (d : DataFrame) : restriction d d.
Proof. now exists None. Qed.

Lemma restriction_select (mask : list bool) (d : DataFrame) :
  restriction (select_rows mask d) d.
Proof. now exists (Some mask). Qed.

Lemma restriction_trans (a b c : DataFrame) :
  restriction a b -> restriction b c -> restriction a c.
Proof.
  intros [[m2|] ->] [[m1|] ->]; cbn [select_rows_opt].
  - exists (Some (compose_mask m1 m2)). apply select_rows_compose.
  - now exists (Some m2).
  - now exists (Some m1).
  - now exists None.
Qed.

Lemma restriction_shape (view data : DataFrame) :
  restriction view data -> shape view = shape data.
Proof.
  intros [[m|] ->]; [|reflexivity].
  unfold shape, select_rows_opt, select_rows. cbn [df_columns].
  now rewrite map_map.
Qed.

Lemma apply_filter_restriction (d d' : DataFrame)
    (item : string * filter_value) :
  apply_filter d item = Ok d' -> restriction d' d.
Proof.
  destruct item as [k v]. unfold apply_filter.
  destruct (mem_string k [FLAT_MAPPING; BY_PROVINCE]).
  { intros [= <-]. apply restriction_refl. }
  destruct (truthy v && has_column k d).
  - destruct (get_column k d) as [c|e]; [|discriminate]. cbn [bind].
    destruct (filter_mask v (col_values c)) as [m|e]; [|discriminate].
    cbn [bind]. intros [= <-]. apply restriction_select.
  - intros [= <-]. apply restriction_refl.
Qed.

Lemma filters_stage_restriction (filters : option (dict filter_value)) :
  forall d d', filters_stage d filters = Ok d' -> restriction d' d.
Proof.
  destruct filters as [fs|]; cbn [filters_stage];
    [|intros d d' [= <-]; apply restriction_refl].
  induction fs as [|item fs IH]; intros d d'; cbn [fold_left bind].
  - intros [= <-]. apply restriction_refl.
  - destruct (apply_filter d item) as [d1|e] eqn:E.
    + intros H. apply IH in H. apply apply_filter_restriction in E.
      now apply (restriction_trans d' d1 d).
    + intros H. exfalso. clear -H.
      induction fs as [|i fs IH]; cbn [fold_left bind] in H;
        [discriminate | auto].
Qed.

Lemma activity_stage_restriction (d d' : DataFrame) (a : option string) :
  activity_stage d a = Ok d' -> restriction d' d.
Proof.
  unfold activity_stage. destruct a as [a|];
    [|intros [= <-]; apply restriction_refl].
  destruct (String.eqb a ""); [intros [= <-]; apply restriction_refl|].
  destruct (get_column "tipoActividadInspeccion" d) as [c|e];
    [|discriminate]. cbn [bind].
  destruct (str_lower c) as [l|e]; [|discriminate]. cbn [bind].
  intros [= <-]. apply restriction_select.
Qed.

Lemma map_column_shape (name : string) (f : column -> column)
    (d : DataFrame) :
  (forall c, col_name (f c) = col_name c /\ col_dtype (f c) = col_dtype c) ->
  shape (map_column name f d) = shape d
  /\ df_index (map_column name f d) = df_index d.
Proof.
  intros Hf. split; [|reflexivity].
  unfold shape, map_column. cbn [df_columns]. rewrite map_map.
  apply map_ext. intros c.
  destruct (String.eqb (col_name c) name); [|reflexivity].
  destruct (Hf c) as [-> ->]. reflexivity.
Qed.

Lemma apply_unification_shape (d : DataFrame) (name : string)
    (m : dict string) :
  shape (apply_unification d name m) = shape d
  /\ df_index (apply_unification d name m) = df_index d.
Proof.
  unfold apply_unification. destruct m; [now split|].
  destruct (has_column name d); [|now split].
  apply map_column_shape. intros c. now split.
Qed.

Lemma loc_write_shape (mask : list bool) (d sub : DataFrame) :
  shape (loc_write mask d sub) = shape d
  /\ df_index (loc_write mask d sub) = df_index d.
Proof.
  split; [|reflexivity]. unfold shape, loc_write. cbn [df_columns].
  rewrite map_map. apply map_ext. intros c.
  now destruct (find_column (col_name c) sub).
Qed.

Lemma unify_province_shape (cats : list cell) (d d' : DataFrame)
    (item : string * dict string) :
  unify_province cats d item = Ok d' ->
  shape d' = shape d /\ df_index d' = df_index d.
Proof.
  destruct item as [p m]. unfold unify_province.
  destruct (get_column "nombre_prov" d) as [c|e]; [|discriminate].
  cbn [bind].
  destruct (existsb (fun b => b) _); [|intros [= <-]; now split].
  intros H. apply loc_assign_ok in H. subst d'. apply loc_write_shape.
Qed.

Lemma unify_by_province_shape (m : dict (dict string)) :
  forall d d', unify_by_province d m = Ok d' ->
  shape d' = shape d /\ df_index d' = df_index d.
Proof.
  unfold unify_by_province. intros d.
  generalize (match find_column "sector" d with
              | Some c => categories c
              | None => []
              end) as cats.
  intros cats. revert d.
  induction m as [|item m IH]; intros d d'; cbn [fold_left bind].
  - intros [= <-]. now split.
  - destruct (unify_province cats d item) as [d1|e] eqn:E.
    + intros H. apply IH in H as [H1 H2].
      apply unify_province_shape in E as [E1 E2]. split; congruence.
    + intros H. exfalso. clear -H.
      induction m as [|i m IH]; cbn [fold_left bind] in H;
        [discriminate | auto].
Qed.

Lemma unify_stage_shape (data u : DataFrame)
    (filters : option (dict filter_value)) :
  unify_stage data filters = Ok u ->
  shape u = shape data /\ df_index u = df_index data
  /\ (dict_has BY_PROVINCE (filter_items filters) = false ->
      dict_has FLAT_MAPPING (filter_items filters) = false ->
      u = data).
Proof.
  unfold unify_stage. fold (filter_items filters).
  destruct (dict_has BY_PROVINCE (filter_items filters)
            && has_column "sector" data
            && has_column "nombre_prov" data) eqn:E1.
  - apply andb_true_iff in E1 as [E1 _]. apply andb_true_iff in E1 as [E1 _].
    rewrite E1.
    assert (Hdata : shape data = shape data /\ df_index data = df_index data
                    /\ (true = false ->
                        dict_has FLAT_MAPPING (filter_items filters) = false ->
                        data = data)) by (repeat split).
    destruct (dict_get BY_PROVINCE (filter_items filters)) as [v|];
      [|intros [= <-]; exact Hdata].
    destruct v;
      try (destruct (truthy _); [discriminate | intros [= <-]; exact Hdata]).
    intros H. apply unify_by_province_shape in H as [H1 H2].
    split; [exact H1 | split; [exact H2 | discriminate]].
  - destruct (dict_has FLAT_MAPPING (filter_items filters)
              && has_column "sector" data) eqn:E2.
    + apply andb_true_iff in E2 as [E2 _]. rewrite E2.
      assert (Hdata : shape data = shape data /\ df_index data = df_index data
                      /\ (dict_has BY_PROVINCE (filter_items filters) = false ->
                          true = false -> data = data)) by (repeat split).
      destruct (dict_get FLAT_MAPPING (filter_items filters)) as [v|];
        [|intros [= <-]; exact Hdata].
      destruct v;
        try (destruct (truthy _); [discriminate | intros [= <-]; exact Hdata]).
      intros [= <-].
      destruct (apply_unification_shape data "sector" m) as [H1 H2].
      split; [exact H1 | split; [exact H2 | intros _; discriminate]].
    + intros [= <-]. repeat split.
Qed.

(** X6.  Whatever the activity type and the filters, a view that
    [get_filtered_data] returns is a restriction to some rows of a frame
    that has the index, the labels and the dtypes of the data -- and that
    frame is the data itself when the filter set carries no sector
    mapping.  No row and no column is ever added. *)
Theorem filtered_view_is_restriction (data view : DataFrame)
    (activity_type : option string) (filters : option (dict filter_value)) :
  get_filtered_data data activity_type filters = Ok view ->
  exists unified,
    restriction view unified
    /\ shape unified = shape data
    /\ df_index unified = df_index data
    /\ (dict_has BY_PROVINCE (filter_items filters) = false ->
        dict_has FLAT_MAPPING (filter_items filters) = false ->
        unified = data).
Proof.
  unfold get_filtered_data.
  destruct (unify_stage data filters) as [u|e] eqn:Hu; [|discriminate].
  cbn [bind].
  destruct (activity_stage u activity_type) as [a|e] eqn:Ha; [|discriminate].
  cbn [bind]. intros Hf.
  exists u. split.
  - apply filters_stage_restriction in Hf.
    apply activity_stage_restriction in Ha.
    now apply (restriction_trans view a u).
  - now apply unify_stage_shape in Hu.
Qed.

(** [filtered_view_is_restriction] on [sample_visits]. *)
Lemma filtered_view_is_restriction_sample :
  exists unified,
    restriction (select_rows [false; true; true; true] sample_visits) unified
    /\ shape unified = shape sample_visits
    /\ df_index unified = df_index sample_visits
    /\ (dict_has BY_PROVINCE (filter_items (Some [("year", FNum 2024)]))
        = false ->
        dict_has FLAT_MAPPING (filter_items (Some [("year", FNum 2024)]))
        = false ->
        unified = sample_visits).
Proof.
  exact (filtered_view_is_restriction sample_visits _ None
           (Some [("year", FNum 2024)]) eq_refl).
Defined.

(** *** The order of the filters *)

Lemma and_mask_comm (m1 m2 : list bool) : and_mask m1 m2 = and_mask m2 m1.
Proof.
  revert m2. induction m1 as [|b1 m1 IH]; intros [|b2 m2]; simpl;
    try reflexivity.
  now rewrite IH, andb_comm.
Qed.

Lemma and_mask_assoc (m1 m2 m3 : list bool) :
  and_mask (and_mask m1 m2) m3 = and_mask m1 (and_mask m2 m3).
Proof.
  revert m2 m3. induction m1 as [|b1 m1 IH]; intros [|b2 m2] [|b3 m3];
    simpl; try reflexivity.
  now rewrite IH, andb_assoc.
Qed.

Lemma mask_step_swap (base : DataFrame) (acc : option (list bool))
    (a b : string * filter_value) :
  mask_step base (mask_step base acc a) b
  = mask_step base (mask_step base acc b) a.
Proof.
  unfold mask_step.
  destruct (filter_applies base a) as [ma|], (filter_applies base b) as [mb|],
    acc as [m0|]; try reflexivity; f_equal.
  - rewrite !and_mask_assoc. f_equal. apply and_mask_comm.
  - apply and_mask_comm.
Qed.

Lemma fold_mask_step_perm (base : DataFrame)
    (fs fs' : dict filter_value) :
  Permutation fs fs' ->
  forall acc,
  fold_left (mask_step base) fs acc = fold_left (mask_step base) fs' acc.
Proof.
  induction 1 as [|x l l' _ IH|x y l|l l' l'' _ IH1 _ IH2]; intros acc;
    cbn [fold_left].
  - reflexivity.
  - apply IH.
  - now rewrite mask_step_swap.
  - now rewrite IH1.
Qed.

Lemma dict_get_In {V : Type} (k : string) (v : V) (d : dict V) :
  NoDup (map fst d) -> (dict_get k d = Some v <-> In (k, v) d).
Proof.
  unfold dict_get. induction d as [|[k' v'] d IH]; intros Hnd; simpl.
  - split; [discriminate | intros []].
  - inversion Hnd as [|? ? Hnotin Hnd']; subst.
    destruct (String.eqb k' k) eqn:E; simpl.
    + apply String.eqb_eq in E. subst k'. split.
      * intros [= ->]. now left.
      * intros [[= ->] | Hin]; [reflexivity|].
        exfalso. apply Hnotin. apply in_map_iff. now exists (k, v).
    + apply String.eqb_neq in E. rewrite (IH Hnd'). split; [auto|].
      intros [[= -> _] | Hin]; [congruence | exact Hin].
Qed.

Lemma dict_get_perm {V : Type} (k : string) (d d' : dict V) :
  NoDup (map fst d) -> Permutation d d' ->
  dict_get k d' = dict_get k d.
Proof.
  intros Hnd Hp.
  assert (Hnd' : NoDup (map fst d'))
    by (eapply Permutation_NoDup;
        [apply Permutation_map; exact Hp | exact Hnd]).
  destruct (dict_get k d) as [v|] eqn:E.
  - apply (dict_get_In k v d' Hnd').
    apply (Permutation_in _ Hp).
    now apply (dict_get_In k v d Hnd).
  - destruct (dict_get k d') as [v'|] eqn:E'; [|reflexivity].
    apply (dict_get_In k v' d' Hnd') in E'.
    apply (Permutation_in _ (Permutation_sym Hp)) in E'.
    apply (dict_get_In k v' d Hnd) in E'. congruence.
Qed.

Lemma dict_has_perm {V : Type} (k : string) (d d' : dict V) :
  Permutation d d' -> dict_has k d' = dict_has k d.
Proof.
  intros Hp. unfold dict_has.
  destruct (mem_string k (map fst d)) eqn:E.
  - apply mem_string_In. apply mem_string_In in E.
    eapply Permutation_in; [|exact E].
    now apply Permutation_map.
  - apply mem_string_false. apply mem_string_false in E. intros H. apply E.
    eapply Permutation_in; [|exact H].
    apply Permutation_map. now apply Permutation_sym.
Qed.

(** X7.  The order in which a filter set lists its scalar and list filters
    does not matter: two sets with the same entries give the same result,
    the same view or the same error. *)
Theorem filter_order_irrelevant (data : DataFrame)
    (activity_type : option string) (filters filters' : dict filter_value) :
  NoDup (map fst filters) ->
  Permutation filters filters' ->
  (forall k v, In (k, v) filters -> special_key k = false -> plain v = true) ->
  get_filtered_data data activity_type (Some filters')
  = get_filtered_data data activity_type (Some filters).
Proof.
  intros Hnd Hp Hplain.
  assert (Hu : unify_stage data (Some filters')
               = unify_stage data (Some filters)).
  { unfold unify_stage.
    now rewrite !(dict_has_perm _ _ _ Hp), !(dict_get_perm _ _ _ Hnd Hp). }
  unfold get_filtered_data. rewrite Hu.
  destruct (unify_stage data (Some filters)) as [u|e]; [|reflexivity].
  cbn [bind].
  destruct (activity_stage u activity_type) as [base|e]; [|reflexivity].
  cbn [bind filters_stage].
  assert (Hplain' : forall k v, In (k, v) filters' ->
                      special_key k = false -> plain v = true).
  { intros k v Hin. apply Hplain.
    eapply Permutation_in; [|exact Hin]. now apply Permutation_sym. }
  pose proof (filters_fold base filters None Hplain) as H1.
  pose proof (filters_fold base filters' None Hplain') as H2.
  cbn [select_rows_opt] in H1, H2. unfold dict in *.
  rewrite H1, H2. now rewrite (fold_mask_step_perm base _ _ Hp).
Qed.

(** [filter_order_irrelevant] on [sample_visits]: province then year, year
    then province. *)
Lemma filter_order_irrelevant_sample :
  get_filtered_data sample_visits None
    (Some [("nombre_prov", FStr "LIMA"); ("year", FNum 2024)])
  = get_filtered_data sample_visits None
      (Some [("year", FNum 2024); ("nombre_prov", FStr "LIMA")]).
Proof.
  refine (filter_order_irrelevant sample_visits None
            [("year", FNum 2024); ("nombre_prov", FStr "LIMA")]
            [("nombre_prov", FStr "LIMA"); ("year", FNum 2024)] _ _ _).
  - repeat (constructor; [simpl; intuition discriminate|]). constructor.
  - apply perm_swap.
  - intros k v H _. simpl in H.
    repeat (destruct H as [H | H]; [inversion H; reflexivity|]). destruct H.
Defined.

(** *** The two sector mappings *)

Lemma dict_has_set_other {V : Type} (k k' : string) (v : V) (d : dict V) :
  k' <> k -> dict_has k' (dict_set k v d) = dict_has k' d.
Proof.
  intros Hne. unfold dict_has, mem_string.
  induction d as [|[k0 v0] d IH]; simpl.
  - apply String.eqb_neq in Hne. now rewrite Hne.
  - destruct (String.eqb k0 k) eqn:E; simpl.
    + apply String.eqb_eq in E. subst k0.
      apply String.eqb_neq in Hne. now rewrite Hne.
    + now rewrite IH.
Qed.

Lemma dict_get_set_other {V : Type} (k k' : string) (v : V) (d : dict V) :
  k' <> k -> dict_get k' (dict_set k v d) = dict_get k' d.
Proof.
  intros Hne. unfold dict_get. f_equal.
  induction d as [|[k0 v0] d IH]; simpl.
  - apply not_eq_sym in Hne. apply String.eqb_neq in Hne. now rewrite Hne.
  - destruct (String.eqb k0 k) eqn:E; simpl.
    + apply String.eqb_eq in E. subst k0.
      apply not_eq_sym in Hne. apply String.eqb_neq in Hne. now rewrite Hne.
    + destruct (String.eqb k0 k'); [reflexivity | exact IH].
Qed.

Lemma filters_fold_skips_mapping (v : filter_value)
    (fs : dict filter_value) :
  forall r : result DataFrame,
  fold_left (fun r item => d <- r ;; apply_filter d item)
            (dict_set FLAT_MAPPING v fs) r
  = fold_left (fun r item => d <- r ;; apply_filter d item) fs r.
Proof.
  induction fs as [|[k0 v0] fs IH]; intros r.
  - simpl. now destruct r.
  - cbn [dict_set]. destruct (String.eqb k0 FLAT_MAPPING) eqn:E.
    + apply String.eqb_eq in E. subst k0. reflexivity.
    + cbn [fold_left]. apply IH.
Qed.

(** X8.  When the filter set holds a by-province mapping (be it empty) and the
    data has the sector and province columns, the flat mapping is not
    looked at: setting it to any value changes nothing of the result. *)
Theorem by_province_mapping_takes_precedence (data : DataFrame)
    (activity_type : option string) (filters : dict filter_value)
    (v : filter_value) :
  dict_has BY_PROVINCE filters = true ->
  has_column "sector" data = true ->
  has_column "nombre_prov" data = true ->
  get_filtered_data data activity_type
    (Some (dict_set FLAT_MAPPING v filters))
  = get_filtered_data data activity_type (Some filters).
Proof.
  intros Hby Hs Hp.
  assert (Hne : BY_PROVINCE <> FLAT_MAPPING) by discriminate.
  assert (Hu : unify_stage data (Some (dict_set FLAT_MAPPING v filters))
               = unify_stage data (Some filters)).
  { unfold unify_stage.
    rewrite (dict_has_set_other _ _ v filters Hne).
    rewrite (dict_get_set_other _ _ v filters Hne).
    now rewrite Hby, Hs, Hp. }
  unfold get_filtered_data. rewrite Hu.
  destruct (unify_stage data (Some filters)) as [u|e]; [|reflexivity].
  cbn [bind].
  destruct (activity_stage u activity_type) as [base|e]; [|reflexivity].
  cbn [bind filters_stage]. apply filters_fold_skips_mapping.
Qed.

(** [by_province_mapping_takes_precedence] on [sample_visits]: with an
    empty by-province mapping, a flat mapping is not applied. *)
Lemma by_province_mapping_takes_precedence_sample :
  get_filtered_data sample_visits None
    (Some (dict_set FLAT_MAPPING (FMapping [("SAN JUA", "SAN JUAN")])
                    [(BY_PROVINCE, FByProvince [])]))
  = get_filtered_data sample_visits None
      (Some [(BY_PROVINCE, FByProvince [])]).
Proof.
  exact (by_province_mapping_takes_precedence sample_visits None
           [(BY_PROVINCE, FByProvince [])]
           (FMapping [("SAN JUA", "SAN JUAN")]) eq_refl eq_refl eq_refl).
Defined.

(** *** Applying a mapping twice *)

Lemma replace_mapping_closed (m : dict string) (c : cell) :
  closed_mapping m ->
  replace_mapping m (replace_mapping m c) = replace_mapping m c.
Proof.
  intros Hm. destruct c as [|s|q|t]; try reflexivity.
  cbn [replace_mapping]. destruct (dict_get s m) as [v|] eqn:E.
  - cbn [replace_mapping]. destruct (Hm s v E) as [-> | ->]; reflexivity.
  - cbn [replace_mapping]. now rewrite E.
Qed.

(** X9.  A mapping whose values are final -- no value is a key mapped to
    something else, as when every variant of a group is mapped to one
    name -- unifies in one pass: applying it to an already unified frame
    changes nothing. *)
Theorem apply_unification_idempotent (data : DataFrame)
    (column_name : string) (m : dict string) :
  closed_mapping m ->
  apply_unification (apply_unification data column_name m) column_name m
  = apply_unification data column_name m.
Proof.
  intros Hm. unfold apply_unification. destruct m as [|kv m]; [reflexivity|].
  destruct (has_column column_name data) eqn:Hhas; [|now rewrite Hhas].
  assert (Hhas' : has_column column_name
            (map_column column_name
               (map_values (replace_mapping (kv :: m))) data) = true).
  { unfold map_column.
    rewrite (has_column_map _ _ _ (df_index data)).
    - now rewrite frame_eta.
    - intros c. now destruct (String.eqb (col_name c) column_name). }
  rewrite Hhas'. unfold map_column. cbn [df_index df_columns]. f_equal.
  rewrite map_map. apply map_ext. intros c.
  destruct (String.eqb (col_name c) column_name) eqn:E.
  - cbn [map_values col_name]. rewrite E.
    rewrite map_values_compose. apply map_values_ext.
    apply Forall_forall. intros v _. now apply replace_mapping_closed.
  - now rewrite E.
Qed.

Lemma sample_mapping_closed :
  closed_mapping [("SAN JUA", "SAN JUAN"); ("SAN JUAN", "SAN JUAN")].
Proof.
  intros k v H. unfold dict_get in H. cbn [find fst snd] in H.
  destruct (String.eqb "SAN JUA" k);
    [injection H as <-; right; reflexivity|].
  destruct (String.eqb "SAN JUAN" k);
    [injection H as <-; right; reflexivity|].
  discriminate.
Qed.

(** [apply_unification_idempotent] on [sample_visits]. *)
Lemma apply_unification_idempotent_sample :
  apply_unification
    (apply_unification sample_visits "sector"
       [("SAN JUA", "SAN JUAN"); ("SAN JUAN", "SAN JUAN")])
    "sector" [("SAN JUA", "SAN JUAN"); ("SAN JUAN", "SAN JUAN")]
  = apply_unification sample_visits "sector"
      [("SAN JUA", "SAN JUAN"); ("SAN JUAN", "SAN JUAN")].
Proof.
  exact (apply_unification_idempotent sample_visits "sector" _
           sample_mapping_closed).
Defined.

(** ** Production mode: what [_optimize_for_production] keeps *)

Lemma categorize_encoded (n : nat) (c : column) : encoded c (categorize n c).
Proof.
  unfold encoded, categorize. destruct (col_dtype c) eqn:E;
    try (repeat split; now left).
  destruct (low_cardinality n c); cbn [col_name col_values col_dtype].
  - repeat split. now right.
  - repeat split. now left.
Qed.

Lemma categorize_all_null (n : nat) (c : column) :
  all_null (categorize n c) = all_null c.
Proof.
  unfold all_null. now destruct (categorize_encoded n c) as (_ & -> & _).
Qed.

Lemma categorize_idempotent (n : nat) (c : column) :
  categorize n (categorize n c) = categorize n c.
Proof.
  assert (H : categorize n c = c
              \/ categorize n c
                 = mkColumn (col_name c) DCategory (col_values c)).
  { unfold categorize. destruct (col_dtype c); try now left.
    destruct (low_cardinality n c); [now right | now left]. }
  destruct H as [H | H]; rewrite H; [exact H | reflexivity].
Qed.

(** X4.  The production optimisation keeps the index, keeps in order every
    column that holds at least one value, with its label and its cells,
    and changes a dtype only from object to category.  On a table without
    rows every column counts as empty and is dropped, so the ratio of
    distinct values to rows is never taken over zero rows. *)
Theorem optimize_for_production_keeps_values (data : DataFrame) :
  df_index (optimize_for_production data) = df_index data
  /\ Forall2 encoded
       (filter (fun c => negb (all_null c)) (df_columns data))
       (df_columns (optimize_for_production data))
  /\ (rectangular data -> nrows data = 0%nat ->
      df_columns (optimize_for_production data) = []).
Proof.
  unfold optimize_for_production. cbn [df_index df_columns].
  split; [reflexivity|]. split.
  - induction (filter (fun c => negb (all_null c)) (df_columns data))
      as [|c l IH]; cbn [map]; constructor;
      [apply categorize_encoded | exact IH].
  - intros Hrect Hrows. unfold rectangular in Hrect. rewrite Hrows in Hrect.
    induction Hrect as [|c l Hc _ IH]; [reflexivity|].
    cbn [filter]. unfold all_null at 1.
    destruct (col_values c); [exact IH | discriminate Hc].
Qed.

(** X5.  Optimising an optimised table changes nothing. *)
Theorem optimize_for_production_idempotent (data : DataFrame) :
  optimize_for_production (optimize_for_production data)
  = optimize_for_production data.
Proof.
  unfold optimize_for_production. cbn [df_index df_columns]. f_equal.
  change (nrows (mkDataFrame (df_index data) ?l)) with (nrows data).
  induction (df_columns data) as [|c l IH]; [reflexivity|].
  cbn [filter]. destruct (negb (all_null c)) eqn:E; [|exact IH].
  cbn [map filter]. rewrite categorize_all_null, E. cbn [map].
  now rewrite categorize_idempotent, IH.
Qed.

(** ** Unique values: what the list holds, and its order *)

Lemma cell_eqb_sym (a b : cell) : cell_eqb a b = cell_eqb b a.
Proof.
  destruct a, b; cbn [cell_eqb]; try reflexivity.
  - apply String.eqb_sym.
  - unfold Qeq_bool. rewrite Z.eqb_sym. reflexivity.
  - apply Z.eqb_sym.
Qed.

Lemma cell_same_sym (a b : cell) : cell_same a b = cell_same b a.
Proof.
  destruct a, b; cbn [cell_same]; try reflexivity; apply cell_eqb_sym.
Qed.

Lemma cell_same_refl (a : cell) : cell_same a a = true.
Proof.
  destruct a; cbn [cell_same cell_eqb]; try reflexivity.
  - apply String.eqb_refl.
  - apply Qeq_bool_iff. reflexivity.
  - apply Z.eqb_refl.
Qed.

Lemma unique_aux_In (xs : list cell) :
  forall seen v, In v (unique_aux seen xs) ->
                 In v xs /\ isin seen v = false.
Proof.
  induction xs as [|x xs IH]; intros seen v; cbn [unique_aux].
  - intros [].
  - destruct (isin seen x) eqn:E.
    + intros H. apply IH in H as [H1 H2]. split; [now right | exact H2].
    + intros [<- | H].
      * split; [now left | exact E].
      * apply IH in H as [H1 H2]. split; [now right|].
        unfold isin in H2. cbn [existsb] in H2.
        now apply orb_false_elim in H2 as [_ H2].
Qed.

Lemma unique_aux_once (xs : list cell) :
  forall seen v, In v (unique_aux seen xs) ->
                 occurrences v (unique_aux seen xs) = 1%nat.
Proof.
  unfold occurrences.
  induction xs as [|x xs IH]; intros seen v; cbn [unique_aux].
  - intros [].
  - destruct (isin seen x) eqn:E; [apply IH|].
    intros [<- | H]; cbn [filter].
    + rewrite cell_same_refl. cbn [List.length]. f_equal.
      assert (Hnone : forall l, (forall y, In y l -> cell_same x y = false) ->
                filter (cell_same x) l = []).
      { induction l as [|y l IHl]; intros Hl; [reflexivity|].
        cbn [filter]. rewrite (Hl y (or_introl eq_refl)).
        apply IHl. intros z Hz. apply Hl. now right. }
      rewrite Hnone; [reflexivity|].
      intros y Hy. apply unique_aux_In in Hy as [_ Hy].
      unfold isin in Hy. cbn [existsb] in Hy.
      apply orb_false_elim in Hy as [Hy _]. now rewrite cell_same_sym.
    + pose proof (unique_aux_In _ _ _ H) as [_ Hv].
      unfold isin in Hv. cbn [existsb] in Hv.
      apply orb_false_elim in Hv as [Hv _]. rewrite Hv.
      now apply (IH (x :: seen)).
Qed.

Lemma unique_aux_complete (xs : list cell) :
  forall seen v, In v xs -> isin (seen ++ unique_aux seen xs) v = true.
Proof.
  unfold isin.
  induction xs as [|x xs IH]; intros seen v; cbn [unique_aux].
  - intros [].
  - intros Hin. rewrite existsb_app.
    assert (Htail : In v xs ->
              existsb (cell_same v) seen
              || existsb (cell_same v)
                   (if isin seen x then unique_aux seen xs
                    else x :: unique_aux (x :: seen) xs) = true).
    { intros Hv. destruct (isin seen x).
      - rewrite <- existsb_app. now apply IH.
      - specialize (IH (x :: seen) v Hv). cbn [app existsb] in IH.
        rewrite existsb_app in IH. cbn [existsb].
        destruct (cell_same v x), (existsb (cell_same v) seen);
          try reflexivity; exact IH. }
    destruct Hin as [<- | Hv]; [|now apply Htail].
    destruct (isin seen x) eqn:E.
    + unfold isin in E. now rewrite E.
    + cbn [existsb]. rewrite cell_same_refl. apply orb_true_r.
Qed.

Section SortedBy.
Context {K A : Type} (lt : K -> K -> bool).
Hypothesis lt_asym : forall a b, lt a b = true -> lt b a = false.

Lemma insert_by_perm (x : K * A) (l : list (K * A)) :
  Permutation (insert_by lt x l) (x :: l).
Proof.
  induction l as [|y l IH]; cbn [insert_by]; [reflexivity|].
  destruct (lt (fst x) (fst y)); [reflexivity|].
  rewrite IH. apply perm_swap.
Qed.

Lemma insert_by_ascending (x : K * A) (l : list (K * A)) :
  ascending lt (map fst l) -> ascending lt (map fst (insert_by lt x l)).
Proof.
  unfold ascending. induction l as [|y l IH]; cbn [insert_by map]; intros Hs.
  - repeat constructor.
  - destruct (lt (fst x) (fst y)) eqn:E; cbn [map].
    + constructor; [exact Hs|]. constructor. now apply lt_asym.
    + apply Sorted_inv in Hs as [Hs Hhd]. constructor; [now apply IH|].
      destruct l as [|z l]; cbn [insert_by map].
      * constructor. exact E.
      * destruct (lt (fst x) (fst z)); cbn [map]; constructor;
          [exact E | now inversion Hhd].
Qed.

Lemma sorted_fold_spec (key : A -> K) (xs : list A) :
  forall acc,
  Forall (fun e => fst e = key (snd e)) acc ->
  ascending lt (map fst acc) ->
  let l := fold_left (fun acc x => insert_by lt (key x, x) acc) xs acc in
  Forall (fun e => fst e = key (snd e)) l
  /\ ascending lt (map fst l)
  /\ Permutation (map snd l) (xs ++ map snd acc).
Proof.
  induction xs as [|x xs IH]; intros acc Hkeys Hasc; cbn [fold_left app].
  - repeat split; [exact Hkeys | exact Hasc | reflexivity].
  - destruct (IH (insert_by lt (key x, x) acc)) as (H1 & H2 & H3).
    + eapply Permutation_Forall;
        [apply Permutation_sym, insert_by_perm|].
      now constructor.
    + now apply insert_by_ascending.
    + repeat split; [exact H1 | exact H2|].
      cbv zeta. rewrite H3. rewrite (Permutation_map snd (insert_by_perm _ _)).
      cbn [map snd]. symmetry. apply Permutation_middle.
Qed.

Lemma sorted_by_perm (key : A -> K) (xs : list A) :
  Permutation (sorted_by lt key xs) xs.
Proof.
  unfold sorted_by.
  destruct (sorted_fold_spec key xs [] (Forall_nil _) (Sorted_nil _))
    as (_ & _ & H).
  cbv zeta in H. rewrite H. cbn [map]. now rewrite app_nil_r.
Qed.

Lemma sorted_by_ascending (key : A -> K) (xs : list A) :
  ascending lt (map key (sorted_by lt key xs)).
Proof.
  unfold sorted_by.
  destruct (sorted_fold_spec key xs [] (Forall_nil _) (Sorted_nil _))
    as (Hk & Hs & _).
  cbv zeta in Hk, Hs.
  set (l := fold_left (fun acc x => insert_by lt (key x, x) acc) xs []) in *.
  rewrite map_map.
  replace (map (fun e => key (snd e)) l) with (map fst l); [exact Hs|].
  clear Hs. induction Hk as [|e l' He _ IH]; [reflexivity|].
  cbn [map]. now rewrite He, IH.
Qed.

End SortedBy.

Lemma float_lt_asym (a b : option Q) :
  float_lt a b = true -> float_lt b a = false.
Proof.
  destruct a as [p|], b as [q|]; cbn [float_lt]; try reflexivity;
    try discriminate.
  intros H. apply Qlt_bool_true in H. apply Qlt_bool_false.
  now apply Qlt_le_weak.
Qed.

Lemma string_ltb_asym (a b : string) :
  String.ltb a b = true -> String.ltb b a = false.
Proof.
  unfold String.ltb. rewrite (String.compare_antisym b a).
  now destruct (String.compare a b).
Qed.

Section UniqueValuesProperties.
Context {pandas : Pandas}.

Lemma numeric_keys_spec (xs : list cell) (ks : list (option Q)) :
  numeric_keys xs = Ok ks ->
  List.length ks = List.length xs
  /\ Forall (fun p => numeric_key (snd p) = Ok (fst p)) (combine ks xs).
Proof.
  revert ks. induction xs as [|x xs IH]; intros ks; cbn [numeric_keys].
  - intros [= <-]. split; [reflexivity | constructor].
  - destruct (numeric_key x) as [k|e] eqn:Ek; [|discriminate]. cbn [bind].
    destruct (numeric_keys xs) as [ks'|e]; [|discriminate]. cbn [bind].
    intros [= <-]. destruct (IH ks' eq_refl) as [Hl Hf].
    split; [cbn [List.length]; now rewrite Hl|].
    cbn [combine]. constructor; [exact Ek | exact Hf].
Qed.

Lemma numeric_keys_of_pairs (ps : list (option Q * cell)) :
  Forall (fun p => numeric_key (snd p) = Ok (fst p)) ps ->
  numeric_keys (map snd ps) = Ok (map fst ps).
Proof.
  induction 1 as [|p ps Hp _ IH]; cbn [map numeric_keys]; [reflexivity|].
  now rewrite Hp, IH.
Qed.

Lemma numeric_keys_raise_perm (xs ys : list cell) (e : error) :
  Permutation xs ys -> numeric_keys xs = Raise e ->
  exists e', numeric_keys ys = Raise e'.
Proof.
  intros Hp Hx. destruct (numeric_keys ys) as [ks|e'] eqn:Hy;
    [|now exists e'].
  exfalso. apply numeric_keys_spec in Hy as [Hl Hf].
  assert (Hall : forall x, In x xs -> exists k, numeric_key x = Ok k).
  { intros x Hin. apply (Permutation_in _ Hp) in Hin.
    destruct (In_nth ys x Null Hin) as (i & Hi & <-).
    exists (nth i ks None).
    rewrite Forall_forall in Hf.
    apply (Hf (nth i ks None, nth i ys Null)).
    rewrite <- combine_nth by exact Hl.
    apply nth_In. rewrite length_combine, Hl. lia. }
  clear -Hx Hall. revert e Hx.
  induction xs as [|x xs IH]; intros e Hx; cbn [numeric_keys] in Hx;
    [discriminate|].
  destruct (Hall x (or_introl eq_refl)) as [k Hk]. rewrite Hk in Hx.
  cbn [bind] in Hx.
  destruct (numeric_keys xs) as [ks|e0]; [discriminate|].
  apply (IH (fun y Hy => Hall y (or_intror Hy)) e0 eq_refl).
Qed.

Lemma sorted_numeric_first_perm (xs : list cell) :
  Permutation (sorted_numeric_first xs) xs.
Proof.
  unfold sorted_numeric_first.
  destruct (numeric_keys xs) as [ks|e] eqn:E.
  - rewrite (Permutation_map snd
               (sorted_by_perm float_lt float_lt_asym fst (combine ks xs))).
    apply numeric_keys_spec in E as [Hl _].
    clear -Hl. revert ks Hl.
    induction xs as [|x xs IH]; intros [|k ks] Hl; try discriminate;
      cbn [combine map snd]; [reflexivity|].
    constructor. apply IH. now injection Hl.
  - apply (sorted_by_perm String.ltb string_ltb_asym).
Qed.

Lemma occurrences_perm (v : cell) (xs ys : list cell) :
  Permutation xs ys -> occurrences v xs = occurrences v ys.
Proof.
  unfold occurrences.
  induction 1 as [|x l l' _ IH|x y l|l l' l'' _ IH1 _ IH2]; cbn [filter].
  - reflexivity.
  - destruct (cell_same v x); cbn [List.length]; now rewrite IH.
  - destruct (cell_same v x), (cell_same v y); reflexivity.
  - now rewrite IH1.
Qed.

(** X10.  The list [get_unique_values] returns for a column holds the values of
    the column and nothing else, without the missing ones, each value
    once -- sorted or not. *)
Theorem get_unique_values_distinct_and_complete (data : DataFrame)
    (column_name : string) (sorted_order : bool) (c : column) :
  find_column column_name data = Some c ->
  let r := get_unique_values data column_name sorted_order in
  (forall v, In v r -> In v (col_values c) /\ is_null v = false)
  /\ (forall v, In v r -> occurrences v r = 1%nat)
  /\ (forall v, In v (col_values c) -> is_null v = false -> isin r v = true).
Proof.
  intros Hc r. subst r. unfold get_unique_values. rewrite Hc.
  set (u := unique (dropna (col_values c))).
  assert (Hp : Permutation
                 (if sorted_order then sorted_numeric_first u else u) u).
  { destruct sorted_order; [apply sorted_numeric_first_perm | reflexivity]. }
  set (r := if sorted_order then sorted_numeric_first u else u) in *.
  repeat split.
  - apply (Permutation_in _ Hp) in H. apply unique_aux_In in H as [H _].
    apply filter_In in H. tauto.
  - apply (Permutation_in _ Hp) in H. apply unique_aux_In in H as [H _].
    apply filter_In in H. destruct H as [_ H]. now apply negb_true_iff in H.
  - intros v Hv. rewrite (occurrences_perm v r u Hp).
    apply unique_aux_once. now apply (Permutation_in _ Hp).
  - intros v Hv Hnn.
    assert (Hu : isin u v = true).
    { apply (unique_aux_complete (dropna (col_values c)) [] v).
      apply filter_In. split; [exact Hv | now rewrite Hnn]. }
    unfold isin in *. apply existsb_exists in Hu as (y & Hy & Hsame).
    apply existsb_exists. exists y. split; [|exact Hsame].
    now apply (Permutation_in _ (Permutation_sym Hp)).
Qed.

(** X11.  With [sorted_order] (the default) the list comes back in
    non-decreasing order of the numeric key when the key of every value
    can be computed, and in non-decreasing order of [str] otherwise. *)
Theorem get_unique_values_ascending (data : DataFrame)
    (column_name : string) :
  let r := get_unique_values data column_name true in
  match numeric_keys r with
  | Ok ks => ascending float_lt ks
  | Raise _ => ascending String.ltb (map py_str r)
  end.
Proof.
  cbv zeta. unfold get_unique_values.
  destruct (find_column column_name data) as [c|];
    [|cbn [numeric_keys]; constructor].
  set (u := unique (dropna (col_values c))).
  pose proof (sorted_numeric_first_perm u) as Hp.
  unfold sorted_numeric_first in *.
  destruct (numeric_keys u) as [ks|e] eqn:E.
  - apply numeric_keys_spec in E as [_ Hf].
    assert (Hf' : Forall (fun p => numeric_key (snd p) = Ok (fst p))
                    (sorted_by float_lt fst (combine ks u))).
    { eapply Permutation_Forall; [|exact Hf].
      apply Permutation_sym, (sorted_by_perm float_lt float_lt_asym). }
    rewrite (numeric_keys_of_pairs _ Hf').
    apply (sorted_by_ascending float_lt float_lt_asym).
  - destruct (numeric_keys_raise_perm u _ e (Permutation_sym Hp) E)
      as [e' ->].
    apply (sorted_by_ascending String.ltb string_ltb_asym).
Qed.

End UniqueValuesProperties.

(** [get_unique_values_distinct_and_complete] on the districts of
    [sample_districts]. *)
Lemma get_unique_values_distinct_and_complete_sample :
  exists c,
    find_column "distrito" sample_districts = Some c
    /\ (forall v, In v (get_unique_values sample_districts "distrito" true) ->
        In v (col_values c) /\ is_null v = false)
    /\ (forall v, In v (get_unique_values sample_districts "distrito" true) ->
        occurrences v (get_unique_values sample_districts "distrito" true)
        = 1%nat)
    /\ (forall v, In v (col_values c) -> is_null v = false ->
        isin (get_unique_values sample_districts "distrito" true) v = true).
Proof.
  eexists. split; [reflexivity|].
  exact (get_unique_values_distinct_and_complete sample_districts
           "distrito" true _ eq_refl).
Defined.

(** ** Similar sectors: the groups are disjoint and gathered around a seed *)

Section SimilarGroupsFacts.
Context {difflib : Difflib} (self : SectorSimilarityDetector).

Lemma similar_fold_spec (sector1 : string) (rest : list string) :
  forall group processed group' processed',
  fold_left (similar_step self sector1) rest (group, processed)
  = (group', processed') ->
  exists added,
    group' = group ++ added
    /\ (forall s, In s processed' <-> In s processed \/ In s added)
    /\ Forall (fun s => In s rest /\ ~ In s processed
                        /\ meets_threshold self sector1 s) added
    /\ NoDup added.
Proof.
  induction rest as [|sector2 rest IH];
    intros group processed group' processed'; cbn [fold_left].
  - intros [= <- <-]. exists []. rewrite app_nil_r.
    split; [reflexivity|]. split; [cbn [In]; tauto|].
    split; constructor.
  - cbn [similar_step].
    destruct (mem_string sector2 processed) eqn:Hmem.
    { intros H. destruct (IH _ _ _ _ H) as (added & H1 & H2 & H3 & H4).
      exists added. repeat split; try assumption; try apply H2.
      eapply Forall_impl; [|exact H3]. cbv beta.
      intros s (Hs & Hn & Ht). repeat split; [now right | | ]; assumption. }
    destruct (Qle_bool (similarity_threshold self)
                (calculate_similarity sector1 sector2)) eqn:Hsim.
    + intros H. destruct (IH _ _ _ _ H) as (added & H1 & H2 & H3 & H4).
      exists (sector2 :: added).
      split; [now rewrite H1, <- app_assoc|].
      split; [|split].
      * intros s. rewrite H2. cbn [In]. tauto.
      * constructor.
        -- split; [now left|]. split; [|exact Hsim].
           now apply mem_string_false.
        -- eapply Forall_impl; [|exact H3]. cbv beta.
           intros s (Hs & Hn & Ht).
           split; [now right|]. split; [|exact Ht].
           intros Hin. apply Hn. now right.
      * constructor; [|exact H4]. intros Hin.
        rewrite Forall_forall in H3. destruct (H3 _ Hin) as (_ & Hn & _).
        apply Hn. now left.
    + intros H. destruct (IH _ _ _ _ H) as (added & H1 & H2 & H3 & H4).
      exists added. repeat split; try assumption; try apply H2.
      eapply Forall_impl; [|exact H3]. cbv beta.
      intros s (Hs & Hn & Ht). repeat split; [now right | | ]; assumption.
Qed.

Lemma first_shortest_In (k : string) (group : list string) :
  first_shortest k group -> In k group.
Proof.
  intros (before & after & -> & _). apply in_app_iff. right. now left.
Qed.

Lemma similar_groups_loop_partition (all : list string)
    (sectors : list string) :
  forall processed groups,
  (forall s, In s sectors -> In s all) ->
  Forall (fun e => Forall (fun s => In s processed) (snd e)) groups ->
  NoDup (List.concat (map snd groups)) ->
  NoDup (map fst groups) ->
  Forall (fun e => In (fst e) (snd e)
                   /\ (forall s, In s (snd e) -> In s all)
                   /\ seeded self (snd e)) groups ->
  let R := similar_groups_loop self sectors processed groups in
  NoDup (List.concat (map snd R))
  /\ NoDup (map fst R)
  /\ Forall (fun e => In (fst e) (snd e)
                      /\ (forall s, In s (snd e) -> In s all)
                      /\ seeded self (snd e)) R.
Proof.
  induction sectors as [|sector1 rest IH];
    intros processed groups Hall Hproc Hmem Hkeys Hgroups;
    cbn [similar_groups_loop].
  - cbv zeta. auto.
  - assert (Hrest : forall s, In s rest -> In s all)
      by (intros s Hs; apply Hall; now right).
    destruct (mem_string sector1 processed) eqn:Hseen; [now apply IH|].
    apply mem_string_false in Hseen.
    destruct (fold_left (similar_step self sector1) rest
                ([sector1], sector1 :: processed))
      as [group processed'] eqn:Hfold.
    destruct (similar_fold_spec _ _ _ _ _ _ Hfold)
      as (added & Hgroup & Hproc' & Hadded & Hnodup).
    cbn [app] in Hgroup. rewrite Forall_forall in Hadded.
    assert (Hmono : forall s, In s processed -> In s processed').
    { intros s Hs. apply Hproc'. left. now right. }
    assert (Hold : Forall (fun e => Forall (fun s => In s processed') (snd e))
                     groups).
    { eapply Forall_impl; [|exact Hproc]. cbv beta. intros e He.
      eapply Forall_impl; [|exact He]. exact Hmono. }
    assert (Hnew : forall s, In s group -> ~ In s processed).
    { intros s Hs. rewrite Hgroup in Hs. destruct Hs as [<- | Hs];
        [exact Hseen|].
      destruct (Hadded _ Hs) as (_ & Hn & _). intros Hin. apply Hn.
      now right. }
    destruct (1 <? List.length group)%nat eqn:Hlen;
      [|now apply IH].
    apply Nat.ltb_lt in Hlen.
    pose proof (first_shortest_In _ _ (min_by_len_spec group Hlen)) as Hkey.
    assert (Hfresh : dict_has (min_by_len group) groups = false).
    { apply mem_string_false. intros Hin.
      apply in_map_iff in Hin as (e & He & Hin).
      rewrite Forall_forall in Hgroups, Hproc.
      destruct (Hgroups _ Hin) as (Hk & _).
      pose proof (Hproc _ Hin) as Hp. rewrite Forall_forall in Hp.
      apply (Hnew _ Hkey). apply Hp. now rewrite <- He. }
    rewrite (dict_set_fresh _ _ _ Hfresh).
    apply IH; try exact Hrest.
    + apply Forall_app. split; [exact Hold|]. constructor; [|constructor].
      cbn [snd]. apply Forall_forall. intros s Hs. apply Hproc'.
      rewrite Hgroup in Hs. destruct Hs as [<- | Hs];
        [left; now left | now right].
    + rewrite map_app, List.concat_app. cbn [map List.concat snd].
      rewrite app_nil_r. apply NoDup_app; [exact Hmem | |].
      * rewrite Hgroup. constructor; [|exact Hnodup].
        intros Hin. destruct (Hadded _ Hin) as (_ & Hn & _).
        apply Hn. now left.
      * intros s Hs Hin. apply (Hnew _ Hin).
        apply in_concat in Hs as (g & Hg & Hs).
        apply in_map_iff in Hg as (e & <- & He).
        rewrite Forall_forall in Hproc. pose proof (Hproc _ He) as Hp.
        rewrite Forall_forall in Hp. now apply Hp.
    + rewrite map_app. cbn [map fst]. apply NoDup_app; [exact Hkeys | |].
      * constructor; [intros [] | constructor].
      * intros k Hk [<- | []]. apply mem_string_false in Hfresh.
        now apply Hfresh.
    + apply Forall_app. split; [exact Hgroups|]. constructor; [|constructor].
      cbn [fst snd]. split; [exact Hkey|]. split.
      * intros s Hs. rewrite Hgroup in Hs. destruct Hs as [<- | Hs].
        -- apply Hall. now left.
        -- apply Hrest. now destruct (Hadded _ Hs) as (Hr & _).
      * exists sector1, added. split; [exact Hgroup|].
        apply Forall_forall. intros s Hs.
        now destruct (Hadded _ Hs) as (_ & _ & Ht).
Qed.

(** X12.  The groups [find_similar_sectors] reports are disjoint: no label is
    in two groups or twice in one, and no two groups are filed under the
    same key, so no group is overwritten.  Every member of a group is a
    label of the list given and is not blank, and every member but the
    first meets the threshold against the first -- not necessarily
    against the others, nor against the key. *)
Theorem similar_groups_partition (sectors_list : list string) :
  let R := find_similar_sectors self sectors_list in
  NoDup (List.concat (map snd R))
  /\ NoDup (map fst R)
  /\ Forall (fun e =>
               In (fst e) (snd e)
               /\ (forall s, In s (snd e) ->
                             In s sectors_list /\ non_blank s = true)
               /\ seeded self (snd e)) R.
Proof.
  cbv zeta. unfold find_similar_sectors. fold non_blank.
  destruct (List.length (filter non_blank sectors_list) <? 2)%nat.
  { repeat split; constructor. }
  destruct (similar_groups_loop_partition
              (filter non_blank sectors_list)
              (filter non_blank sectors_list) [] []
              (fun s H => H) (Forall_nil _) (NoDup_nil _) (NoDup_nil _)
              (Forall_nil _))
    as (H1 & H2 & H3).
  split; [exact H1|]. split; [exact H2|].
  eapply Forall_impl; [|exact H3]. cbv beta.
  intros e (Hk & Hall & Hseed). split; [exact Hk|]. split; [|exact Hseed].
  intros s Hs. apply Hall in Hs. now apply filter_In in Hs.
Qed.

End SimilarGroupsFacts.

(** ** Normalised sector names are in normal form *)

Lemma upper_ascii_not_lower (a : ascii) : is_lower (upper_ascii a) = false.
Proof.
  destruct a as [[|] [|] [|] [|] [|] [|] [|] [|]]; reflexivity.
Qed.

Lemma is_space_space : is_space " "%char = true.
Proof. reflexivity. Qed.

Lemma collapse_spaces_head (a : ascii) (cs : list ascii) :
  is_space a = false -> collapse_spaces (a :: cs) = a :: collapse_spaces cs.
Proof. intros H. cbn [collapse_spaces]. now rewrite H. Qed.

Lemma collapse_spaces_forall (Q : ascii -> bool) (cs : list ascii) :
  Q " "%char = true ->
  (forall a, In a cs -> is_space a = false -> Q a = true) ->
  forallb Q (collapse_spaces cs) = true.
Proof.
  intros Hsp. induction cs as [|a cs IH]; intros H; [reflexivity|].
  assert (IH' : forallb Q (collapse_spaces cs) = true)
    by (apply IH; intros b Hb; apply H; now right).
  cbn [collapse_spaces]. destruct (is_space a) eqn:Ea.
  - destruct cs as [|b cs]; [cbn [forallb]; now rewrite Hsp|].
    destruct (is_space b); [exact IH'|].
    cbn [forallb]. now rewrite Hsp, IH'.
  - cbn [forallb]. rewrite IH'. rewrite (H a (or_introl eq_refl) Ea).
    reflexivity.
Qed.

Lemma single_spaced_cons (a b : ascii) (cs : list ascii) :
  single_spaced (a :: b :: cs)
  = negb (is_space a && is_space b) && single_spaced (b :: cs).
Proof. reflexivity. Qed.

Lemma collapse_spaces_single (cs : list ascii) :
  single_spaced (collapse_spaces cs) = true.
Proof.
  induction cs as [|a cs IH]; [reflexivity|].
  destruct cs as [|b cs].
  { cbn [collapse_spaces]. now destruct (is_space a). }
  destruct (is_space a) eqn:Ea.
  - change (collapse_spaces (a :: b :: cs))
      with (if is_space a
            then if is_space b then collapse_spaces (b :: cs)
                 else " "%char :: collapse_spaces (b :: cs)
            else a :: collapse_spaces (b :: cs)).
    rewrite Ea. destruct (is_space b) eqn:Eb; [exact IH|].
    rewrite (collapse_spaces_head b cs Eb) in *.
    rewrite single_spaced_cons, Eb, andb_false_r. exact IH.
  - rewrite (collapse_spaces_head a _ Ea).
    destruct (collapse_spaces (b :: cs)) as [|c cs'] eqn:Ec; [reflexivity|].
    rewrite single_spaced_cons, Ea. exact IH.
Qed.

(** X13.  The normalised form of a sector name holds no lower-case ASCII
    letter and no punctuation -- only word characters and single blanks --
    and never two white-space characters in a row. *)
Theorem normalize_sector_name_normal_form (sector_name : string) :
  let cs := list_ascii_of_string (normalize_sector_name sector_name) in
  forallb (fun a => (is_word a || Ascii.eqb a " ") && negb (is_lower a)) cs
  = true
  /\ single_spaced cs = true.
Proof.
  cbv zeta. unfold normalize_sector_name.
  destruct (String.eqb sector_name ""); [now split|].
  rewrite list_ascii_of_string_of_list_ascii. split.
  - apply collapse_spaces_forall; [reflexivity|].
    intros a Ha Hsp. apply filter_In in Ha as [Ha Hkeep].
    rewrite Hsp, orb_false_r in Hkeep. rewrite Hkeep. cbn [orb andb].
    apply in_map_iff in Ha as (b & <- & _).
    now rewrite upper_ascii_not_lower.
  - apply collapse_spaces_single.
Qed.

(** ** Cerco effectiveness: the figures stay within their bounds *)

Lemma select_implied {A : Type} (m1 m2 : list bool) (xs : list A) :
  Forall2 (fun a b => a = true -> b = true) m1 (firstn (List.length m1) m2) ->
  (List.length (select m1 xs) <= List.length (select m2 xs))%nat.
Proof.
  revert m2 xs. induction m1 as [|a m1 IH]; intros m2 xs H.
  - cbn [select List.length]. lia.
  - destruct m2 as [|b m2]; [inversion H|].
    cbn [List.length firstn] in H. inversion H as [|? ? ? ? Hab Hrest]; subst.
    destruct xs as [|x xs]; [cbn [select]; destruct a, b; simpl; lia|].
    specialize (IH m2 xs Hrest).
    cbn [select]. destruct a.
    + rewrite (Hab eq_refl). cbn [List.length]. lia.
    + destruct b; cbn [List.length]; lia.
Qed.

Lemma positive_mask_implied (pos att : list cell) :
  Forall2 (fun a b => a = true -> b = true)
    (map (fun pa => cell_eqb (fst pa) (Num 1) && cell_eqb (snd pa) (Num 1))
         (combine pos att))
    (firstn (List.length
               (map (fun pa => cell_eqb (fst pa) (Num 1)
                               && cell_eqb (snd pa) (Num 1))
                    (combine pos att)))
            (map (isin attended) att)).
Proof.
  revert att. induction pos as [|p pos IH]; intros att.
  - cbn [combine map List.length firstn]. constructor.
  - destruct att as [|a att]; [constructor|].
    cbn [combine map List.length firstn fst snd]. constructor; [|apply IH].
    intros H. apply andb_true_iff in H as [_ H].
    unfold isin, attended. cbn [existsb].
    destruct a; cbn [cell_eqb] in H; try discriminate.
    cbn [cell_same cell_eqb]. rewrite H. reflexivity.
Qed.

Lemma effectiveness_bounds (t p : Z) :
  (0 <= p <= t)%Z -> (0 < t)%Z ->
  0 <= inject_Z (t - p) / inject_Z t * 100
  /\ inject_Z (t - p) / inject_Z t * 100 <= 100.
Proof.
  intros Hp Ht.
  assert (Ht' : 0 < inject_Z t)
    by (change 0 with (inject_Z 0); rewrite <- Zlt_Qlt; exact Ht).
  assert (H0 : 0 <= inject_Z (t - p))
    by (change 0 with (inject_Z 0); rewrite <- Zle_Qle; lia).
  assert (H1 : inject_Z (t - p) <= inject_Z t)
    by (rewrite <- Zle_Qle; lia).
  split.
  - apply Qmult_le_0_compat; [|discriminate].
    apply Qle_shift_div_l; [exact Ht'|]. now rewrite Qmult_0_l.
  - setoid_replace 100 with (1 * 100) at 2 by reflexivity.
    apply Qmult_le_compat_r; [|discriminate].
    apply Qle_shift_div_r; [exact Ht'|]. now rewrite Qmult_1_l.
Qed.

Lemma facility_effectiveness_bounds (data : DataFrame) (facility : cell)
    (r : effectiveness) :
  facility_effectiveness data facility = Ok r -> within_bounds r.
Proof.
  unfold facility_effectiveness.
  destruct (get_column "localidad_eess" data) as [eess|]; [|discriminate].
  cbn [bind].
  set (fd := select_rows _ data).
  destruct (if (0 <? py_len fd)%Z then _ else _) as [code|]; [|discriminate].
  cbn [bind].
  destruct (get_column "atencion_vivienda_indicador" fd) as [att|];
    [|discriminate].
  cbn [bind].
  destruct (get_column "viv_positiva" fd) as [pos|]; [|discriminate].
  cbn [bind].
  set (total := py_len (select_rows (map (isin attended) (col_values att)) fd)).
  set (positive := py_len (select_rows _ fd)).
  assert (Hpos : (0 <= positive <= total)%Z).
  { subst positive total. unfold py_len, nrows, select_rows.
    cbn [df_index]. split; [lia|]. apply Nat2Z.inj_le.
    apply select_implied, positive_mask_implied. }
  assert (Hmax : (Z.max 1 positive <> 0)%Z) by lia.
  rewrite (py_truediv_ok total _ Hmax). cbn [bind].
  assert (Heff : exists eff,
            (if (0 <? total)%Z
             then q <- py_truediv (total - positive) total ;; Ok (q * 100)
             else Ok 0) = Ok eff /\ 0 <= eff <= 100).
  { destruct (0 <? total)%Z eqn:Et.
    - apply Z.ltb_lt in Et. rewrite py_truediv_ok by lia. cbn [bind].
      eexists. split; [reflexivity|]. now apply effectiveness_bounds.
    - exists 0. split; [reflexivity|]. split; discriminate. }
  destruct Heff as (eff & -> & Heff). cbn [bind].
  intros [= <-]. unfold within_bounds.
  cbn [positive_houses total_houses effectiveness_percentage
       intervention_score].
  split; [exact Hpos|]. split; [exact Heff|].
  set (x := inject_Z total / inject_Z (Z.max 1 positive) * 2).
  assert (Hx : 0 <= x).
  { subst x. apply Qmult_le_0_compat; [|discriminate].
    apply Qle_shift_div_l.
    - change 0 with (inject_Z 0). rewrite <- Zlt_Qlt. lia.
    - rewrite Qmult_0_l. change 0 with (inject_Z 0).
      rewrite <- Zle_Qle. lia. }
  destruct (Qlt_bool x 10) eqn:E.
  - split; [exact Hx|]. apply Qlt_bool_true in E. now apply Qlt_le_weak.
  - split; discriminate.
Qed.

Lemma for_each_Forall {A B : Type} (f : A -> result B) (P : B -> Prop)
    (xs : list A) :
  (forall x y, f x = Ok y -> P y) ->
  forall ys, for_each f xs = Ok ys -> Forall P ys.
Proof.
  intros Hf. induction xs as [|x xs IH]; intros ys; cbn [for_each].
  - intros [= <-]. constructor.
  - destruct (f x) as [y|] eqn:Ey; [|discriminate]. cbn [bind].
    destruct (for_each f xs) as [ys'|]; [|discriminate]. cbn [bind].
    intros [= <-]. constructor; [now apply (Hf x) | now apply IH].
Qed.

(** X14.  Whatever the view, the figures of every entry that
    [calculate_cerco_effectiveness] returns are within their bounds: the
    positive houses are at most the attended ones, the percentage is
    between 0 and 100, the score between 0 and 10. *)
Theorem cerco_effectiveness_within_bounds (data : DataFrame)
    (rows : list effectiveness) :
  calculate_cerco_effectiveness data = Ok rows ->
  Forall within_bounds rows.
Proof.
  unfold calculate_cerco_effectiveness.
  destruct (df_empty data); [intros [= <-]; constructor|].
  destruct (get_column "localidad_eess" data) as [eess|]; [|discriminate].
  cbn [bind]. apply for_each_Forall.
  intros f r. apply facility_effectiveness_bounds.
Qed.

(** [cerco_effectiveness_within_bounds] on [sample_cerco]. *)
Lemma cerco_effectiveness_within_bounds_sample :
  exists rows,
    calculate_cerco_effectiveness sample_cerco = Ok rows
    /\ Forall within_bounds rows.
Proof.
  destruct (calculate_cerco_effectiveness sample_cerco) as [rows|e] eqn:E;
    [|vm_compute in E; discriminate E].
  exists rows. split; [reflexivity|].
  exact (cerco_effectiveness_within_bounds sample_cerco rows E).
Defined.

(** ** The render guard: how many rows it shows *)

Lemma shrink_between (df : table) (max_memory_mb : Q) (safe_row_count : Z) :
  (shrink df max_memory_mb safe_row_count <= safe_row_count)%Z
  /\ (min_rows <= safe_row_count ->
      min_rows <= shrink df max_memory_mb safe_row_count)%Z.
Proof.
  funelim (shrink df max_memory_mb safe_row_count).
  - pose proof e as e'. apply andb_prop in e' as [_ Hlt].
    apply Z.ltb_lt in Hlt. destruct H as [H1 H2].
    assert (py_int (inject_Z safe_row_count * (75 # 100)) < safe_row_count)%Z.
    { unfold py_int. simpl. apply Z.quot_lt_upper_bound; unfold min_rows in *;
        lia. }
    split; [lia|]. intros _. apply H2. lia.
  - split; [lia | auto].
Qed.

(** X15.  When the guard cuts a table, the number of rows it settles on is at
    most the row ceiling, and at least 50 as soon as the ceiling is. *)
Theorem safe_dataframe_row_count (df : table) (max_rows : Z)
    (max_memory_mb : Q) :
  match safe_dataframe df max_rows max_memory_mb with
  | Head rows | SchemaOnly rows =>
      (rows <= max_rows)%Z /\ (min_rows <= max_rows -> min_rows <= rows)%Z
  | NoData | Full => True
  end.
Proof.
  unfold safe_dataframe.
  destruct ((t_rows df =? 0)%Z || (t_columns df =? 0)%Z); [exact I|].
  cbv zeta.
  destruct ((max_rows <? t_rows df)%Z
            || Qlt_bool max_memory_mb (megabytes (Zpos (t_bytes df))));
    [|exact I].
  match goal with
  | |- context [shrink df max_memory_mb ?s] =>
      set (s0 := s); pose proof (shrink_between df max_memory_mb s0) as [H1 H2]
  end.
  assert (Hs0 : (s0 <= max_rows)%Z
                /\ (min_rows <= max_rows -> min_rows <= s0)%Z).
  { subst s0. unfold min_rows.
    destruct (Qlt_bool max_memory_mb (megabytes (Zpos (t_bytes df)))); lia. }
  destruct (over_margin df max_memory_mb (shrink df max_memory_mb s0));
    (split; [lia | intros H; apply H2; now apply Hs0]).
Qed.

(** ** Dates: the range of the inspection dates and the date filter *)

Lemma fold_min_spec (ts : list Z) :
  forall t,
  In (fold_left Z.min ts t) (t :: ts)
  /\ (forall x, In x (t :: ts) -> (fold_left Z.min ts t <= x)%Z).
Proof.
  induction ts as [|u ts IH]; intros t; cbn [fold_left].
  - split; [now left | intros x [<- | []]; lia].
  - destruct (IH (Z.min t u)) as [Hin Hle]. split.
    + destruct Hin as [Hin | Hin]; [|right; now right].
      rewrite <- Hin. destruct (Z.min_spec t u) as [[_ ->] | [_ ->]];
        [now left | right; now left].
    + intros x Hx.
      assert (Hm : (fold_left Z.min ts (Z.min t u) <= Z.min t u)%Z)
        by (apply Hle; now left).
      destruct Hx as [<- | [<- | Hx]]; [lia | lia |].
      apply Hle. now right.
Qed.

Lemma fold_max_spec (ts : list Z) :
  forall t,
  In (fold_left Z.max ts t) (t :: ts)
  /\ (forall x, In x (t :: ts) -> (x <= fold_left Z.max ts t)%Z).
Proof.
  induction ts as [|u ts IH]; intros t; cbn [fold_left].
  - split; [now left | intros x [<- | []]; lia].
  - destruct (IH (Z.max t u)) as [Hin Hle]. split.
    + destruct Hin as [Hin | Hin]; [|right; now right].
      rewrite <- Hin. destruct (Z.max_spec t u) as [[_ ->] | [_ ->]];
        [right; now left | now left].
    + intros x Hx.
      assert (Hm : (Z.max t u <= fold_left Z.max ts (Z.max t u))%Z)
        by (apply Hle; now left).
      destruct Hx as [<- | [<- | Hx]]; [lia | lia |].
      apply Hle. now right.
Qed.

Lemma date_of_mono (s t : Z) : (s <= t)%Z -> (date_of s <= date_of t)%Z.
Proof.
  intros H. unfold date_of. apply Z.div_le_mono; [reflexivity | exact H].
Qed.

(** When the values that are not missing are all timestamps, every value
    is missing or one of them. *)
Lemma timestamps_dropna (vals : list cell) (ts : list Z) :
  timestamps (dropna vals) = Some ts ->
  forall v, In v vals -> v = Null \/ exists x, v = Date x /\ In x ts.
Proof.
  revert ts. induction vals as [|w vals IH]; intros ts H v Hv;
    [destruct Hv|].
  unfold dropna in H. cbn [filter] in H. fold (dropna vals) in H.
  destruct w as [|s|q|t]; cbn [is_null negb] in H.
  - destruct Hv as [<- | Hv]; [now left | now apply (IH ts)].
  - discriminate.
  - discriminate.
  - cbn [timestamps] in H.
    destruct (timestamps (dropna vals)) as [ts'|] eqn:E; [|discriminate].
    injection H as <-.
    destruct Hv as [<- | Hv].
    + right. exists t. split; [reflexivity | now left].
    + destruct (IH ts' eq_refl v Hv) as [-> | (x & -> & Hx)];
        [now left|]. right. exists x. split; [reflexivity | now right].
Qed.

Lemma timestamps_typed (vals : list cell) :
  forallb (well_typed_cell DDatetime) vals = true ->
  exists ts, timestamps (dropna vals) = Some ts
             /\ List.length ts = List.length (dropna vals).
Proof.
  induction vals as [|w vals IH]; intros H.
  - exists []. now split.
  - cbn [forallb] in H. apply andb_true_iff in H as [Hw H].
    destruct (IH H) as (ts & Hts & Hlen).
    unfold dropna in *. cbn [filter].
    destruct w as [|s|q|t]; try discriminate Hw; cbn [is_null negb].
    + exists ts. now split.
    + exists (t :: ts). cbn [timestamps]. rewrite Hts. cbn [option_map].
      split; [reflexivity|]. cbn [List.length]. now rewrite Hlen.
Qed.

Lemma dropna_nil (vals : list cell) :
  dropna vals = [] -> forallb is_null vals = true.
Proof.
  induction vals as [|w vals IH]; [reflexivity|].
  unfold dropna. cbn [filter forallb].
  destruct (is_null w); cbn [negb andb]; [exact IH | discriminate].
Qed.

Lemma optimize_for_production_well_typed (data : DataFrame) :
  well_typed data = true -> well_typed (optimize_for_production data) = true.
Proof.
  unfold well_typed, optimize_for_production. cbn [df_columns].
  rewrite !forallb_forall. intros H c Hc.
  apply in_map_iff in Hc as (a & <- & Ha). apply filter_In in Ha as [Ha _].
  specialize (H a Ha). unfold categorize.
  destruct (col_dtype a) eqn:E; try exact H.
  destruct (low_cardinality (nrows data) a); [|exact H].
  unfold well_typed_column. cbn [col_dtype col_values].
  rewrite forallb_forall. intros v _. reflexivity.
Qed.

Section DateRange.
Context {pandas : Pandas}.

Lemma typed_by_label_fecha (c : column) :
  col_name c = "fecha_inspeccion" -> typed_by_label c = true ->
  col_dtype c = DDatetime.
Proof.
  intros Hname H. unfold typed_by_label in H. rewrite Hname in H.
  apply andb_true_iff in H as [H _].
  assert (Hmem : mem_string "fecha_inspeccion" date_columns = true)
    by reflexivity.
  rewrite Hmem in H.
  destruct (col_dtype c); [discriminate H | discriminate H | reflexivity
                          | discriminate H].
Qed.

Lemma well_typed_In (df : DataFrame) (c : column) :
  well_typed df = true -> In c (df_columns df) -> well_typed_column c = true.
Proof.
  unfold well_typed. rewrite forallb_forall. intros H Hin. exact (H c Hin).
Qed.

Lemma process_data_fecha (data : DataFrame) (c : column) :
  find_column "fecha_inspeccion" (process_data data) = Some c ->
  col_dtype c = DDatetime
  /\ (well_typed data = true -> well_typed_column c = true).
Proof.
  intros Hc. apply find_column_name in Hc as [Hname Hin]. split.
  - apply (typed_by_label_fecha c Hname).
    pose proof (process_data_typed_by_label data) as H.
    rewrite forallb_forall in H. exact (H c Hin).
  - intros Hwt.
    exact (well_typed_In _ c (process_data_well_typed data Hwt) Hin).
Qed.

Lemma get_date_range_typed (data : DataFrame) (c : column) :
  find_column "fecha_inspeccion" data = Some c ->
  col_dtype c = DDatetime ->
  well_typed_column c = true ->
  exists r,
    get_date_range data = Ok r
    /\ match r with
       | Some (lo, hi) =>
           (lo <= hi)%Z /\ Forall (dated_within lo hi) (col_values c)
       | None => all_null c = true
       end.
Proof.
  intros Hc Hty Hwt. unfold get_date_range. rewrite Hc, Hty. cbv zeta.
  unfold well_typed_column in Hwt. rewrite Hty in Hwt.
  destruct (timestamps_typed _ Hwt) as (ts & Hts & Hlen). rewrite Hts.
  destruct (0 <? List.length (dropna (col_values c)))%nat eqn:E.
  - apply Nat.ltb_lt in E. destruct ts as [|t ts];
      [cbn [List.length] in Hlen; lia|].
    eexists. split; [reflexivity|]. cbv beta iota.
    destruct (fold_min_spec ts t) as [_ Hmin].
    destruct (fold_max_spec ts t) as [_ Hmax].
    split.
    + apply date_of_mono.
      specialize (Hmin t (or_introl eq_refl)).
      specialize (Hmax t (or_introl eq_refl)). lia.
    + apply Forall_forall. intros v Hv.
      destruct (timestamps_dropna _ _ Hts v Hv) as [-> | (x & -> & Hx)];
        [exact I|].
      cbn [dated_within]. split; apply date_of_mono; auto.
  - apply Nat.ltb_ge in E. exists None. split; [reflexivity|].
    apply dropna_nil. destruct (dropna (col_values c)); [reflexivity|].
    cbn [List.length] in E. lia.
Qed.

(** X16.  On the table a processor holds, built from a well-typed input in
    production mode or not, [get_date_range] does not fail.  It gives no
    range when there is no inspection date at all; otherwise it gives a
    first and a last day, the first not after the last, with every
    inspection date in between. *)
Theorem get_date_range_of_processor (is_production : bool)
    (raw : DataFrame) :
  well_typed raw = true ->
  let data := DataProcessor_init is_production raw in
  exists r,
    get_date_range data = Ok r
    /\ match r with
       | Some (lo, hi) =>
           (lo <= hi)%Z
           /\ exists c, find_column "fecha_inspeccion" data = Some c
                        /\ Forall (dated_within lo hi) (col_values c)
       | None =>
           forall c, find_column "fecha_inspeccion" data = Some c ->
                     all_null c = true
       end.
Proof.
  intros Hwt data. subst data. unfold DataProcessor_init.
  set (x := if is_production then optimize_for_production raw else raw).
  assert (Hx : well_typed x = true).
  { subst x. destruct is_production;
      [now apply optimize_for_production_well_typed | exact Hwt]. }
  destruct (find_column "fecha_inspeccion" (process_data x)) as [c|] eqn:Hc.
  - destruct (process_data_fecha x c Hc) as [Hty Hcells].
    destruct (get_date_range_typed _ c Hc Hty (Hcells Hx)) as (r & Hr & Hspec).
    exists r. split; [exact Hr|].
    destruct r as [[lo hi]|].
    + destruct Hspec as [Hle Hall]. split; [exact Hle|]. now exists c.
    + intros c' [= <-]. exact Hspec.
  - exists None. split; [|discriminate].
    unfold get_date_range. now rewrite Hc.
Qed.

End DateRange.

(** [get_date_range_of_processor] on [sample_raw]. *)
Lemma get_date_range_of_processor_sample :
  exists r,
    get_date_range (DataProcessor_init false sample_raw) = Ok r
    /\ match r with
       | Some (lo, hi) =>
           (lo <= hi)%Z
           /\ exists c,
                find_column "fecha_inspeccion"
                  (DataProcessor_init false sample_raw) = Some c
                /\ Forall (dated_within lo hi) (col_values c)
       | None =>
           forall c,
             find_column "fecha_inspeccion"
               (DataProcessor_init false sample_raw) = Some c ->
             all_null c = true
       end.
Proof.
  exact (get_date_range_of_processor false sample_raw eq_refl).
Defined.

(** X17.  The range [get_date_range] gives is the one the date inputs start
    from.  Filtering by it is not neutral: it keeps the rows that have an
    inspection date and drops those that have none. *)
Theorem full_date_range_keeps_dated_rows (data : DataFrame) (c : column)
    (r : Z * Z) :
  find_column "fecha_inspeccion" data = Some c ->
  col_dtype c = DDatetime ->
  get_date_range data = Ok (Some r) ->
  apply_date_filter data (Some r)
  = Ok (select_rows (map (fun v => negb (is_null v)) (col_values c)) data).
Proof.
  intros Hc Hty Hr. destruct r as [lo hi].
  unfold apply_date_filter, get_column.
  assert (Hhas : has_column "fecha_inspeccion" data = true)
    by (apply has_column_find; now exists c).
  rewrite Hhas, Hc. cbn [bind]. rewrite Hty. do 2 f_equal.
  unfold get_date_range in Hr. rewrite Hc, Hty in Hr. cbv zeta in Hr.
  destruct (0 <? List.length (dropna (col_values c)))%nat; [|discriminate].
  destruct (timestamps (dropna (col_values c))) as [[|t ts]|] eqn:Hts;
    try discriminate.
  2: { destruct (one_kind (dropna (col_values c))); discriminate. }
  injection Hr as <- <-.
  destruct (fold_min_spec ts t) as [_ Hmin].
  destruct (fold_max_spec ts t) as [_ Hmax].
  apply map_ext_in. intros v Hv.
  destruct (timestamps_dropna _ _ Hts v Hv) as [-> | (x & -> & Hx)];
    [reflexivity|].
  cbn [in_date_range is_null negb]. apply andb_true_iff.
  split; apply Z.leb_le, date_of_mono; auto.
Qed.

(** [full_date_range_keeps_dated_rows] on [sample_dated]: the visit
    without a date goes. *)
Lemma full_date_range_keeps_dated_rows_sample :
  apply_date_filter sample_dated (Some (19675, 19678)%Z)
  = Ok (select_rows [true; false; true] sample_dated).
Proof.
  exact (full_date_range_keeps_dated_rows sample_dated
           (mkColumn "fecha_inspeccion" DDatetime
              [Date 1700000000000000000; Null; Date 1700200000000000000])
           (19675, 19678)%Z eq_refl eq_refl eq_refl).
Defined.

Lemma in_date_range_both (a b a' b' : Z) (v : cell) :
  in_date_range a b v && in_date_range a' b' v
  = in_date_range (Z.max a a') (Z.min b b') v.
Proof.
  destruct v as [|s|q|t]; try reflexivity. cbn [in_date_range].
  destruct (a <=? date_of t)%Z eqn:E1, (date_of t <=? b)%Z eqn:E2,
           (a' <=? date_of t)%Z eqn:E3, (date_of t <=? b')%Z eqn:E4,
           (Z.max a a' <=? date_of t)%Z eqn:E5,
           (date_of t <=? Z.min b b')%Z eqn:E6;
    try reflexivity; exfalso;
    rewrite ?Z.leb_le, ?Z.leb_gt in *; lia.
Qed.

Lemma map_combine_same {A B : Type} (f : A * A -> B) (xs : list A) :
  map f (combine xs xs) = map (fun x => f (x, x)) xs.
Proof.
  induction xs as [|x xs IH]; [reflexivity|]. cbn [combine map].
  now rewrite IH.
Qed.

(** X18.  Filtering a date-filtered view by a second range is filtering the
    data once by the intersection of the two ranges. *)
Theorem date_filters_intersect (data view : DataFrame)
    (a b a' b' : Z) :
  apply_date_filter data (Some (a, b)) = Ok view ->
  apply_date_filter view (Some (a', b'))
  = apply_date_filter data (Some (Z.max a a', Z.min b b')).
Proof.
  unfold apply_date_filter, get_column.
  destruct (has_column "fecha_inspeccion" data) eqn:Hhas.
  - apply has_column_find in Hhas as [c Hc]. rewrite Hc. cbn [bind].
    destruct (col_dtype c) eqn:Hty; try discriminate.
    intros [= <-].
    rewrite select_rows_has.
    assert (Hhas : has_column "fecha_inspeccion" data = true)
      by (apply has_column_find; now exists c).
    rewrite Hhas, select_rows_find, Hc. cbn [option_map bind col_dtype].
    rewrite Hty. cbn [col_values]. f_equal.
    rewrite <- select_map, select_rows_select_rows, and_mask_map.
    f_equal. rewrite map_combine_same. apply map_ext. intros v.
    cbn [fst snd]. apply in_date_range_both.
  - intros [= <-]. now rewrite Hhas.
Qed.

(** [date_filters_intersect] on [sample_dated]. *)
Lemma date_filters_intersect_sample :
  apply_date_filter (select_rows [true; false; false] sample_dated)
    (Some (19000, 19675)%Z)
  = apply_date_filter sample_dated
      (Some (Z.max 19675 19000, Z.min 19676 19675)%Z).
Proof.
  exact (date_filters_intersect sample_dated _ 19675 19676 19000 19675
           eq_refl).
Defined.

(** ** The options of the sector filter *)

Lemma first_occurrences_In (xs : list string) :
  forall seen x,
  In x (first_occurrences seen xs) <-> In x xs /\ ~ In x seen.
Proof.
  induction xs as [|y xs IH]; intros seen x; cbn [first_occurrences].
  - cbn [In]. tauto.
  - destruct (mem_string y seen) eqn:E.
    + apply mem_string_In in E. rewrite IH. cbn [In]. split.
      * intros [H1 H2]. auto.
      * intros [[<- | H1] H2]; [contradiction | auto].
    + apply mem_string_false in E. cbn [In]. rewrite IH. cbn [In]. split.
      * intros [<- | [H1 H2]]; [auto|]. split; [now right|].
        intros H. apply H2. now right.
      * intros [[<- | H1] H2]; [now left|].
        destruct (string_dec y x) as [-> | Hne]; [now left|].
        right. split; [exact H1|]. intros [H | H]; contradiction.
Qed.

Lemma first_occurrences_NoDup (xs : list string) :
  forall seen, NoDup (first_occurrences seen xs).
Proof.
  induction xs as [|y xs IH]; intros seen; cbn [first_occurrences].
  - constructor.
  - destruct (mem_string y seen); [apply IH|].
    constructor; [|apply IH].
    intros H. apply first_occurrences_In in H as [_ H]. apply H. now left.
Qed.

Lemma string_ltb_total (a b : string) :
  String.ltb b a = false -> a <> b -> String.ltb a b = true.
Proof.
  unfold String.ltb. rewrite (String.compare_antisym b a).
  destruct (String.compare a b) eqn:E; cbn [CompOpp]; intros H Hne.
  - apply String.compare_eq_iff in E. congruence.
  - reflexivity.
  - discriminate H.
Qed.

Lemma ascending_strict (xs : list string) :
  ascending String.ltb xs -> NoDup xs -> strictly_ascending xs.
Proof.
  unfold ascending, strictly_ascending.
  induction xs as [|a xs IH]; intros Hs Hnd; [constructor|].
  apply Sorted_inv in Hs as [Hs Hhd].
  inversion Hnd as [|? ? Hnotin Hnd']; subst.
  constructor; [now apply IH|].
  destruct xs as [|b xs]; constructor.
  apply string_ltb_total; [now inversion Hhd|].
  intros ->. apply Hnotin. now left.
Qed.

Lemma sorted_set_perm (xs : list string) :
  Permutation (sorted_set xs) (first_occurrences [] xs).
Proof. apply (sorted_by_perm String.ltb string_ltb_asym). Qed.

Lemma sorted_set_In (xs : list string) (x : string) :
  In x (sorted_set xs) <-> In x xs.
Proof.
  split.
  - intros H. apply (Permutation_in _ (sorted_set_perm xs)) in H.
    now apply first_occurrences_In in H.
  - intros H.
    apply (Permutation_in _ (Permutation_sym (sorted_set_perm xs))).
    apply first_occurrences_In. split; [exact H | intros []].
Qed.

Lemma sorted_set_strict (xs : list string) :
  strictly_ascending (sorted_set xs).
Proof.
  apply ascending_strict.
  - pose proof (sorted_by_ascending String.ltb string_ltb_asym
                  (fun s : string => s) (first_occurrences [] xs)) as H.
    rewrite map_id in H. exact H.
  - eapply Permutation_NoDup;
      [apply Permutation_sym, sorted_set_perm|].
    apply first_occurrences_NoDup.
Qed.

(** X19.  The options of the sector filter come in strictly increasing order,
    so none is offered twice; and they are the names under which the
    sectors that are not blank are offered: the name the mapping gives to
    the sector, and the sector itself without a mapping or when the
    mapping has no entry for it. *)
Theorem sector_filter_options_spec (sectors_list : list string)
    (unification_mapping : option (dict string)) :
  let options := get_sector_filter_options sectors_list unification_mapping in
  strictly_ascending options
  /\ (forall o,
        In o options
        <-> exists s, In s sectors_list /\ non_blank s = true
                      /\ o = offered_name unification_mapping s).
Proof.
  cbv zeta. unfold get_sector_filter_options. fold non_blank.
  split; [apply sorted_set_strict|].
  intros o. rewrite sorted_set_In.
  assert (Hplain : In o (filter non_blank sectors_list)
                   <-> exists s, In s sectors_list /\ non_blank s = true
                                 /\ o = s).
  { rewrite filter_In. split.
    - intros [H1 H2]. now exists o.
    - intros (s & H1 & H2 & ->). now split. }
  destruct unification_mapping as [[|kv m]|]; cbn [offered_name].
  - exact Hplain.
  - rewrite in_map_iff. split.
    + intros (s & <- & Hs). apply filter_In in Hs as [H1 H2]. exists s.
      split; [exact H1 | split; [exact H2 | reflexivity]].
    + intros (s & H1 & H2 & ->). exists s. split; [reflexivity|].
      apply filter_In. now split.
  - exact Hplain.
Qed.

(** ** Similar sectors, province by province *)

Lemma dict_set_keys {V : Type} (k : string) (v : V) (d : dict V) :
  map fst (dict_set k v d)
  = if dict_has k d then map fst d else map fst d ++ [k].
Proof.
  unfold dict_has, mem_string.
  induction d as [|[k' v'] d IH]; cbn [dict_set map fst existsb app];
    [reflexivity|].
  rewrite (String.eqb_sym k k').
  destruct (String.eqb k' k) eqn:E; cbn [orb map fst].
  - apply String.eqb_eq in E. now subst k'.
  - rewrite IH. now destruct (existsb (String.eqb k) (map fst d)).
Qed.

Lemma dict_set_NoDup {V : Type} (k : string) (v : V) (d : dict V) :
  NoDup (map fst d) -> NoDup (map fst (dict_set k v d)).
Proof.
  intros H. rewrite dict_set_keys. destruct (dict_has k d) eqn:E;
    [exact H|].
  apply NoDup_app; [exact H | repeat constructor; intros [] |].
  intros x Hx [<- | []]. apply mem_string_false in E. now apply E.
Qed.

Lemma text_values_combine (pv sv : list cell)
    (ps ss : list (option string)) (p s : string) :
  text_values pv = Some ps -> text_values sv = Some ss ->
  In (Some p, Some s) (combine ps ss) -> In (Str p, Str s) (combine pv sv).
Proof.
  revert sv ps ss. induction pv as [|c pv IH]; intros sv ps ss Hp Hs Hin.
  - injection Hp as <-. destruct Hin.
  - cbn [text_values] in Hp.
    destruct (text_of c) as [t|] eqn:Et; [|discriminate].
    destruct (text_values pv) as [ts|] eqn:Ets; [|discriminate].
    injection Hp as <-.
    destruct sv as [|d sv].
    + injection Hs as <-. destruct Hin.
    + cbn [text_values] in Hs.
      destruct (text_of d) as [u|] eqn:Eu; [|discriminate].
      destruct (text_values sv) as [us|] eqn:Eus; [|discriminate].
      injection Hs as <-. cbn [combine] in *.
      destruct Hin as [Heq | Hin].
      * left. injection Heq as -> ->.
        destruct c; try discriminate Et. destruct d; try discriminate Eu.
        cbn [text_of] in Et, Eu. congruence.
      * right. now apply (IH sv ts us).
Qed.

Lemma sectors_of_province_In
    (rows : list (option string * option string)) (p s : string) :
  In s (sectors_of_province rows p) -> In (Some p, Some s) rows.
Proof.
  unfold sectors_of_province. intros H.
  apply first_occurrences_In in H as [H _].
  apply in_flat_map in H as ([[q|] [t|]] & Hrow & Hs); try destruct Hs.
  destruct (String.eqb q p) eqn:E; [|destruct Hs].
  apply String.eqb_eq in E. destruct Hs as [<- | []]. now subst q.
Qed.

Section SimilarByProvinceFacts.
Context {difflib : Difflib} (self : SectorSimilarityDetector).

Lemma find_similar_sectors_members (sectors_list : list string)
    (k : string) (members : list string) (s : string) :
  In (k, members) (find_similar_sectors self sectors_list) ->
  In s members -> In s sectors_list.
Proof.
  unfold find_similar_sectors. fold non_blank.
  destruct (List.length (filter non_blank sectors_list) <? 2)%nat;
    [intros []|].
  destruct (similar_groups_loop_partition self
              (filter non_blank sectors_list)
              (filter non_blank sectors_list) [] []
              (fun s H => H) (Forall_nil _) (NoDup_nil _) (NoDup_nil _)
              (Forall_nil _))
    as (_ & _ & H).
  rewrite Forall_forall in H. intros Hin Hs.
  destruct (H _ Hin) as (_ & Hall & _).
  apply Hall in Hs. now apply filter_In in Hs.
Qed.

Lemma similar_by_province_fold
    (rows : list (option string * option string)) (keys : list string) :
  forall acc,
  NoDup (map fst acc) ->
  Forall (fun entry =>
            snd entry <> []
            /\ forall k members s,
                 In (k, members) (snd entry) -> In s members ->
                 In (Some (fst entry), Some s) rows) acc ->
  let R := fold_left (similar_by_province_step self rows) keys acc in
  NoDup (map fst R)
  /\ Forall (fun entry =>
               snd entry <> []
               /\ forall k members s,
                    In (k, members) (snd entry) -> In s members ->
                    In (Some (fst entry), Some s) rows) R.
Proof.
  induction keys as [|p keys IH]; intros acc Hnd Hacc; cbn [fold_left].
  - now split.
  - apply IH.
    + unfold similar_by_province_step. cbv zeta.
      destruct (List.length (sectors_of_province rows p) <? 2)%nat;
        [exact Hnd|].
      destruct (find_similar_sectors self (sectors_of_province rows p));
        [exact Hnd | now apply dict_set_NoDup].
    + unfold similar_by_province_step. cbv zeta.
      destruct (List.length (sectors_of_province rows p) <? 2)%nat;
        [exact Hacc|].
      destruct (find_similar_sectors self (sectors_of_province rows p))
        as [|g gs] eqn:E; [exact Hacc|].
      apply dict_set_Forall; [|exact Hacc]. cbn [fst snd].
      split; [discriminate|].
      intros k members s Hin Hs. apply sectors_of_province_In.
      rewrite <- E in Hin.
      exact (find_similar_sectors_members _ k members s Hin Hs).
Qed.

(** X20.  The groups reported for a province hold only sectors of that
    province: every member of a group filed under province [p] is the
    sector of some row whose province is [p].  A province is listed once,
    and only when a group was found in it. *)
Theorem similar_groups_within_province (data_df : DataFrame)
    (sector_col province_col : string) (R : dict (dict (list string))) :
  find_similar_sectors_by_province self data_df sector_col province_col
  = Some R ->
  NoDup (map fst R)
  /\ Forall (fun entry =>
               snd entry <> []
               /\ forall k members s,
                    In (k, members) (snd entry) -> In s members ->
                    occurs_in_province data_df sector_col province_col
                                       (fst entry) s) R.
Proof.
  unfold find_similar_sectors_by_province.
  destruct (df_empty data_df || negb (has_column sector_col data_df)
            || negb (has_column province_col data_df)).
  { intros [= <-]. split; constructor. }
  destruct (find_column province_col data_df) as [provinces|] eqn:Hp;
    [|intros [= <-]; split; constructor].
  destruct (find_column sector_col data_df) as [sectors|] eqn:Hs;
    [|intros [= <-]; split; constructor].
  destruct (text_values (col_values provinces)) as [ps|] eqn:Eps;
    [|discriminate].
  destruct (text_values (col_values sectors)) as [ss|] eqn:Ess;
    [|discriminate].
  intros [= <-].
  destruct (similar_by_province_fold (combine ps ss) (province_keys ps) []
              (NoDup_nil _) (Forall_nil _)) as [H1 H2].
  split; [exact H1|].
  eapply Forall_impl; [|exact H2]. cbv beta.
  intros entry [Hne Hall]. split; [exact Hne|].
  intros k members s Hin Hm. exists provinces, sectors.
  split; [exact Hp|]. split; [exact Hs|].
  apply (text_values_combine _ _ ps ss); try assumption.
  now apply (Hall k members s).
Qed.

End SimilarByProvinceFacts.

(** [similar_groups_within_province] on [sample_sectors]. *)
Lemma similar_groups_within_province_sample :
  exists R,
    find_similar_sectors_by_province default_detector sample_sectors
      "sector" "nombre_prov" = Some R
    /\ NoDup (map fst R)
    /\ Forall (fun entry =>
                 snd entry <> []
                 /\ forall k members s,
                      In (k, members) (snd entry) -> In s members ->
                      occurs_in_province sample_sectors "sector" "nombre_prov"
                                         (fst entry) s) R.
Proof.
  eexists. split; [reflexivity|].
  exact (similar_groups_within_province default_detector sample_sectors
           "sector" "nombre_prov" _ eq_refl).
Defined.

(** ** The date filter after the other filters *)

Lemma shape_find_dtype (name : string) (a b : DataFrame) :
  shape a = shape b ->
  option_map col_dtype (find_column name a)
  = option_map col_dtype (find_column name b).
Proof.
  unfold shape, find_column.
  generalize (df_columns a) (df_columns b). clear a b.
  induction l as [|x l IH]; intros [|y l'] H; try discriminate H;
    [reflexivity|].
  cbn [map] in H. injection H as Hn Hd Hl. cbn [find].
  rewrite Hn. destruct (String.eqb (col_name y) name).
  - cbn [option_map]. now rewrite Hd.
  - now apply IH.
Qed.

Lemma filtered_view_shape (data view : DataFrame)
    (activity_type : option string) (filters : option (dict filter_value)) :
  get_filtered_data data activity_type filters = Ok view ->
  shape view = shape data.
Proof.
  unfold get_filtered_data.
  destruct (unify_stage data filters) as [u|e] eqn:Hu; [|discriminate].
  cbn [bind].
  destruct (activity_stage u activity_type) as [a|e] eqn:Ha; [|discriminate].
  cbn [bind]. intros Hf.
  apply filters_stage_restriction, restriction_shape in Hf.
  apply activity_stage_restriction, restriction_shape in Ha.
  apply unify_stage_shape in Hu as [Hu _]. congruence.
Qed.

Section DateFilterAfterFilters.
Context {pandas : Pandas}.

(** X21.  A view that [get_filtered_data] returns for a processor's table can
    always be filtered by date: the inspection date, when the table has
    one, is still a datetime column, so the date filter does not fail,
    and what it returns is a restriction of the view. *)
Theorem date_filter_after_filters_succeeds (is_production : bool)
    (raw view : DataFrame) (activity_type : option string)
    (filters : option (dict filter_value)) (date_range : option (Z * Z)) :
  get_filtered_data (DataProcessor_init is_production raw)
                    activity_type filters = Ok view ->
  exists dated,
    apply_date_filter view date_range = Ok dated /\ restriction dated view.
Proof.
  intros Hview. apply filtered_view_shape in Hview.
  apply (shape_find_dtype "fecha_inspeccion") in Hview.
  unfold DataProcessor_init in Hview.
  set (x := if is_production then optimize_for_production raw else raw) in *.
  unfold apply_date_filter.
  destruct date_range as [[a b]|];
    [|exists view; split; [reflexivity | apply restriction_refl]].
  destruct (has_column "fecha_inspeccion" view) eqn:Hhas;
    [|exists view; split; [reflexivity | apply restriction_refl]].
  apply has_column_find in Hhas as [c Hc]. unfold get_column.
  rewrite Hc in *. cbn [bind option_map] in *.
  destruct (find_column "fecha_inspeccion" (process_data x)) as [f|] eqn:Hf;
    [|discriminate Hview].
  destruct (process_data_fecha x f Hf) as [Hty _].
  cbn [option_map] in Hview. injection Hview as Hview.
  rewrite Hview, Hty. eexists. split; [reflexivity|].
  apply restriction_select.
Qed.

End DateFilterAfterFilters.

(** [date_filter_after_filters_succeeds] on [sample_raw]. *)
Lemma date_filter_after_filters_succeeds_sample :
  exists dated,
    apply_date_filter (DataProcessor_init false sample_raw)
                      (Some (19675, 19675)%Z) = Ok dated
    /\ restriction dated (DataProcessor_init false sample_raw).
Proof.
  exact (date_filter_after_filters_succeeds false sample_raw
           (DataProcessor_init false sample_raw) None None
           (Some (19675, 19675)%Z) eq_refl).
Defined.

(** ** Unification by province: what the rows of a province become *)

Lemma scatter_map_select {A : Type} (f : A -> A) (mask : list bool)
    (xs : list A) :
  List.length mask = List.length xs ->
  scatter mask xs (map f (select mask xs))
  = map (fun bx : bool * A => if fst bx then f (snd bx) else snd bx)
        (combine mask xs).
Proof.
  revert xs. induction mask as [|b mask IH]; intros [|x xs] H;
    cbn [List.length] in H; try discriminate H; [reflexivity|].
  injection H as H. destruct b; cbn [select map scatter combine fst snd];
    now rewrite IH.
Qed.

Lemma map_combine_map {A B C D : Type} (g : A -> B) (h : B * C -> D)
    (xs : list A) (ys : list C) :
  map h (combine (map g xs) ys)
  = map (fun r => h (g (fst r), snd r)) (combine xs ys).
Proof.
  revert ys. induction xs as [|x xs IH]; intros [|y ys];
    cbn [map combine fst snd]; try reflexivity.
  now rewrite IH.
Qed.

Lemma map_snd_combine {A B : Type} (xs : list A) (ys : list B) :
  List.length xs = List.length ys -> map snd (combine xs ys) = ys.
Proof.
  revert ys. induction xs as [|x xs IH]; intros [|y ys] H;
    cbn [List.length] in H; try discriminate H; [reflexivity|].
  injection H as H. cbn [combine map snd]. now rewrite IH.
Qed.

Lemma replace_mapping_nil (v : cell) : replace_mapping [] v = v.
Proof. now destruct v. Qed.

Lemma apply_unification_find_sector (d : DataFrame) (m : dict string) :
  find_column "sector" (apply_unification d "sector" m)
  = option_map (map_values (replace_mapping m)) (find_column "sector" d).
Proof.
  unfold apply_unification. destruct m as [|kv m].
  - destruct (find_column "sector" d) as [c|]; [|reflexivity].
    cbn [option_map]. f_equal. unfold map_values.
    rewrite (map_ext _ (fun v => v)) by apply replace_mapping_nil.
    rewrite map_id. symmetry. apply column_eta.
  - destruct (has_column "sector" d) eqn:Hhas.
    + unfold map_column.
      rewrite (find_column_map "sector" _ _ (df_index d))
        by (intros c; now destruct (String.eqb (col_name c) "sector")).
      rewrite frame_eta.
      destruct (find_column "sector" d) as [c|] eqn:Hc; [|reflexivity].
      cbn [option_map]. apply find_column_name in Hc as [Hname _].
      rewrite Hname. reflexivity.
    + now rewrite (has_column_none _ _ Hhas).
Qed.

Lemma dict_get_filed_under {V : Type} (k : string) (m : dict V) :
  dict_get k m = filed_under k m.
Proof.
  unfold dict_get. induction m as [|[k' v] m IH]; cbn [find fst filed_under];
    [reflexivity|].
  destruct (String.eqb k' k); [reflexivity | exact IH].
Qed.

Lemma replace_mapping_mapped_name (mapping : dict string) (s : string) :
  replace_mapping mapping (Str s) = Str (mapped_name mapping s).
Proof.
  unfold replace_mapping, mapped_name. rewrite dict_get_filed_under.
  now destruct (filed_under s mapping).
Qed.

Lemma unified_sector_one (p : string) (mapping : dict string)
    (pc sc : cell) :
  (if cell_eqb pc (Str p) then replace_mapping mapping sc else sc)
  = unified_sector [(p, mapping)] (pc, sc).
Proof.
  unfold unified_sector. cbn [filed_under].
  destruct pc as [|q|x|t]; cbn [cell_eqb]; try reflexivity.
  rewrite (String.eqb_sym p q).
  destruct sc as [|s|y|u]; try (now destruct (String.eqb q p)).
  destruct (String.eqb q p); [apply replace_mapping_mapped_name|reflexivity].
Qed.

Lemma filed_under_fresh {V : Type} (k : string) (m : dict V) :
  ~ In k (map fst m) -> filed_under k m = None.
Proof.
  induction m as [|[k' v] m IH]; cbn [map fst In filed_under]; intros H;
    [reflexivity|].
  destruct (String.eqb k' k) eqn:E.
  - apply String.eqb_eq in E. exfalso. apply H. now left.
  - apply IH. intros Hin. apply H. now right.
Qed.

Lemma unified_sector_cons (p : string) (mapping : dict string)
    (m : dict (dict string)) (pc sc : cell) :
  ~ In p (map fst m) ->
  unified_sector m (pc, unified_sector [(p, mapping)] (pc, sc))
  = unified_sector ((p, mapping) :: m) (pc, sc).
Proof.
  intros Hfresh. unfold unified_sector. cbn [filed_under].
  destruct pc as [|q|x|t]; try reflexivity.
  destruct (String.eqb p q) eqn:E.
  - apply String.eqb_eq in E. subst q.
    pose proof (filed_under_fresh p m Hfresh) as Hnone.
    unfold dict in *. destruct sc; try reflexivity. now rewrite Hnone.
  - now destruct sc.
Qed.

Lemma unify_province_sector (cats : list cell) (d d' : DataFrame)
    (prov sec : column) (p : string) (mapping : dict string) :
  unique_labels d ->
  find_column "nombre_prov" d = Some prov ->
  find_column "sector" d = Some sec ->
  List.length (col_values prov) = List.length (col_values sec) ->
  unify_province cats d (p, mapping) = Ok d' ->
  exists sec',
    unique_labels d'
    /\ find_column "nombre_prov" d' = Some prov
    /\ find_column "sector" d' = Some sec'
    /\ col_values sec'
       = map (unified_sector [(p, mapping)])
             (combine (col_values prov) (col_values sec)).
Proof.
  intros Hnd Hprov Hsec Hlen H.
  pose proof (unify_province_framed cats d d' prov p mapping Hnd Hprov H)
    as F.
  assert (Hnd' : unique_labels d')
    by (unfold unique_labels; now rewrite (framed_names _ _ _ _ F)).
  assert (Hprov' : find_column "nombre_prov" d' = Some prov)
    by (rewrite (framed_find _ _ _ _ _ F) by discriminate; exact Hprov).
  clear F.
  unfold unify_province, get_column in H. rewrite Hprov in H.
  cbn [bind] in H.
  set (mask := map (fun c => cell_eqb c (Str p)) (col_values prov)) in *.
  assert (Hpoint :
    map (fun bx : bool * cell =>
           if fst bx then replace_mapping mapping (snd bx) else snd bx)
        (combine mask (col_values sec))
    = map (unified_sector [(p, mapping)])
          (combine (col_values prov) (col_values sec))).
  { subst mask. rewrite map_combine_map. apply map_ext. intros [pc sc].
    cbn [fst snd]. apply unified_sector_one. }
  destruct (existsb (fun b => b) mask) eqn:Eany.
  - apply loc_assign_ok in H.
    exists (mkColumn (col_name sec) (col_dtype sec)
              (scatter mask (col_values sec)
                 (map (replace_mapping mapping)
                      (select mask (col_values sec))))).
    split; [exact Hnd'|]. split; [exact Hprov'|].
    split.
    + rewrite H. unfold loc_write.
      rewrite (find_column_map "sector" _ _ (df_index d)).
      * rewrite frame_eta, Hsec. cbn [option_map].
        pose proof (find_column_name _ _ _ Hsec) as [Hname _].
        rewrite Hname at 1.
        rewrite apply_unification_find_sector, select_rows_find, Hsec.
        reflexivity.
      * intros c.
        now destruct (find_column (col_name c)
                        (apply_unification (select_rows mask d) "sector"
                                           mapping)).
    + cbn [col_values]. rewrite <- Hpoint. apply scatter_map_select.
      subst mask. now rewrite length_map.
  - injection H as H. exists sec.
    split; [exact Hnd'|]. split; [exact Hprov'|].
    split; [now rewrite <- H|].
    rewrite <- Hpoint.
    assert (Hnone : Forall (fun b => b = false) mask).
    { apply Forall_forall. intros b Hb. destruct b; [|reflexivity].
      assert (existsb (fun b => b) mask = true)
        by (apply existsb_exists; now exists true).
      congruence. }
    assert (Hmask : List.length mask = List.length (col_values sec))
      by (subst mask; now rewrite length_map).
    clear -Hnone Hmask. revert Hmask.
    generalize (col_values sec) as xs.
    induction Hnone as [|b mask Hb _ IH]; intros [|x xs] Hl;
      cbn [List.length] in Hl; try discriminate Hl; [reflexivity|].
    injection Hl as Hl. subst b. cbn [combine map fst snd].
    now rewrite <- IH.
Qed.

Lemma fold_unify_province_sector (cats : list cell)
    (m : dict (dict string)) :
  forall (d d' : DataFrame) (prov sec : column),
  unique_labels d ->
  NoDup (map fst m) ->
  find_column "nombre_prov" d = Some prov ->
  find_column "sector" d = Some sec ->
  List.length (col_values prov) = List.length (col_values sec) ->
  fold_left (fun r item => x <- r ;; unify_province cats x item) m (Ok d)
  = Ok d' ->
  exists sec',
    find_column "sector" d' = Some sec'
    /\ col_values sec'
       = map (unified_sector m)
             (combine (col_values prov) (col_values sec)).
Proof.
  induction m as [|[p mapping] m IH];
    intros d d' prov sec Hnd Hkeys Hprov Hsec Hlen; cbn [fold_left bind].
  - intros [= <-]. exists sec. split; [exact Hsec|].
    rewrite (map_ext _ snd) by (intros [[] sc]; now destruct sc).
    symmetry. now apply map_snd_combine.
  - cbn [map fst] in Hkeys. inversion Hkeys as [|? ? Hfresh Hkeys']; subst.
    destruct (unify_province cats d (p, mapping)) as [d1|e] eqn:H1.
    + intros H2.
      destruct (unify_province_sector cats d d1 prov sec p mapping
                  Hnd Hprov Hsec Hlen H1)
        as (sec1 & Hnd1 & Hprov1 & Hsec1 & Hvals1).
      assert (Hlen1 : List.length (col_values prov)
                      = List.length (col_values sec1)).
      { rewrite Hvals1, length_map, length_combine. lia. }
      destruct (IH d1 d' prov sec1 Hnd1 Hkeys' Hprov1 Hsec1 Hlen1 H2)
        as (sec2 & Hsec2 & Hvals2).
      exists sec2. split; [exact Hsec2|].
      rewrite Hvals2, Hvals1. clear -Hfresh Hlen.
      revert Hlen. generalize (col_values sec) as ss.
      induction (col_values prov) as [|pc ps IHp]; intros [|sc ss] Hl;
        cbn [List.length] in Hl; try discriminate Hl; [reflexivity|].
      injection Hl as Hl. cbn [combine map].
      rewrite (unified_sector_cons p mapping m pc sc Hfresh).
      f_equal. now apply IHp.
    + intros H. exfalso. clear -H.
      induction m as [|i m IHm]; cbn [fold_left bind] in H;
        [discriminate | auto].
Qed.

(** X22.  Under a mapping by province, on a table with one sector per
    province cell whose sector column is not category-encoded, the call
    returns a view in which the sector of every row is the name that the
    mapping of the row's province files under it, and the sector itself
    when that mapping files nothing under it; the rows of a province
    without a mapping, the rows whose province is missing and the cells
    that hold no sector name keep what they had. *)
Theorem unification_rewrites_sectors (data : DataFrame)
    (m : dict (dict string)) (prov sec : column) :
  unique_labels data ->
  NoDup (map fst m) ->
  find_column "nombre_prov" data = Some prov ->
  find_column "sector" data = Some sec ->
  List.length (col_values prov) = List.length (col_values sec) ->
  category_encoded "sector" data = false ->
  exists view sec',
    get_filtered_data data None (Some [(BY_PROVINCE, FByProvince m)])
    = Ok view
    /\ find_column "sector" view = Some sec'
    /\ col_values sec'
       = map (unified_sector m)
             (combine (col_values prov) (col_values sec)).
Proof.
  intros Hnd Hkeys Hprov Hsec Hlen Hplain.
  destruct (unify_by_province_returns m data prov Hnd Hprov Hplain)
    as [d' H].
  pose proof H as Hfold. unfold unify_by_province in Hfold.
  destruct (fold_unify_province_sector _ m data d' prov sec
              Hnd Hkeys Hprov Hsec Hlen Hfold)
    as (sec' & Hsec' & Hvals).
  exists d', sec'. split; [|split; [exact Hsec' | exact Hvals]].
  rewrite by_province_call.
  assert (Hs : has_column "sector" data = true)
    by (apply has_column_find; now exists sec).
  assert (Hp : has_column "nombre_prov" data = true)
    by (apply has_column_find; now exists prov).
  rewrite Hs, Hp. exact H.
Qed.

(** [unification_rewrites_sectors] on [sample_visits]: SAN JUA becomes
    SAN JUAN in LIMA, and nothing changes in CUSCO. *)
Lemma unification_rewrites_sectors_sample :
  exists view sec',
    get_filtered_data sample_visits None
      (Some [(BY_PROVINCE,
              FByProvince [("LIMA", [("SAN JUA", "SAN JUAN")])])])
    = Ok view
    /\ find_column "sector" view = Some sec'
    /\ col_values sec'
       = map (unified_sector [("LIMA", [("SAN JUA", "SAN JUAN")])])
             (combine
                [Str "LIMA"; Str "LIMA"; Str "CUSCO"; Str "CUSCO"]
                [Str "SAN JUAN"; Str "SAN JUA"; Str "SAN JUAN"; Str ""]).
Proof.
  refine (unification_rewrites_sectors sample_visits
            [("LIMA", [("SAN JUA", "SAN JUAN")])]
            (mkColumn "nombre_prov" DObject
               [Str "LIMA"; Str "LIMA"; Str "CUSCO"; Str "CUSCO"])
            (mkColumn "sector" DObject
               [Str "SAN JUAN"; Str "SAN JUA"; Str "SAN JUAN"; Str ""])
            _ _ eq_refl eq_refl eq_refl eq_refl).
  - exact sample_visits_unique_labels.
  - repeat constructor. intros [].
Defined.

(** The sectors the sample ends with. *)
Example unification_rewrites_sectors_values :
  map (unified_sector [("LIMA", [("SAN JUA", "SAN JUAN")])])
      (combine
         [Str "LIMA"; Str "LIMA"; Str "CUSCO"; Str "CUSCO"]
         [Str "SAN JUAN"; Str "SAN JUA"; Str "SAN JUA"; Null])
  = [Str "SAN JUAN"; Str "SAN JUAN"; Str "SAN JUA"; Null].
Proof. reflexivity. Qed.

(** ** Similar sectors: spelling variants end in one group *)

Lemma non_blank_not_empty (s : string) : non_blank s = true -> s <> "".
Proof. intros H ->. discriminate H. Qed.

Lemma same_spelling_sym (a b : string) :
  same_spelling a b -> same_spelling b a.
Proof. intros (Ha & Hb & Hn). repeat split; auto. Qed.

Lemma two_members_length {A : Type} (a b : A) (l : list A) :
  In a l -> In b l -> a <> b -> (1 < List.length l)%nat.
Proof.
  destruct l as [|x [|y l]]; cbn [In List.length]; intros Ha Hb Hne;
    [tauto | | lia].
  destruct Ha as [<- | []], Hb as [<- | []]. congruence.
Qed.

Section SpellingVariants.
Context {difflib : Difflib} (self : SectorSimilarityDetector).

Lemma similarity_same_spelling (seed a b : string) :
  same_spelling a b ->
  calculate_similarity seed a = calculate_similarity seed b.
Proof.
  intros (Ha & Hb & Hn). unfold calculate_similarity.
  apply String.eqb_neq in Ha, Hb. rewrite Ha, Hb, Hn. reflexivity.
Qed.

Lemma similarity_of_variants (a b : string) :
  same_spelling a b -> calculate_similarity a b = 1.
Proof.
  intros (Ha & Hb & Hn). unfold calculate_similarity.
  apply String.eqb_neq in Ha, Hb. rewrite Ha, Hb, Hn. cbn [orb].
  now rewrite String.eqb_refl.
Qed.

Lemma similar_fold_complete (sector1 : string) (rest : list string) :
  forall group processed group' processed',
  fold_left (similar_step self sector1) rest (group, processed)
  = (group', processed') ->
  forall x, In x rest -> meets_threshold self sector1 x -> In x processed'.
Proof.
  induction rest as [|sector2 rest IH];
    intros group processed group' processed' H x Hx Hmeets;
    [destruct Hx|].
  cbn [fold_left] in H.
  destruct (similar_step self sector1 (group, processed) sector2)
    as [group1 processed1] eqn:Hstep.
  destruct Hx as [<- | Hx]; [|exact (IH _ _ _ _ H x Hx Hmeets)].
  destruct (similar_fold_spec self sector1 rest _ _ _ _ H)
    as (added & _ & Hiff & _).
  apply Hiff. left. cbn [similar_step] in Hstep.
  destruct (mem_string sector2 processed) eqn:Hmem.
  - injection Hstep as <- <-. now apply mem_string_In.
  - unfold meets_threshold in Hmeets. rewrite Hmeets in Hstep.
    injection Hstep as <- <-. now left.
Qed.

Lemma similar_groups_loop_variants (all : list string)
    (sectors : list string) :
  similarity_threshold self <= 1 ->
  forall visited processed groups,
  all = visited ++ sectors ->
  (forall x, In x visited -> In x processed) ->
  Forall (fun e => Forall (fun s => In s processed) (snd e)) groups ->
  Forall (fun e => In (fst e) (snd e)) groups ->
  (forall a b, In a all -> In b all -> same_spelling a b ->
               In a processed -> In b processed) ->
  (forall a b, In a all -> In b all -> same_spelling a b -> a <> b ->
               In a processed ->
               exists k g, In (k, g) groups /\ In a g /\ In b g) ->
  forall a b, In a all -> In b all -> same_spelling a b -> a <> b ->
  exists k g,
    In (k, g) (similar_groups_loop self sectors processed groups)
    /\ In a g /\ In b g.
Proof.
  intros Hthr.
  induction sectors as [|sector1 rest IH];
    intros visited processed groups Hall Hvis Hproc Hkeys Hclosed Hgrouped;
    cbn [similar_groups_loop].
  - rewrite app_nil_r in Hall. subst visited.
    intros a b Ha Hb Hab Hne. apply Hgrouped; auto.
  - assert (Hall' : all = (visited ++ [sector1]) ++ rest)
      by (now rewrite <- app_assoc).
    destruct (mem_string sector1 processed) eqn:Hseen.
    { apply mem_string_In in Hseen.
      apply (IH (visited ++ [sector1])); auto.
      intros x Hx. apply in_app_iff in Hx as [Hx | [<- | []]]; auto. }
    apply mem_string_false in Hseen.
    destruct (fold_left (similar_step self sector1) rest
                ([sector1], sector1 :: processed))
      as [group processed'] eqn:Hfold.
    destruct (similar_fold_spec self _ _ _ _ _ _ Hfold)
      as (added & Hgroup & Hproc' & Hadded & _).
    pose proof (similar_fold_complete _ _ _ _ _ _ Hfold) as Hcomplete.
    cbn [app] in Hgroup. rewrite Forall_forall in Hadded.
    assert (Hmono : forall s, In s processed -> In s processed').
    { intros s Hs. apply Hproc'. left. now right. }
    assert (Hin_group : forall s, In s group -> In s processed').
    { intros s Hs. apply Hproc'. rewrite Hgroup in Hs.
      destruct Hs as [<- | Hs]; [left; now left | now right]. }
    assert (Hnew : forall s, In s group -> ~ In s processed).
    { intros s Hs. rewrite Hgroup in Hs. destruct Hs as [<- | Hs];
        [exact Hseen|].
      destruct (Hadded _ Hs) as (_ & Hn & _). intros Hin. apply Hn.
      now right. }
    assert (Hsplit : forall s, In s processed' ->
                               In s processed \/ In s group).
    { intros s Hs. apply Hproc' in Hs as [[<- | Hs] | Hs].
      - right. rewrite Hgroup. now left.
      - now left.
      - right. rewrite Hgroup. now right. }
    assert (Hmeets : forall s, In s group -> s = sector1
                               \/ meets_threshold self sector1 s).
    { intros s Hs. rewrite Hgroup in Hs. destruct Hs as [<- | Hs];
        [now left|]. right. now destruct (Hadded _ Hs) as (_ & _ & Ht). }
    assert (Hclosed' : forall a b, In a all -> In b all ->
                         same_spelling a b ->
                         In a processed' -> In b processed').
    { intros a b Ha Hb Hab Hpa.
      destruct (Hsplit a Hpa) as [Hold | Hg];
        [apply Hmono; now apply (Hclosed a b)|].
      rewrite Hall in Hb. apply in_app_iff in Hb as [Hb | [<- | Hb]].
      - apply Hmono. now apply Hvis.
      - apply Hproc'. left. now left.
      - apply (Hcomplete b Hb). unfold meets_threshold.
        destruct (Hmeets a Hg) as [-> | Hm].
        + rewrite (similarity_of_variants _ _ Hab).
          now apply Qle_bool_iff.
        + unfold meets_threshold in Hm.
          now rewrite <- (similarity_same_spelling sector1 a b Hab). }
    set (groups' := if (1 <? List.length group)%nat
                    then dict_set (min_by_len group) group groups
                    else groups).
    assert (Hgroups' :
      (forall e, In e groups -> In e groups')
      /\ ((1 < List.length group)%nat ->
          In (min_by_len group, group) groups'
          /\ In (min_by_len group) group)
      /\ forall e, In e groups' ->
                   In e groups \/ (e = (min_by_len group, group)
                                   /\ In (min_by_len group) group)).
    { subst groups'. destruct (1 <? List.length group)%nat eqn:Hlen.
      - apply Nat.ltb_lt in Hlen.
        pose proof (first_shortest_In _ _ (min_by_len_spec group Hlen))
          as Hkey.
        assert (Hfresh : dict_has (min_by_len group) groups = false).
        { apply mem_string_false. intros Hin.
          apply in_map_iff in Hin as (e & He & Hin).
          rewrite Forall_forall in Hkeys, Hproc.
          pose proof (Hkeys _ Hin) as Hk.
          pose proof (Hproc _ Hin) as Hp. rewrite Forall_forall in Hp.
          apply (Hnew _ Hkey). apply Hp. now rewrite <- He. }
        rewrite (dict_set_fresh _ _ _ Hfresh). split; [|split].
        + intros e He. apply in_app_iff. now left.
        + intros _. split; [|exact Hkey]. apply in_app_iff. right. now left.
        + intros e He. apply in_app_iff in He as [He | [<- | []]];
            [now left | now right].
      - apply Nat.ltb_ge in Hlen. split; [auto|]. split; [lia | auto]. }
    destruct Hgroups' as (Hkeep & Hadd & Hfrom).
    apply (IH (visited ++ [sector1]) processed' groups'); auto.
    + intros x Hx. apply in_app_iff in Hx as [Hx | [<- | []]].
      * apply Hmono. now apply Hvis.
      * apply Hproc'. left. now left.
    + apply Forall_forall. intros e He.
      destruct (Hfrom e He) as [Hold | [-> _]].
      * rewrite Forall_forall in Hproc. pose proof (Hproc e Hold) as Hp.
        eapply Forall_impl; [|exact Hp]. exact Hmono.
      * cbn [snd]. apply Forall_forall. exact Hin_group.
    + apply Forall_forall. intros e He.
      destruct (Hfrom e He) as [Hold | [-> Hkey]].
      * rewrite Forall_forall in Hkeys. now apply Hkeys.
      * exact Hkey.
    + intros a b Ha Hb Hab Hne Hpa.
      destruct (Hsplit a Hpa) as [Hold | Hg].
      * destruct (Hgrouped a b Ha Hb Hab Hne Hold) as (k & g & Hin & H1 & H2).
        exists k, g. split; [now apply Hkeep | now split].
      * pose proof (Hclosed' a b Ha Hb Hab Hpa) as Hpb.
        destruct (Hsplit b Hpb) as [Hold | Hgb].
        -- exfalso. apply (Hnew a Hg).
           apply (Hclosed b a Hb Ha (same_spelling_sym _ _ Hab) Hold).
        -- destruct (Hadd (two_members_length a b group Hg Hgb Hne))
             as [Hin _].
           exists (min_by_len group), group. now split.
Qed.

(** X23.  With a threshold of at most 1, two different labels of the list that
    differ in spelling only -- neither is blank, and they have the same
    normalised form -- are always reported together, as members of one
    group; no third label can separate them. *)
Theorem spelling_variants_share_a_group (sectors_list : list string)
    (a b : string) :
  similarity_threshold self <= 1 ->
  In a sectors_list -> In b sectors_list ->
  non_blank a = true -> non_blank b = true ->
  normalize_sector_name a = normalize_sector_name b ->
  a <> b ->
  exists k g,
    In (k, g) (find_similar_sectors self sectors_list)
    /\ In a g /\ In b g.
Proof.
  intros Hthr Ha Hb Hna Hnb Hn Hne.
  unfold find_similar_sectors. fold non_blank.
  assert (Ha' : In a (filter non_blank sectors_list))
    by (apply filter_In; now split).
  assert (Hb' : In b (filter non_blank sectors_list))
    by (apply filter_In; now split).
  pose proof (two_members_length a b _ Ha' Hb' Hne) as Hlen.
  assert (Hlen' : (List.length (filter non_blank sectors_list) <? 2)%nat
                  = false) by (apply Nat.ltb_ge; lia).
  rewrite Hlen'.
  apply (similar_groups_loop_variants (filter non_blank sectors_list)
           (filter non_blank sectors_list) Hthr [] [] []);
    [ reflexivity | intros x [] | constructor | constructor
    | intros x y _ _ _ [] | intros x y _ _ _ _ []
    | exact Ha' | exact Hb' | | exact Hne ].
  repeat split; auto using non_blank_not_empty.
Qed.

End SpellingVariants.

(** [spelling_variants_share_a_group] with the default detector. *)
Lemma spelling_variants_share_a_group_sample :
  exists k g,
    In (k, g)
       (find_similar_sectors default_detector
          ["CENTRO"; "SAN JUAN"; "LA UNION"; "san juan."])
    /\ In "SAN JUAN" g /\ In "san juan." g.
Proof.
  refine (spelling_variants_share_a_group default_detector
            ["CENTRO"; "SAN JUAN"; "LA UNION"; "san juan."]
            "SAN JUAN" "san juan." _ _ _ eq_refl eq_refl eq_refl _).
  - apply Qle_bool_iff. reflexivity.
  - right. now left.
  - do 3 right. now left.
  - discriminate.
Defined.

(** ** The activity type, whatever its case *)

Lemma ascii_eqb_codes (a b : ascii) :
  Ascii.eqb a b = (nat_of_ascii a =? nat_of_ascii b)%nat.
Proof.
  destruct (Ascii.eqb_spec a b) as [-> | Hne].
  - now rewrite Nat.eqb_refl.
  - symmetry. apply Nat.eqb_neq. intros H. apply Hne.
    rewrite <- (ascii_nat_embedding a), <- (ascii_nat_embedding b).
    now rewrite H.
Qed.

Lemma lower_ascii_code (a : ascii) :
  nat_of_ascii (lower_ascii a)
  = (if (65 <=? nat_of_ascii a)%nat && (nat_of_ascii a <=? 90)%nat
     then nat_of_ascii a + 32 else nat_of_ascii a)%nat.
Proof.
  unfold lower_ascii.
  destruct ((65 <=? nat_of_ascii a)%nat && (nat_of_ascii a <=? 90)%nat)
    eqn:E; [|reflexivity].
  apply andb_true_iff in E as [_ E]. apply Nat.leb_le in E.
  apply nat_ascii_embedding. lia.
Qed.

Lemma lower_ascii_same_letter (a b : ascii) :
  Ascii.eqb (lower_ascii a) (lower_ascii b) = same_letter a b.
Proof.
  rewrite ascii_eqb_codes, !lower_ascii_code. unfold same_letter.
  generalize (nat_of_ascii a) as m, (nat_of_ascii b) as n. intros m n.
  destruct (Nat.leb_spec 65 m), (Nat.leb_spec m 90),
           (Nat.leb_spec 65 n), (Nat.leb_spec n 90);
    cbn [andb orb];
    destruct (Nat.eqb_spec m n), (Nat.eqb_spec n (m + 32)),
             (Nat.eqb_spec m (n + 32));
    cbn [andb orb]; try reflexivity; try lia;
    try (apply Nat.eqb_eq; lia); try (apply Nat.eqb_neq; lia).
Qed.

Lemma lower_same_ignoring_case (s t : string) :
  String.eqb (lower s) (lower t) = same_ignoring_case s t.
Proof.
  revert t. induction s as [|a s IH]; intros [|b t];
    cbn [lower String.eqb same_ignoring_case]; try reflexivity.
  now rewrite lower_ascii_same_letter, IH.
Qed.

Lemma str_lower_text (c : column) :
  col_dtype c = DObject \/ col_dtype c = DCategory ->
  str_lower c
  = Ok (map (fun v => match v with Str s => Str (lower s) | _ => Null end)
            (col_values c)).
Proof. unfold str_lower. now intros [-> | ->]. Qed.

(** X24.  The activity type is compared without regard to case.  With an
    activity type that is not empty and an activity column of text, the
    activity block keeps exactly the rows whose activity is the requested
    one up to the case of its ASCII letters -- Cerco, CERCO and cerco are
    one activity -- and the filters then apply to these rows. *)
Theorem activity_type_case_insensitive (data unified : DataFrame)
    (c : column) (a : string) (filters : option (dict filter_value)) :
  a <> "" ->
  unify_stage data filters = Ok unified ->
  find_column "tipoActividadInspeccion" unified = Some c ->
  col_dtype c = DObject \/ col_dtype c = DCategory ->
  get_filtered_data data (Some a) filters
  = filters_stage
      (select_rows (map (is_activity a) (col_values c)) unified) filters.
Proof.
  intros Ha Hu Hc Htext. unfold get_filtered_data. rewrite Hu.
  cbn [bind]. unfold activity_stage, get_column.
  apply String.eqb_neq in Ha. rewrite Ha, Hc. cbn [bind].
  rewrite (str_lower_text c Htext). cbn [bind]. rewrite map_map.
  do 2 f_equal. apply map_ext. intros [|s|q|t]; try reflexivity.
  cbn [cell_eqb is_activity]. apply lower_same_ignoring_case.
Qed.

(** [activity_type_case_insensitive] on [sample_activities]: the
    activity CERCO keeps the visits filed as Cerco and as CERCO. *)
Lemma activity_type_case_insensitive_sample :
  get_filtered_data sample_activities (Some "CERCO") None
  = filters_stage
      (select_rows
         (map (is_activity "CERCO") [Str "Cerco"; Str "control"; Str "CERCO"])
         sample_activities)
      None.
Proof.
  refine (activity_type_case_insensitive sample_activities sample_activities
            (mkColumn "tipoActividadInspeccion" DObject
               [Str "Cerco"; Str "control"; Str "CERCO"])
            "CERCO" None _ eq_refl eq_refl (or_introl eq_refl)).
  discriminate.
Defined.

Example activity_type_sample :
  get_filtered_data sample_activities (Some "Cerco") None
  = Ok (select_rows [true; false; true] sample_activities)
  /\ map (is_activity "CERCO") [Str "Cerco"; Str "control"; Str "CERCO"; Null]
     = [true; false; true; false].
Proof. split; reflexivity. Qed.
